(** * sagemaker.processor: a shallow embedding

    The module [src/sagemaker/processor.py] prepares and submits processing
    jobs.  Its objects ([FileInput], [FileOutput], [ProcessingJob]) are
    mutable Python objects that callers and the processor share, so they
    live in a store ([heap]) and lists hold references to them.  Calls to
    the collaborators (the S3 uploader, the SageMaker session, standard
    output) are recorded, in order, in a [trace]; the session's
    [default_bucket()] apart, which is read as a constant.  Methods are
    computations in a state-and-exception monad over that state. *)

From Stdlib Require Import String Ascii ZArith DecimalString.
From stdpp Require Import gmap strings list fin_maps.

Set Warnings "-register-all".
Local Open Scope string_scope.
Local Open Scope list_scope.
Local Open Scope Z_scope.
Local Open Scope nat_scope.

(** ** Python values and exceptions *)

(** Plain data handed to the session or printed: [None], strings, integers,
    lists and dictionaries with string keys. *)
Inductive jval : Type :=
  | JNull
  | JStr (s : string)
  | JInt (z : Z)
  | JList (l : list jval)
  | JDict (d : gmap string jval).

(** The exception classes the module raises, directly or through the
    attribute access and [os.path.join] it performs. *)
Inductive exn : Type :=
  | TypeError
  | ValueError
  | AttributeError
  | NotImplementedError.

Inductive result (A : Type) : Type :=
  | Ok (a : A)
  | Raise (e : exn).
Arguments Ok {A} a.
Arguments Raise {A} e.

Definition opt_str (o : option string) : jval :=
  match o with
  | Some s => JStr s
  | None => JNull
  end.

Definition opt_jval (o : option jval) : jval :=
  match o with
  | Some v => v
  | None => JNull
  end.

(** ["{}".format(n)] for a non-negative integer. *)
Definition str_of_nat (n : nat) : string :=
  NilZero.string_of_uint (Nat.to_uint n).

(** ** [os.path] (posixpath) on strings *)

Module os_path.

Definition sep : ascii := "/"%char.
Definition extsep : ascii := "."%char.

Definition startswith_sep (b : string) : bool :=
  match b with
  | String c _ => bool_decide (c = sep)
  | EmptyString => false
  end.

Fixpoint endswith_sep (s : string) : bool :=
  match s with
  | EmptyString => false
  | String c EmptyString => bool_decide (c = sep)
  | String _ s' => endswith_sep s'
  end.

(** One turn of the loop of [posixpath.join]: an absolute component
    discards what came before; otherwise the component is appended, with a
    separator unless the path is empty or already ends in one. *)
Definition join_step (path b : string) : string :=
  if startswith_sep b then b
  else if bool_decide (path = "") || endswith_sep path then path +:+ b
  else path +:+ "/" +:+ b.

Definition posix_join (a : string) (p : list string) : string :=
  foldl join_step a p.

Fixpoint all_str (p : list (option string)) : option (list string) :=
  match p with
  | [] => Some []
  | Some s :: p' =>
      match all_str p' with
      | Some ps => Some (s :: ps)
      | None => None
      end
  | None :: _ => None
  end.

(** [os.path.join(a, *p)]: a component that is [None] is a [TypeError]. *)
Definition join (a : string) (p : list (option string)) : result string :=
  match all_str p with
  | Some ps => Ok (posix_join a ps)
  | None => Raise TypeError
  end.

(** [s.rfind(c)]: the index of the last [c] in [s], or [-1]. *)
Fixpoint rfind_from (c : ascii) (s : string) (i acc : Z) : Z :=
  match s with
  | EmptyString => acc
  | String a s' => rfind_from c s' (i + 1)%Z (if bool_decide (a = c) then i else acc)
  end.

Definition rfind (c : ascii) (s : string) : Z := rfind_from c s 0%Z (-1)%Z.

(** [s[:n]] and [s[n:]] for [0 <= n]. *)
Fixpoint str_take (n : nat) (s : string) : string :=
  match n, s with
  | S n', String c s' => String c (str_take n' s')
  | _, _ => EmptyString
  end.

Fixpoint str_drop (n : nat) (s : string) : string :=
  match n, s with
  | S n', String _ s' => str_drop n' s'
  | _, _ => s
  end.

Fixpoint str_exists (f : ascii -> bool) (s : string) : bool :=
  match s with
  | EmptyString => false
  | String c s' => f c || str_exists f s'
  end.

(** [posixpath.basename]: [i = p.rfind('/') + 1; return p[i:]]. *)
Definition basename (p : string) : string :=
  str_drop (Z.to_nat (rfind sep p + 1)) p.

(** [posixpath.splitext] ([genericpath._splitext]): the extension starts at
    the last dot of the final path segment, provided some character of that
    segment before the dot is not itself a dot. *)
Definition splitext (p : string) : string * string :=
  let sepIndex := rfind sep p in
  let dotIndex := rfind extsep p in
  if (sepIndex <? dotIndex)%Z then
    let filename := str_drop (Z.to_nat (sepIndex + 1)) (str_take (Z.to_nat dotIndex) p) in
    if str_exists (fun c => negb (bool_decide (c = extsep))) filename
    then (str_take (Z.to_nat dotIndex) p, str_drop (Z.to_nat dotIndex) p)
    else (p, "")
  else (p, "").

End os_path.

(** ** The enumerations of [sagemaker.s3] *)

(** Modelled from the spec: [sagemaker.s3] is another module of the
    package.  Each enumeration has the member this module names and the
    alternative the data model gives it (single file vs manifest, batch vs
    streaming, eager vs continuous, full replication vs sharded, none vs
    gzip).  The wire constant of a member ([.value]) is a parameter of the
    [World]. *)
Module S3DataType.
Inductive t : Type := MANIFEST_FILE | S3_PREFIX.
End S3DataType.

Module S3InputMode.
Inductive t : Type := PIPE | FILE.
End S3InputMode.

Module S3DownloadMode.
Inductive t : Type := START_OF_JOB | CONTINUOUS.
End S3DownloadMode.

Module S3DataDistributionType.
Inductive t : Type := FULLY_REPLICATED | SHARDED_BY_S3_KEY.
End S3DataDistributionType.

Module S3CompressionType.
Inductive t : Type := NONE | GZIP.
End S3CompressionType.

Module S3UploadMode.
Inductive t : Type := CONTINUOUS | END_OF_JOB.
End S3UploadMode.

#[global] Instance S3InputMode_eq_dec : EqDecision S3InputMode.t.
Proof. solve_decision. Defined.

#[global] Instance S3CompressionType_eq_dec : EqDecision S3CompressionType.t.
Proof. solve_decision. Defined.

(** ** The world outside the module

    What the module imports and calls but does not define: [urlparse],
    the file system queries of [os.path], the session's default bucket,
    [S3Uploader.upload], the job-name helpers of [sagemaker.utils] and the
    enumerations' wire constants.  [name_from_base] stamps the base name
    with the time of the call, so it takes the reading of the clock, and
    the clock moves on with every call.  The collaborators are taken to
    answer: a call that fails in the uploader or the session is outside
    the model, so what is proved of a method that raises is proved of the
    errors the module itself raises.  [sagemaker_session.default_bucket()]
    is a call on the session that the module makes wherever it builds a
    remote address; it is read here as a constant of the world, the same
    bucket at every call, and it is not an entry of the trace. *)
Record World : Type := {
  urlparse_scheme : string -> string;
  isdir : string -> bool;
  isfile : string -> bool;
  default_bucket : string;
  S3Uploader_upload : string -> string -> string;
  base_name_from_image : string -> string;
  name_from_base : string -> nat -> string;
  describe_analytics_job : option string -> jval;
  S3DataType_value : S3DataType.t -> string;
  S3InputMode_value : S3InputMode.t -> string;
  S3DownloadMode_value : S3DownloadMode.t -> string;
  S3DataDistributionType_value : S3DataDistributionType.t -> string;
  S3CompressionType_value : S3CompressionType.t -> string;
  S3UploadMode_value : S3UploadMode.t -> string
}.

(** [urlparse(x).scheme == "s3"]: the address is already in remote storage. *)
Definition is_s3 (W : World) (x : string) : bool :=
  bool_decide (urlparse_scheme W x = "s3").

(** ** Descriptors *)

Module FileInput.

Record t : Type := {
  source : string;
  destination : string;
  input_name : option string;
  s3_data_type : S3DataType.t;
  s3_input_mode : S3InputMode.t;
  s3_download_mode : S3DownloadMode.t;
  s3_data_distribution_type : S3DataDistributionType.t;
  s3_compression_type : option S3CompressionType.t
}.

(** [FileInput(source, destination, input_name=None, ...)] with the
    defaults of [__init__]. *)
Definition init (src dst : string) (name : option string) : t := {|
  source := src;
  destination := dst;
  input_name := name;
  s3_data_type := S3DataType.MANIFEST_FILE;
  s3_input_mode := S3InputMode.FILE;
  s3_download_mode := S3DownloadMode.CONTINUOUS;
  s3_data_distribution_type := S3DataDistributionType.FULLY_REPLICATED;
  s3_compression_type := Some S3CompressionType.NONE
|}.

Definition set_input_name (n : option string) (self : t) : t := {|
  source := source self;
  destination := destination self;
  input_name := n;
  s3_data_type := s3_data_type self;
  s3_input_mode := s3_input_mode self;
  s3_download_mode := s3_download_mode self;
  s3_data_distribution_type := s3_data_distribution_type self;
  s3_compression_type := s3_compression_type self
|}.

Definition set_source (s : string) (self : t) : t := {|
  source := s;
  destination := destination self;
  input_name := input_name self;
  s3_data_type := s3_data_type self;
  s3_input_mode := s3_input_mode self;
  s3_download_mode := s3_download_mode self;
  s3_data_distribution_type := s3_data_distribution_type self;
  s3_compression_type := s3_compression_type self
|}.

(** The ["S3Input"] dictionary before the compression field is added. *)
Definition s3_input_base (W : World) (self : t) : gmap string jval :=
  <["S3DataDistributionType" := JStr (S3DataDistributionType_value W (s3_data_distribution_type self))]>
  (<["S3DownloadMode" := JStr (S3DownloadMode_value W (s3_download_mode self))]>
  (<["S3InputMode" := JStr (S3InputMode_value W (s3_input_mode self))]>
  (<["S3DataType" := JStr (S3DataType_value W (s3_data_type self))]>
  (<["LocalPath" := JStr (destination self)]>
  (<["S3Uri" := JStr (source self)]> ∅))))).

(** The ["S3Input"] dictionary of a request that is built. *)
Definition s3_input (W : World) (self : t) : gmap string jval :=
  match s3_compression_type self with
  | Some c => <["S3CompressionType" := JStr (S3CompressionType_value W c)]> (s3_input_base W self)
  | None => s3_input_base W self
  end.

Definition to_request_dict (W : World) (self : t) : result (gmap string jval) :=
  if bool_decide (s3_compression_type self = Some S3CompressionType.GZIP)
     && negb (bool_decide (s3_input_mode self = S3InputMode.PIPE))
  then Raise ValueError
  else Ok (<["S3Input" := JDict (s3_input W self)]>
           (<["InputName" := opt_str (input_name self)]> ∅)).

End FileInput.

Module FileOutput.

Record t : Type := {
  source : string;
  destination : string;
  output_name : option string;
  kms_key_id : option string;
  s3_upload_mode : S3UploadMode.t
}.

(** [FileOutput(source=..., destination=...)] with the defaults of
    [__init__]. *)
Definition init (src dst : string) : t := {|
  source := src;
  destination := dst;
  output_name := None;
  kms_key_id := None;
  s3_upload_mode := S3UploadMode.CONTINUOUS
|}.

Definition set_output_name (n : option string) (self : t) : t := {|
  source := source self;
  destination := destination self;
  output_name := n;
  kms_key_id := kms_key_id self;
  s3_upload_mode := s3_upload_mode self
|}.

Definition s3_output_base (W : World) (self : t) : gmap string jval :=
  <["S3UploadMode" := JStr (S3UploadMode_value W (s3_upload_mode self))]>
  (<["LocalPath" := JStr (source self)]>
  (<["S3Uri" := JStr (destination self)]> ∅)).

Definition s3_output (W : World) (self : t) : gmap string jval :=
  match kms_key_id self with
  | Some k => <["KmsKeyId" := JStr k]> (s3_output_base W self)
  | None => s3_output_base W self
  end.

Definition to_request_dict (W : World) (self : t) : gmap string jval :=
  <["S3Output" := JDict (s3_output W self)]>
  (<["OutputName" := opt_str (output_name self)]> ∅).

End FileOutput.

(** ** The store, the trace and the monad *)

(** Addresses of the store. *)
Abbreviation loc := nat (only parsing).

(** What a caller can put in a list of inputs or outputs: [None], a string,
    or a reference to an object of the store. *)
Inductive pyval : Type :=
  | VNone
  | VStr (s : string)
  | VRef (l : loc).

Module ProcessingJob.

(** The attributes of a [ProcessingJob].  The session it holds is the one
    session of the [World]. *)
Record t : Type := {
  job_name : option string;
  inputs : list pyval;
  outputs : list pyval
}.

(** Modelled from the spec: the base class [_Job] is defined in
    [sagemaker.job], another module of the package; the job name is the
    identity of a record and the sole key of the operations on it, so the
    attribute [name] that [stop] reads is the job name. *)
Definition name (self : t) : option string := job_name self.

End ProcessingJob.

Inductive pyobj : Type :=
  | ObjFileInput (fi : FileInput.t)
  | ObjFileOutput (fo : FileOutput.t)
  | ObjProcessingJob (j : ProcessingJob.t).

(** The calls the trace records, in the order they are made: the uploads
    of [S3Uploader.upload], the session's [process],
    [logs_for_processing_job], [wait_for_processing_job],
    [describe_analytics_job] and [stop_processing_job], and the prints.
    Each is taken to return; [default_bucket()] and the pure helpers of
    the [World] are not recorded. *)
Inductive event : Type :=
  | EvUpload (local_path desired_s3_uri : string)
  | EvProcess (kwargs : gmap string jval)
  | EvLogsForProcessingJob (job_name : option string)
  | EvWaitForProcessingJob (job_name : option string)
  | EvDescribeAnalyticsJob (job_name : option string)
  | EvStopProcessingJob (job_name : option string)
  | EvPrint (args : list jval).

(** The attributes of a [Processor]; [py_version] is the one a
    [ScriptModeProcessor] adds. *)
Record Processor : Type := {
  role : string;
  image_uri : string;
  processing_instance_count : Z;
  processing_instance_type : string;
  entrypoint : option (list string);
  arguments : option (list string);
  processing_volume_size_in_gb : Z;
  processing_volume_kms_key : option string;
  processing_max_runtime_in_seconds : Z;
  base_job_name : option string;
  env : option jval;
  tags : option jval;
  network_config : option jval;
  jobs : list loc;
  latest_job : option loc;
  _current_job_name : option string;
  py_version : string
}.

Definition CODE_CONTAINER_BASE_PATH : string := "/code/".
Definition CODE_CONTAINER_INPUT_NAME : string := "source".

Definition with_current_job_name (n : option string) (p : Processor) : Processor := {|
  role := role p;
  image_uri := image_uri p;
  processing_instance_count := processing_instance_count p;
  processing_instance_type := processing_instance_type p;
  entrypoint := entrypoint p;
  arguments := arguments p;
  processing_volume_size_in_gb := processing_volume_size_in_gb p;
  processing_volume_kms_key := processing_volume_kms_key p;
  processing_max_runtime_in_seconds := processing_max_runtime_in_seconds p;
  base_job_name := base_job_name p;
  env := env p;
  tags := tags p;
  network_config := network_config p;
  jobs := jobs p;
  latest_job := latest_job p;
  _current_job_name := n;
  py_version := py_version p
|}.

Definition with_entrypoint (e : option (list string)) (p : Processor) : Processor := {|
  role := role p;
  image_uri := image_uri p;
  processing_instance_count := processing_instance_count p;
  processing_instance_type := processing_instance_type p;
  entrypoint := e;
  arguments := arguments p;
  processing_volume_size_in_gb := processing_volume_size_in_gb p;
  processing_volume_kms_key := processing_volume_kms_key p;
  processing_max_runtime_in_seconds := processing_max_runtime_in_seconds p;
  base_job_name := base_job_name p;
  env := env p;
  tags := tags p;
  network_config := network_config p;
  jobs := jobs p;
  latest_job := latest_job p;
  _current_job_name := _current_job_name p;
  py_version := py_version p
|}.

(** [self.latest_job = j; self.jobs.append(j)]. *)
Definition with_latest_job (j : loc) (p : Processor) : Processor := {|
  role := role p;
  image_uri := image_uri p;
  processing_instance_count := processing_instance_count p;
  processing_instance_type := processing_instance_type p;
  entrypoint := entrypoint p;
  arguments := arguments p;
  processing_volume_size_in_gb := processing_volume_size_in_gb p;
  processing_volume_kms_key := processing_volume_kms_key p;
  processing_max_runtime_in_seconds := processing_max_runtime_in_seconds p;
  base_job_name := base_job_name p;
  env := env p;
  tags := tags p;
  network_config := network_config p;
  jobs := jobs p ++ [j];
  latest_job := Some j;
  _current_job_name := _current_job_name p;
  py_version := py_version p
|}.

(** The state a method runs in: the processor it is called on, the store
    of objects, the calls made so far and the clock. *)
Record State : Type := {
  self : Processor;
  heap : list pyobj;
  trace : list event;
  clock : nat
}.

Definition set_self (p : Processor) (st : State) : State :=
  {| self := p; heap := heap st; trace := trace st; clock := clock st |}.

Definition set_heap (h : list pyobj) (st : State) : State :=
  {| self := self st; heap := h; trace := trace st; clock := clock st |}.

Definition add_event (e : event) (st : State) : State :=
  {| self := self st; heap := heap st; trace := trace st ++ [e]; clock := clock st |}.

Definition advance_clock (st : State) : State :=
  {| self := self st; heap := heap st; trace := trace st; clock := S (clock st) |}.

(** A method either returns or raises; what it did to the state before
    raising stays done. *)
Definition M (A : Type) : Type := State -> result A * State.

Definition ret {A : Type} (a : A) : M A := fun st => (Ok a, st).

Definition raise {A : Type} (e : exn) : M A := fun st => (Raise e, st).

Definition bind {A B : Type} (m : M A) (k : A -> M B) : M B :=
  fun st =>
    match m st with
    | (Ok a, st') => k a st'
    | (Raise e, st') => (Raise e, st')
    end.

Declare Scope py_scope.
Delimit Scope py_scope with py.
Notation "x <- m ;; k" := (bind m (fun x => k))
  (at level 100, m at next level, k at level 200, right associativity) : py_scope.
Notation "m ;; k" := (bind m (fun _ => k))
  (at level 100, k at level 200, right associativity) : py_scope.
Local Open Scope py_scope.

Definition get : M State := fun st => (Ok st, st).

Definition modify (f : State -> State) : M unit := fun st => (Ok tt, f st).

Definition lift {A : Type} (r : result A) : M A := fun st => (r, st).

Definition emit (e : event) : M unit := modify (add_event e).

(** Object construction: the new object gets the next free address. *)
Definition alloc (o : pyobj) : M loc :=
  fun st => (Ok (length (heap st)), set_heap (heap st ++ [o]) st).

(** Attribute assignment on the object at [l]. *)
Definition store (l : loc) (o : pyobj) : M unit :=
  modify (fun st => set_heap (<[l := o]> (heap st)) st).

Fixpoint mapM {A B : Type} (f : A -> M B) (l : list A) : M (list B) :=
  match l with
  | [] => ret []
  | x :: l' => y <- f x ;; ys <- mapM f l' ;; ret (y :: ys)
  end.

(** ** [Processor] *)

(** [isinstance(v, FileInput)] in store [h]. *)
Definition is_FileInput (h : list pyobj) (v : pyval) : bool :=
  match v with
  | VRef l => match h !! l with Some (ObjFileInput _) => true | _ => false end
  | _ => false
  end.

Definition _generate_current_job_name (W : World) (job_name : option string) : M string :=
  match job_name with
  | Some n => ret n
  | None =>
      st <- get ;;
      let base_name :=
        match base_job_name (self st) with
        | Some b => if bool_decide (b = "") then base_name_from_image W (image_uri (self st)) else b
        | None => base_name_from_image W (image_uri (self st))
        end in
      modify advance_clock ;;
      ret (name_from_base W base_name (clock st))
  end.

(** The name an input ends up with when the loop reaches it at [count]. *)
Definition input_name_at (count : nat) (fi : FileInput.t) : string :=
  match FileInput.input_name fi with
  | Some n => n
  | None => "input-" +:+ str_of_nat count
  end.

(** The body of the loop of [_normalize_inputs]. *)
Definition normalize_input (W : World) (count : nat) (file_input : pyval) : M unit :=
  st <- get ;;
  match file_input with
  | VRef l =>
      match heap st !! l with
      | Some (ObjFileInput fi) =>
          let fi1 := FileInput.set_input_name (Some (input_name_at count fi)) fi in
          match FileInput.input_name fi with
          | None => store l (ObjFileInput fi1)
          | Some _ => ret tt
          end ;;
          if negb (is_s3 W (FileInput.source fi1)) then
            desired_s3_uri <- lift (os_path.join "s3://"
              [Some (default_bucket W); _current_job_name (self st); FileInput.input_name fi1]) ;;
            emit (EvUpload (FileInput.source fi1) desired_s3_uri) ;;
            let s3_uri := S3Uploader_upload W (FileInput.source fi1) desired_s3_uri in
            store l (ObjFileInput (FileInput.set_source s3_uri fi1))
          else ret tt
      | _ => raise TypeError
      end
  | _ => raise TypeError
  end.

Fixpoint normalize_inputs_loop (W : World) (count : nat) (inputs normalized_inputs : list pyval)
  : M (list pyval) :=
  match inputs with
  | [] => ret normalized_inputs
  | file_input :: rest =>
      normalize_input W count file_input ;;
      normalize_inputs_loop W (S count) rest (normalized_inputs ++ [file_input])
  end.

Definition _normalize_inputs (W : World) (inputs : option (list pyval)) : M (list pyval) :=
  match inputs with
  | Some l => normalize_inputs_loop W 1 l []
  | None => ret []
  end.

(** The body of the loop of [_normalize_outputs]: it yields the object that
    is appended to the result. *)
Definition normalize_output (W : World) (count : nat) (output : pyval) : M pyval :=
  st <- get ;;
  output' <-
    match output with
    | VStr s =>
        s3_uri <- lift (os_path.join "s3://"
          [Some (default_bucket W); _current_job_name (self st); Some "output"]) ;;
        l <- alloc (ObjFileOutput (FileOutput.init s s3_uri)) ;;
        ret (VRef l)
    | _ => ret output
    end ;;
  st' <- get ;;
  match output' with
  | VRef l =>
      match heap st' !! l with
      | Some (ObjFileOutput fo) =>
          match FileOutput.output_name fo with
          | None =>
              store l (ObjFileOutput
                (FileOutput.set_output_name (Some ("output-" +:+ str_of_nat count)) fo))
          | Some _ => ret tt
          end ;;
          ret output'
      | _ => raise AttributeError
      end
  | _ => raise AttributeError
  end.

Fixpoint normalize_outputs_loop (W : World) (count : nat) (outputs normalized_outputs : list pyval)
  : M (list pyval) :=
  match outputs with
  | [] => ret normalized_outputs
  | output :: rest =>
      o <- normalize_output W count output ;;
      normalize_outputs_loop W (S count) rest (normalized_outputs ++ [o])
  end.

Definition _normalize_outputs (W : World) (outputs : option (list pyval)) : M (list pyval) :=
  match outputs with
  | Some l => normalize_outputs_loop W 1 l []
  | None => ret []
  end.

Definition attach (processing_job_name : string) : M unit := raise NotImplementedError.

(** ** [ProcessingJob] *)

(** [x.to_request_dict()] on an element of the inputs or outputs: the
    method of whichever descriptor class the object has. *)
Definition to_request_dict (W : World) (v : pyval) : M jval :=
  st <- get ;;
  match v with
  | VRef l =>
      match heap st !! l with
      | Some (ObjFileInput fi) =>
          d <- lift (FileInput.to_request_dict W fi) ;;
          ret (JDict d)
      | Some (ObjFileOutput fo) => ret (JDict (FileOutput.to_request_dict W fo))
      | _ => raise AttributeError
      end
  | _ => raise AttributeError
  end.

Definition app_specification (p : Processor) : gmap string jval :=
  let a0 : gmap string jval := <["ImageUri" := JStr (image_uri p)]> ∅ in
  let a1 :=
    match arguments p with
    | Some args => <["ContainerArguments" := JList (JStr <$> args)]> a0
    | None => a0
    end in
  match entrypoint p with
  | Some e => <["ContainerEntrypoint" := JList (JStr <$> e)]> a1
  | None => a1
  end.

Definition cluster_config (p : Processor) : gmap string jval :=
  <["VolumeSizeInGB" := JInt (processing_volume_size_in_gb p)]>
  (<["InstanceCount" := JInt (processing_instance_count p)]>
  (<["InstanceType" := JStr (processing_instance_type p)]> ∅)).

(** The keyword arguments [start_new] passes to [sagemaker_session.process]. *)
Definition process_request_args (p : Processor) (ins outs : list jval) : gmap string jval :=
  <["tags" := opt_jval (tags p)]>
  (<["role_arn" := JStr (role p)]>
  (<["network_config" := match network_config p with Some n => n | None => JNull end]>
  (<["environment" := opt_jval (env p)]>
  (<["app_specification" := JDict (app_specification p)]>
  (<["stopping_condition" :=
      JDict (<["MaxRuntimeInSeconds" := JInt (processing_max_runtime_in_seconds p)]> ∅)]>
  (<["resources" := JDict (<["ClusterConfig" := JDict (cluster_config p)]> ∅)]>
  (<["job_name" := opt_str (_current_job_name p)]>
  (<["outputs" := JList outs]>
  (<["inputs" := JList ins]> ∅))))))))).

(** [ProcessingJob.start_new].  The descriptors are serialized first, so
    an error of [to_request_dict] comes before the prints and the
    submission.  The session's [process] is taken to return: a [process]
    that raises, after the three prints, is outside the model. *)
Definition start_new (W : World) (inputs outputs : list pyval) : M loc :=
  ins <- mapM (to_request_dict W) inputs ;;
  outs <- mapM (to_request_dict W) outputs ;;
  st <- get ;;
  let processor := self st in
  let args := process_request_args processor ins outs in
  emit (EvPrint [JStr "Job Name: "; opt_str (_current_job_name processor)]) ;;
  emit (EvPrint [JStr "Inputs: "; JList ins]) ;;
  emit (EvPrint [JStr "Outputs: "; JList outs]) ;;
  emit (EvProcess args) ;;
  alloc (ObjProcessingJob {|
    ProcessingJob.job_name := _current_job_name processor;
    ProcessingJob.inputs := inputs;
    ProcessingJob.outputs := outputs |}).

(** Attribute access on [self] inside a method of [ProcessingJob]. *)
Definition get_job (j : loc) : M ProcessingJob.t :=
  st <- get ;;
  match heap st !! j with
  | Some (ObjProcessingJob job) => ret job
  | _ => raise AttributeError
  end.

(** [ProcessingJob.wait]: one call on the session, which is taken to
    return; a wait that raises, the job submitted and recorded, is outside
    the model. *)
Definition wait (j : loc) (logs : bool) : M unit :=
  job <- get_job j ;;
  if logs then emit (EvLogsForProcessingJob (ProcessingJob.job_name job))
  else emit (EvWaitForProcessingJob (ProcessingJob.job_name job)).

Definition describe (W : World) (j : loc) (print_response : bool) : M jval :=
  job <- get_job j ;;
  emit (EvDescribeAnalyticsJob (ProcessingJob.job_name job)) ;;
  let describe_response := describe_analytics_job W (ProcessingJob.job_name job) in
  (if print_response then emit (EvPrint [describe_response]) else ret tt) ;;
  ret describe_response.

Definition stop (j : loc) : M unit :=
  job <- get_job j ;;
  emit (EvStopProcessingJob (ProcessingJob.name job)).

(** ** [Processor.run] *)

Definition Processor_run (W : World) (inputs outputs : option (list pyval))
  (wait_ logs : bool) (job_name : option string) : M unit :=
  n <- _generate_current_job_name W job_name ;;
  modify (fun st => set_self (with_current_job_name (Some n) (self st)) st) ;;
  normalized_inputs <- _normalize_inputs W inputs ;;
  normalized_outputs <- _normalize_outputs W outputs ;;
  j <- start_new W normalized_inputs normalized_outputs ;;
  modify (fun st => set_self (with_latest_job j (self st)) st) ;;
  if wait_ then wait j logs else ret tt.

(** ** [ScriptModeProcessor] *)

Definition _get_customer_script_name (W : World) (source : string) (script_name : option string)
  : result string :=
  match script_name with
  | None =>
      if isdir W source then Raise ValueError
      else if is_s3 W source || isfile W source then Ok (os_path.basename source)
      else Raise ValueError
  | Some n =>
      if is_s3 W source || isdir W source then Ok n
      else if is_s3 W source || isfile W source then Ok (os_path.basename source)
      else Raise ValueError
  end.

Definition _upload_source (W : World) (source : string) : M string :=
  st <- get ;;
  desired_s3_uri <- lift (os_path.join "s3://"
    [Some (default_bucket W); _current_job_name (self st); Some CODE_CONTAINER_INPUT_NAME]) ;;
  emit (EvUpload source desired_s3_uri) ;;
  ret (S3Uploader_upload W source desired_s3_uri).

Definition _convert_source_and_add_to_inputs (inputs : option (list pyval)) (s3_uri : string)
  : M (list pyval) :=
  source_file_input <- alloc (ObjFileInput (FileInput.init s3_uri
    (os_path.posix_join CODE_CONTAINER_BASE_PATH [CODE_CONTAINER_INPUT_NAME])
    (Some CODE_CONTAINER_INPUT_NAME))) ;;
  match inputs with
  | Some input_list => ret (input_list ++ [VRef source_file_input])
  | None => raise AttributeError
  end.

Definition _get_execution_program (py_version_ : string) (script_name : string) : result string :=
  let file_extension := snd (os_path.splitext script_name) in
  if bool_decide (file_extension = ".py") then
    if bool_decide (py_version_ = "py3") then Ok "python3"
    else if bool_decide (py_version_ = "py2") then Ok "python2"
    else Ok "python"
  else if bool_decide (file_extension = ".sh") then Ok "bash"
  else Raise ValueError.

Definition customer_script_location (customer_script_name : string) : string :=
  os_path.posix_join CODE_CONTAINER_BASE_PATH [CODE_CONTAINER_INPUT_NAME; customer_script_name].

Definition _set_entrypoint (customer_script_name : string) : M unit :=
  st <- get ;;
  execution_program <- lift (_get_execution_program (py_version (self st)) customer_script_name) ;;
  modify (fun st => set_self
    (with_entrypoint (Some [execution_program; customer_script_location customer_script_name])
       (self st)) st).

Definition ScriptModeProcessor_run (W : World) (source : string) (script_name : option string)
  (inputs outputs : option (list pyval)) (wait_ logs : bool) (job_name : option string) : M unit :=
  n <- _generate_current_job_name W job_name ;;
  modify (fun st => set_self (with_current_job_name (Some n) (self st)) st) ;;
  customer_script_name <- lift (_get_customer_script_name W source script_name) ;;
  customer_code_s3_uri <- _upload_source W source ;;
  inputs_with_source <- _convert_source_and_add_to_inputs inputs customer_code_s3_uri ;;
  _set_entrypoint customer_script_name ;;
  Processor_run W (Some inputs_with_source) outputs wait_ logs job_name.

(** ** Reading the code's effects

    Pure counterparts of what the loops and the serialization do, used to
    state the results below. *)

(** [map] over a list of results: the first error wins. *)
Fixpoint mapR {A B : Type} (f : A -> result B) (l : list A) : result (list B) :=
  match l with
  | [] => Ok []
  | x :: l' =>
      match f x with
      | Ok y => match mapR f l' with Ok ys => Ok (y :: ys) | Raise e => Raise e end
      | Raise e => Raise e
      end
  end.

(** What [to_request_dict] yields for [v] in store [h]. *)
Definition serialize (W : World) (h : list pyobj) (v : pyval) : result jval :=
  match v with
  | VRef l =>
      match h !! l with
      | Some (ObjFileInput fi) =>
          match FileInput.to_request_dict W fi with
          | Ok d => Ok (JDict d)
          | Raise e => Raise e
          end
      | Some (ObjFileOutput fo) => Ok (JDict (FileOutput.to_request_dict W fo))
      | _ => Raise AttributeError
      end
  | _ => Raise AttributeError
  end.

(** The four calls [start_new] makes once the request dictionaries are
    built: three prints and the submission. *)
Definition submission_events (p : Processor) (ins outs : list jval) : list event :=
  [ EvPrint [JStr "Job Name: "; opt_str (_current_job_name p)];
    EvPrint [JStr "Inputs: "; JList ins];
    EvPrint [JStr "Outputs: "; JList outs];
    EvProcess (process_request_args p ins outs) ].

(** The job name [_generate_current_job_name] returns for processor [p] when
    the clock reads [t]. *)
Definition job_name_for (W : World) (p : Processor) (t : nat) (job_name : option string) : string :=
  match job_name with
  | Some n => n
  | None =>
      name_from_base W
        (match base_job_name p with
         | Some b => if bool_decide (b = "") then base_name_from_image W (image_uri p) else b
         | None => base_name_from_image W (image_uri p)
         end) t
  end.

#[global] Instance pyval_eq_dec : EqDecision pyval.
Proof. solve_decision. Defined.

(** The position of the first occurrence of [v] in [l]. *)
Fixpoint first_index (v : pyval) (l : list pyval) : option nat :=
  match l with
  | [] => None
  | x :: l' => if decide (x = v) then Some 0 else S <$> first_index v l'
  end.

(** A path component that joins as written: not empty, no separator at
    either end. *)
Definition plain (s : string) : Prop :=
  s <> "" /\ os_path.startswith_sep s = false /\ os_path.endswith_sep s = false.

(** The descriptor the loop of [_normalize_inputs] leaves behind when it
    reaches [fi] at [count] under job name [jn]. *)
Definition desired_input_uri (W : World) (jn : string) (name : string) : string :=
  os_path.posix_join "s3://" [default_bucket W; jn; name].

Definition normalized_input (W : World) (jn : string) (count : nat) (fi : FileInput.t) : FileInput.t :=
  let fi1 := FileInput.set_input_name (Some (input_name_at count fi)) fi in
  if is_s3 W (FileInput.source fi) then fi1
  else FileInput.set_source
         (S3Uploader_upload W (FileInput.source fi)
            (desired_input_uri W jn (input_name_at count fi))) fi1.

Definition input_upload_events (W : World) (jn : string) (count : nat) (fi : FileInput.t)
  : list event :=
  if is_s3 W (FileInput.source fi) then []
  else [EvUpload (FileInput.source fi) (desired_input_uri W jn (input_name_at count fi))].

(** An element [_normalize_outputs] accepts: a string, or a reference to a
    [FileOutput]. *)
Definition is_output (h : list pyobj) (v : pyval) : bool :=
  match v with
  | VStr _ => true
  | VRef l => match h !! l with Some (ObjFileOutput _) => true | _ => false end
  | VNone => false
  end.

(** The descriptor a string output [x] becomes at [count]. *)
Definition wrapped_output (W : World) (jn : string) (count : nat) (x : string) : FileOutput.t := {|
  FileOutput.source := x;
  FileOutput.destination := os_path.posix_join "s3://" [default_bucket W; jn; "output"];
  FileOutput.output_name := Some ("output-" +:+ str_of_nat count);
  FileOutput.kms_key_id := None;
  FileOutput.s3_upload_mode := S3UploadMode.CONTINUOUS
|}.

Definition is_submission (e : event) : bool :=
  match e with
  | EvProcess _ => true
  | _ => false
  end.

(** [c in s]. *)
Definition has_char (c : ascii) (s : string) : bool :=
  os_path.str_exists (fun a => bool_decide (a = c)) s.

(** [s.endswith(suffix)]. *)
Definition ends_with (suffix s : string) : Prop :=
  exists pre, s = pre +:+ suffix.

(** The descriptor the loop of [_normalize_outputs] leaves behind when it
    reaches [fo] at [count]. *)
Definition named_output (count : nat) (fo : FileOutput.t) : FileOutput.t :=
  match FileOutput.output_name fo with
  | None => FileOutput.set_output_name (Some ("output-" +:+ str_of_nat count)) fo
  | Some _ => fo
  end.

(** What a computation leaves alone: the processor and the clock; the calls
    it adds are no submissions. *)
Definition quiet {A : Type} (m : M A) : Prop :=
  forall st r st',
    m st = (r, st') ->
    self st' = self st /\ clock st' = clock st /\
    exists evs, trace st' = trace st ++ evs /\ forall e, e ∈ evs -> is_submission e = false.

(** ** A sample world

    A concrete world to run the methods in: addresses that start with
    ["s3://"] have scheme ["s3"], the directory ["dir"] and the file
    ["script.sh"] exist, the uploader answers with the s3 address it
    filled, and generated names carry the clock reading as their stamp. *)
Fixpoint has_prefix (pre s : string) : bool :=
  match pre with
  | EmptyString => true
  | String a pre' =>
      match s with
      | String b s' => bool_decide (a = b) && has_prefix pre' s'
      | EmptyString => false
      end
  end.

Definition sample_world : World := {|
  urlparse_scheme := fun x => if has_prefix "s3://" x then "s3" else "";
  isdir := fun x => bool_decide (x = "dir");
  isfile := fun x => bool_decide (x = "script.sh") || bool_decide (x = "data.csv");
  default_bucket := "bucket";
  S3Uploader_upload := fun _ desired =>
    if has_prefix "s3://" desired then desired else "s3://" +:+ desired;
  base_name_from_image := fun image => image;
  name_from_base := fun base t => base +:+ "-" +:+ str_of_nat t;
  describe_analytics_job := fun n => JDict (<["ProcessingJobName" := opt_str n]> ∅);
  S3DataType_value := fun x =>
    match x with S3DataType.MANIFEST_FILE => "ManifestFile" | S3DataType.S3_PREFIX => "S3Prefix" end;
  S3InputMode_value := fun x =>
    match x with S3InputMode.PIPE => "Pipe" | S3InputMode.FILE => "File" end;
  S3DownloadMode_value := fun x =>
    match x with
    | S3DownloadMode.START_OF_JOB => "StartOfJob"
    | S3DownloadMode.CONTINUOUS => "Continuous"
    end;
  S3DataDistributionType_value := fun x =>
    match x with
    | S3DataDistributionType.FULLY_REPLICATED => "FullyReplicated"
    | S3DataDistributionType.SHARDED_BY_S3_KEY => "ShardedByS3Key"
    end;
  S3CompressionType_value := fun x =>
    match x with S3CompressionType.NONE => "None" | S3CompressionType.GZIP => "Gzip" end;
  S3UploadMode_value := fun x =>
    match x with S3UploadMode.CONTINUOUS => "Continuous" | S3UploadMode.END_OF_JOB => "EndOfJob" end
|}.

Definition sample_processor : Processor := {|
  role := "role";
  image_uri := "image";
  processing_instance_count := 1%Z;
  processing_instance_type := "ml.c4.xlarge";
  entrypoint := None;
  arguments := None;
  processing_volume_size_in_gb := 30%Z;
  processing_volume_kms_key := None;
  processing_max_runtime_in_seconds := (24 * 60 * 60)%Z;
  base_job_name := None;
  env := None;
  tags := None;
  network_config := None;
  jobs := [];
  latest_job := None;
  _current_job_name := None;
  py_version := "py3"
|}.

Definition initial_state (p : Processor) (h : list pyobj) : State :=
  {| self := p; heap := h; trace := []; clock := 0 |}.

(** Sample objects and states. *)

Definition local_unnamed_input : FileInput.t :=
  FileInput.init "data.csv" "/opt/ml/processing/input" None.

Definition remote_named_input : FileInput.t :=
  FileInput.init "s3://bucket/prefix" "/opt/ml/processing/more" (Some "mine").

Definition uncompressed_input : FileInput.t := {|
  FileInput.source := "s3://bucket/prefix";
  FileInput.destination := "/opt/ml/processing/input";
  FileInput.input_name := Some "mine";
  FileInput.s3_data_type := S3DataType.S3_PREFIX;
  FileInput.s3_input_mode := S3InputMode.FILE;
  FileInput.s3_download_mode := S3DownloadMode.START_OF_JOB;
  FileInput.s3_data_distribution_type := S3DataDistributionType.FULLY_REPLICATED;
  FileInput.s3_compression_type := None
|}.

Definition plain_output : FileOutput.t :=
  FileOutput.init "/opt/ml/processing/output" "s3://bucket/results".

(** A processor in the middle of a run under the job name ["job"]. *)
Definition running_processor : Processor :=
  with_current_job_name (Some "job") sample_processor.

(** One unnamed input with a local source. *)
Definition one_input_state : State :=
  initial_state running_processor [ObjFileInput local_unnamed_input].

Definition two_inputs_state : State :=
  initial_state running_processor
    [ObjFileInput local_unnamed_input; ObjFileInput remote_named_input].

(** A local input whose name starts with ["/"]. *)
Definition absolute_named_input : FileInput.t :=
  FileInput.init "data.csv" "/opt/ml/processing/input" (Some "/x").

Definition absolute_name_state : State :=
  initial_state running_processor [ObjFileInput absolute_named_input].

Definition one_output_state : State :=
  initial_state running_processor [ObjFileOutput plain_output].

Definition submission_state : State :=
  initial_state running_processor [ObjFileInput uncompressed_input; ObjFileOutput plain_output].

(** ** More of the module, and what its methods keep *)

(** A reference to a [FileOutput] of the store. *)
Definition is_FileOutput (h : list pyobj) (v : pyval) : bool :=
  match v with
  | VRef l => match h !! l with Some (ObjFileOutput _) => true | _ => false end
  | _ => false
  end.

(** The check of [FileInput.to_request_dict] passes. *)
Definition input_valid (fi : FileInput.t) : bool :=
  negb (bool_decide (FileInput.s3_compression_type fi = Some S3CompressionType.GZIP)
        && negb (bool_decide (FileInput.s3_input_mode fi = S3InputMode.PIPE))).

(** A reference to a [FileInput] that passes the check. *)
Definition is_valid_input (h : list pyobj) (v : pyval) : bool :=
  match v with
  | VRef l => match h !! l with Some (ObjFileInput fi) => input_valid fi | _ => false end
  | _ => false
  end.

(** A reference to a [FileInput] that has a name and a remote source. *)
Definition is_settled_input (W : World) (h : list pyobj) (v : pyval) : bool :=
  match v with
  | VRef l =>
      match h !! l with
      | Some (ObjFileInput fi) =>
          match FileInput.input_name fi with
          | Some _ => is_s3 W (FileInput.source fi)
          | None => false
          end
      | _ => false
      end
  | _ => false
  end.

(** An element on which [_normalize_outputs] fails: [None], or a reference
    to an object that is no [FileOutput]. *)
Definition is_bad_output (h : list pyobj) (v : pyval) : bool :=
  match v with
  | VNone => true
  | VStr _ => false
  | VRef l =>
      match h !! l with
      | Some (ObjFileOutput _) => false
      | Some _ => true
      | None => false
      end
  end.

(** [fi'] is [fi] up to what normalization may do: give a name where there
    was none, replace a source that was not remote. *)
Definition input_le (W : World) (fi fi' : FileInput.t) : Prop :=
  FileInput.destination fi' = FileInput.destination fi /\
  FileInput.s3_data_type fi' = FileInput.s3_data_type fi /\
  FileInput.s3_input_mode fi' = FileInput.s3_input_mode fi /\
  FileInput.s3_download_mode fi' = FileInput.s3_download_mode fi /\
  FileInput.s3_data_distribution_type fi' = FileInput.s3_data_distribution_type fi /\
  FileInput.s3_compression_type fi' = FileInput.s3_compression_type fi /\
  (forall n, FileInput.input_name fi = Some n -> FileInput.input_name fi' = Some n) /\
  (is_s3 W (FileInput.source fi) = true -> FileInput.source fi' = FileInput.source fi).

(** [fo'] is [fo] up to a name given where there was none. *)
Definition output_le (fo fo' : FileOutput.t) : Prop :=
  FileOutput.source fo' = FileOutput.source fo /\
  FileOutput.destination fo' = FileOutput.destination fo /\
  FileOutput.kms_key_id fo' = FileOutput.kms_key_id fo /\
  FileOutput.s3_upload_mode fo' = FileOutput.s3_upload_mode fo /\
  (forall n, FileOutput.output_name fo = Some n -> FileOutput.output_name fo' = Some n).

Definition obj_le (W : World) (o o' : pyobj) : Prop :=
  match o, o' with
  | ObjFileInput a, ObjFileInput b => input_le W a b
  | ObjFileOutput a, ObjFileOutput b => output_le a b
  | ObjProcessingJob a, ObjProcessingJob b => a = b
  | _, _ => False
  end.

(** Every object of [h] is still there in [h'], of the same class, and
    changed at most as normalization may change it. *)
Definition heap_le (W : World) (h h' : list pyobj) : Prop :=
  forall l o, h !! l = Some o -> exists o', h' !! l = Some o' /\ obj_le W o o'.

(** A [FileInput] that asks for gzip in File mode. *)
Definition gzip_file_input : FileInput.t := {|
  FileInput.source := "s3://bucket/prefix";
  FileInput.destination := "/opt/ml/processing/input";
  FileInput.input_name := Some "zipped";
  FileInput.s3_data_type := S3DataType.S3_PREFIX;
  FileInput.s3_input_mode := S3InputMode.FILE;
  FileInput.s3_download_mode := S3DownloadMode.START_OF_JOB;
  FileInput.s3_data_distribution_type := S3DataDistributionType.FULLY_REPLICATED;
  FileInput.s3_compression_type := Some S3CompressionType.GZIP
|}.

Definition gzip_file_state : State :=
  initial_state running_processor [ObjFileInput gzip_file_input].

(** A computation that keeps the store in the sense of [heap_le], whether
    it returns or raises. *)
Definition keeps (W : World) {A : Type} (m : M A) : Prop :=
  forall st r st', m st = (r, st') -> heap_le W (heap st) (heap st').

(** The number of strings in a list of outputs. *)
Fixpoint count_strings (ls : list pyval) : nat :=
  match ls with
  | [] => 0
  | VStr _ :: ls' => S (count_strings ls')
  | _ :: ls' => count_strings ls'
  end.

(** The state of a run once its job name is set. *)
Definition run_start (W : World) (job_name : option string) (st : State) : State :=
  let st0 := match job_name with Some _ => st | None => advance_clock st end in
  set_self
    (with_current_job_name (Some (job_name_for W (self st) (clock st) job_name)) (self st0)) st0.

(** The call [wait] makes, if the run waits. *)
Definition wait_events (wait_ logs : bool) (job_name : option string) : list event :=
  if wait_ then
    [if logs then EvLogsForProcessingJob job_name else EvWaitForProcessingJob job_name]
  else [].

(** The state a run ends in, from the state [st3] in which it submits. *)
Definition run_end (st3 : State) (nin nout : list pyval) (ins outs : list jval)
  (wait_ logs : bool) : State :=
  {| self := with_latest_job (length (heap st3)) (self st3);
     heap := heap st3 ++ [ObjProcessingJob {|
       ProcessingJob.job_name := _current_job_name (self st3);
       ProcessingJob.inputs := nin;
       ProcessingJob.outputs := nout |}];
     trace := (trace st3 ++ submission_events (self st3) ins outs)
              ++ wait_events wait_ logs (_current_job_name (self st3));
     clock := clock st3 |}.

(** The descriptor script mode makes of the uploaded source. *)
Definition source_file_input (W : World) (source jn : string) : FileInput.t :=
  FileInput.init
    (S3Uploader_upload W source
       (os_path.posix_join "s3://" [default_bucket W; jn; CODE_CONTAINER_INPUT_NAME]))
    (os_path.posix_join CODE_CONTAINER_BASE_PATH [CODE_CONTAINER_INPUT_NAME])
    (Some CODE_CONTAINER_INPUT_NAME).

(** The state of a script-mode run once the source is uploaded and its
    descriptor made. *)
Definition script_uploaded (W : World) (source : string) (job_name : option string)
  (st : State) : State :=
  let jn := job_name_for W (self st) (clock st) job_name in
  let s := run_start W job_name st in
  {| self := self s;
     heap := heap s ++ [ObjFileInput (source_file_input W source jn)];
     trace := trace s ++
       [EvUpload source
          (os_path.posix_join "s3://" [default_bucket W; jn; CODE_CONTAINER_INPUT_NAME])];
     clock := clock s |}.

(** A remote input the caller named ["source"]. *)
Definition source_named_input : FileInput.t :=
  FileInput.init "s3://bucket/data" "/opt/ml/processing/data" (Some "source").

(** The part of a run that comes before the submission fails with [e],
    from state [s0] to state [st']: one of the two normalizations raises
    [e], or both return and the serialization of an input or, the inputs
    serialized, of an output raises it. *)
Definition preparation_fails (W : World) (inputs outputs : option (list pyval))
  (s0 : State) (e : exn) (st' : State) : Prop :=
  _normalize_inputs W inputs s0 = (Raise e, st') \/
  exists nin s1,
    _normalize_inputs W inputs s0 = (Ok nin, s1) /\
    (_normalize_outputs W outputs s1 = (Raise e, st') \/
     exists nout,
       _normalize_outputs W outputs s1 = (Ok nout, st') /\
       (mapM (to_request_dict W) nin st' = (Raise e, st') \/
        exists ins,
          mapM (to_request_dict W) nin st' = (Ok ins, st') /\
          mapM (to_request_dict W) nout st' = (Raise e, st'))).

(** * Results *)

(** ** Running the monad *)

Ltac mred :=
  cbv [bind ret raise get modify lift emit store alloc
       set_self set_heap add_event advance_clock];
  cbn [fst snd self heap trace clock].

Lemma bind_ok {A B : Type} (m : M A) (k : A -> M B) (st st' : State) (a : A) :
  m st = (Ok a, st') -> bind m k st = k a st'.
Proof. unfold bind. by intros ->. Qed.

Lemma bind_raise {A B : Type} (m : M A) (k : A -> M B) (st st' : State) (e : exn) :
  m st = (Raise e, st') -> bind m k st = (Raise e, st').
Proof. unfold bind. by intros ->. Qed.

Lemma mapR_lookup {A B : Type} (f : A -> result B) (l : list A) (ys : list B) (i : nat) (x : A) :
  mapR f l = Ok ys -> l !! i = Some x -> exists y, ys !! i = Some y /\ f x = Ok y.
Proof.
  revert ys i. induction l as [|a l IH]; intros ys i Hm Hi; [done|].
  cbn in Hm. destruct (f a) as [y|] eqn:Hfa; [|done].
  destruct (mapR f l) as [ys'|] eqn:Hl; [|done].
  injection Hm as <-. destruct i as [|i]; cbn in *.
  - injection Hi as <-. eauto.
  - eauto.
Qed.

(** ** Serialization of descriptors *)

(** C1. [FileInput.to_request_dict] raises exactly when the compression
    type is gzip and the input mode is not Pipe, and what it raises then is
    a [ValueError]; with gzip and Pipe it returns a dictionary whose
    ["S3Input"] entry carries the ["S3CompressionType"] field. *)
Theorem C1_gzip_needs_pipe (W : World) (fi : FileInput.t) :
  ((exists e, FileInput.to_request_dict W fi = Raise e) <->
     (FileInput.s3_compression_type fi = Some S3CompressionType.GZIP /\
      FileInput.s3_input_mode fi <> S3InputMode.PIPE)) /\
  (forall e, FileInput.to_request_dict W fi = Raise e -> e = ValueError) /\
  (FileInput.s3_compression_type fi = Some S3CompressionType.GZIP ->
   FileInput.s3_input_mode fi = S3InputMode.PIPE ->
   exists d s3,
     FileInput.to_request_dict W fi = Ok d /\
     d !! "S3Input" = Some (JDict s3) /\
     s3 !! "S3CompressionType" =
       Some (JStr (S3CompressionType_value W S3CompressionType.GZIP))).
Proof.
  unfold FileInput.to_request_dict.
  repeat case_bool_decide; cbn [andb negb].
  - split; [|split].
    + split; [intros [e He]; discriminate | intros [_ Hm]; done].
    + intros e He. discriminate.
    + intros Hc _. do 2 eexists. split; [reflexivity|].
      split; [by rewrite lookup_insert_eq|].
      unfold FileInput.s3_input. rewrite Hc. by rewrite lookup_insert_eq.
  - split; [|split].
    + split; [by intros _ | by exists ValueError].
    + by intros e [= <-].
    + intros _ Hm. done.
  - split; [|split].
    + split; [intros [e He]; discriminate | intros [Hc _]; done].
    + intros e He. discriminate.
    + intros Hc. done.
  - split; [|split].
    + split; [intros [e He]; discriminate | intros [Hc _]; done].
    + intros e He. discriminate.
    + intros Hc. done.
Qed.

Lemma s3_input_no_compression (W : World) (fi : FileInput.t) :
  FileInput.s3_compression_type fi = None ->
  FileInput.s3_input W fi !! "S3CompressionType" = None.
Proof.
  intros Hc. unfold FileInput.s3_input, FileInput.s3_input_base. rewrite Hc.
  by simplify_map_eq.
Qed.

Lemma s3_output_no_kms (W : World) (fo : FileOutput.t) :
  FileOutput.kms_key_id fo = None ->
  FileOutput.s3_output W fo !! "KmsKeyId" = None.
Proof.
  intros Hk. unfold FileOutput.s3_output, FileOutput.s3_output_base. rewrite Hk.
  by simplify_map_eq.
Qed.

Lemma app_specification_no_arguments (p : Processor) :
  arguments p = None -> app_specification p !! "ContainerArguments" = None.
Proof.
  intros H. unfold app_specification. rewrite H.
  destruct (entrypoint p); by simplify_map_eq.
Qed.

Lemma app_specification_no_entrypoint (p : Processor) :
  entrypoint p = None -> app_specification p !! "ContainerEntrypoint" = None.
Proof.
  intros H. unfold app_specification. rewrite H.
  destruct (arguments p); by simplify_map_eq.
Qed.

(** ** Submission *)

Lemma to_request_dict_pure (W : World) (v : pyval) (st : State) :
  to_request_dict W v st = (serialize W (heap st) v, st).
Proof.
  unfold to_request_dict, serialize. mred.
  destruct v as [| |l]; try done.
  destruct (heap st !! l) as [[fi|fo|job]|]; try done.
  by destruct (FileInput.to_request_dict W fi).
Qed.

Lemma mapM_to_request_dict (W : World) (l : list pyval) (st : State) :
  mapM (to_request_dict W) l st = (mapR (serialize W (heap st)) l, st).
Proof.
  induction l as [|v l IH]; [done|].
  cbn [mapM mapR]. unfold bind at 1. rewrite to_request_dict_pure.
  destruct (serialize W (heap st) v); [|done].
  unfold bind at 1. rewrite IH.
  by destruct (mapR (serialize W (heap st)) l).
Qed.

(** [start_new] in one equation: it raises, leaving no trace, when a
    descriptor cannot be serialized; otherwise it prints, submits and
    creates the job record. *)
Lemma start_new_eq (W : World) (inputs outputs : list pyval) (st : State) :
  start_new W inputs outputs st =
  match mapR (serialize W (heap st)) inputs with
  | Raise e => (Raise e, st)
  | Ok ins =>
      match mapR (serialize W (heap st)) outputs with
      | Raise e => (Raise e, st)
      | Ok outs =>
          (Ok (length (heap st)),
           {| self := self st;
              heap := heap st ++ [ObjProcessingJob {|
                ProcessingJob.job_name := _current_job_name (self st);
                ProcessingJob.inputs := inputs;
                ProcessingJob.outputs := outputs |}];
              trace := trace st ++ submission_events (self st) ins outs;
              clock := clock st |})
      end
  end.
Proof.
  unfold start_new. unfold bind at 1. rewrite mapM_to_request_dict.
  destruct (mapR (serialize W (heap st)) inputs) as [ins|]; [|done].
  unfold bind at 1. rewrite mapM_to_request_dict.
  destruct (mapR (serialize W (heap st)) outputs) as [outs|]; [|done].
  mred. unfold submission_events. by rewrite <- !(assoc_L (++)).
Qed.

(** C2. Whenever [start_new] submits, the keyword arguments it hands to
    the session have no ["ContainerArguments"] (["ContainerEntrypoint"])
    key in the application specification if the processor's arguments
    (entrypoint) are [None]; carry ["network_config"] with value [None] if
    no network configuration is set; and the request dictionary of an
    input whose compression type is [None] (of an output whose KMS key is
    [None]) has no ["S3CompressionType"] (["KmsKeyId"]) key. *)
Theorem C2_payload_key_presence (W : World) (inputs outputs : list pyval)
  (st st' : State) (j : loc) :
  start_new W inputs outputs st = (Ok j, st') ->
  exists ins outs app,
    trace st' = trace st ++ submission_events (self st) ins outs /\
    process_request_args (self st) ins outs !! "inputs" = Some (JList ins) /\
    process_request_args (self st) ins outs !! "outputs" = Some (JList outs) /\
    process_request_args (self st) ins outs !! "app_specification" = Some (JDict app) /\
    (arguments (self st) = None -> app !! "ContainerArguments" = None) /\
    (entrypoint (self st) = None -> app !! "ContainerEntrypoint" = None) /\
    (network_config (self st) = None ->
     process_request_args (self st) ins outs !! "network_config" = Some JNull) /\
    (forall i l fi,
       inputs !! i = Some (VRef l) ->
       heap st !! l = Some (ObjFileInput fi) ->
       FileInput.s3_compression_type fi = None ->
       exists d s3,
         ins !! i = Some (JDict d) /\ d !! "S3Input" = Some (JDict s3) /\
         s3 !! "S3CompressionType" = None) /\
    (forall i l fo,
       outputs !! i = Some (VRef l) ->
       heap st !! l = Some (ObjFileOutput fo) ->
       FileOutput.kms_key_id fo = None ->
       exists d s3,
         outs !! i = Some (JDict d) /\ d !! "S3Output" = Some (JDict s3) /\
         s3 !! "KmsKeyId" = None).
Proof.
  rewrite start_new_eq.
  destruct (mapR (serialize W (heap st)) inputs) as [ins|] eqn:Hins; [|done].
  destruct (mapR (serialize W (heap st)) outputs) as [outs|] eqn:Houts; [|done].
  intros [= <- <-]. exists ins, outs, (app_specification (self st)). cbn [trace].
  split; [done|]. split; [by unfold process_request_args; simplify_map_eq|].
  split; [by unfold process_request_args; simplify_map_eq|].
  split; [by unfold process_request_args; simplify_map_eq|].
  split; [apply app_specification_no_arguments|].
  split; [apply app_specification_no_entrypoint|].
  split.
  { intros Hn. unfold process_request_args. rewrite Hn. by simplify_map_eq. }
  split.
  - intros i l fi Hi Hl Hc.
    destruct (mapR_lookup _ _ _ _ _ Hins Hi) as (y & Hy & Hser).
    unfold serialize in Hser. rewrite Hl in Hser.
    unfold FileInput.to_request_dict in Hser. rewrite Hc in Hser. cbn in Hser.
    injection Hser as <-. do 2 eexists. split; [exact Hy|].
    split; [by rewrite lookup_insert_eq|]. by apply s3_input_no_compression.
  - intros i l fo Hi Hl Hk.
    destruct (mapR_lookup _ _ _ _ _ Houts Hi) as (y & Hy & Hser).
    unfold serialize in Hser. rewrite Hl in Hser. injection Hser as <-.
    do 2 eexists. split; [exact Hy|].
    split; [by unfold FileOutput.to_request_dict; rewrite lookup_insert_eq|].
    by apply s3_output_no_kms.
Qed.

Lemma C2_payload_key_presence_witness :
  exists st',
    start_new sample_world [VRef 0] [VRef 1] submission_state = (Ok 2, st') /\
    exists ins outs,
      trace st' = trace submission_state ++ submission_events (self submission_state) ins outs /\
      process_request_args (self submission_state) ins outs !! "network_config" = Some JNull.
Proof.
  destruct (start_new sample_world [VRef 0] [VRef 1] submission_state) as [res st'] eqn:Hrun.
  assert (Hres : res = Ok 2).
  { apply (f_equal fst) in Hrun. vm_compute in Hrun. congruence. }
  subst res. exists st'. split; [reflexivity|].
  destruct (C2_payload_key_presence sample_world [VRef 0] [VRef 1] submission_state st' 2 Hrun)
    as (ins & outs & app & Htr & _ & _ & _ & _ & _ & Hnet & _).
  exists ins, outs. split; [exact Htr | exact (Hnet eq_refl)].
Defined.

(** ** Strings and [os.path] *)

Section Strings.
Import os_path.

Lemma append_nil (s : string) : "" +:+ s = s.
Proof. reflexivity. Qed.

Lemma append_cons (c : ascii) (s1 s2 : string) : String c s1 +:+ s2 = String c (s1 +:+ s2).
Proof. reflexivity. Qed.

Ltac str_simpl :=
  rewrite ?append_cons, ?append_nil;
  cbn [String.length rfind_from str_take str_drop str_exists].

Lemma append_assoc (s1 s2 s3 : string) : (s1 +:+ s2) +:+ s3 = s1 +:+ (s2 +:+ s3).
Proof. induction s1 as [|c s1 IH]; str_simpl; [done | by rewrite IH]. Qed.

Lemma length_append (s1 s2 : string) :
  String.length (s1 +:+ s2) = String.length s1 + String.length s2.
Proof. induction s1 as [|c s1 IH]; str_simpl; [done | by rewrite IH]. Qed.

Lemma rfind_from_app (c : ascii) (s1 s2 : string) (i acc : Z) :
  rfind_from c (s1 +:+ s2) i acc =
  rfind_from c s2 (i + Z.of_nat (String.length s1))%Z (rfind_from c s1 i acc).
Proof.
  revert i acc. induction s1 as [|a s1 IH]; intros i acc; str_simpl.
  - by rewrite Z.add_0_r.
  - rewrite IH. f_equal. lia.
Qed.

Lemma rfind_from_absent (c : ascii) (s : string) (i acc : Z) :
  has_char c s = false -> rfind_from c s i acc = acc.
Proof.
  unfold has_char. revert i acc.
  induction s as [|a s IH]; intros i acc H; cbn [rfind_from str_exists] in *; [done|].
  apply orb_false_iff in H as [Ha Hs]. rewrite Ha. by apply IH.
Qed.

Lemma rfind_from_lt (c : ascii) (s : string) (i acc : Z) :
  (acc < i)%Z -> (rfind_from c s i acc < i + Z.of_nat (String.length s))%Z.
Proof.
  revert i acc. induction s as [|a s IH]; intros i acc H; cbn [rfind_from String.length].
  - lia.
  - specialize (IH (i + 1)%Z (if bool_decide (a = c) then i else acc)).
    destruct (bool_decide (a = c)); lia.
Qed.

Lemma str_take_app (s1 s2 : string) : str_take (String.length s1) (s1 +:+ s2) = s1.
Proof. induction s1 as [|c s1 IH]; str_simpl; [by destruct s2 | by rewrite IH]. Qed.

Lemma str_drop_app (s1 s2 : string) : str_drop (String.length s1) (s1 +:+ s2) = s2.
Proof. induction s1 as [|c s1 IH]; str_simpl; [by destruct s2 | done]. Qed.

Lemma str_drop_app_le (k : nat) (s1 s2 : string) :
  k <= String.length s1 -> str_drop k (s1 +:+ s2) = str_drop k s1 +:+ s2.
Proof.
  revert k. induction s1 as [|c s1 IH]; intros k Hk; cbn [String.length] in Hk; str_simpl.
  - replace k with 0 by lia. by destruct s2.
  - destruct k as [|k]; [done|]. str_simpl. apply IH. lia.
Qed.

Lemma str_exists_app (f : ascii -> bool) (s1 s2 : string) :
  str_exists f (s1 +:+ s2) = str_exists f s1 || str_exists f s2.
Proof.
  induction s1 as [|c s1 IH]; str_simpl; [done|]. by rewrite IH, orb_assoc.
Qed.

(** The extension of a name whose final path segment has a character [x]
    other than a dot before the last dot. *)
Lemma splitext_suffix (a : string) (x : ascii) (b e : string) :
  x <> "."%char -> x <> "/"%char ->
  has_char "/" b = false -> has_char "/" e = false -> has_char "." e = false ->
  splitext ((a +:+ String x b) +:+ String "." e) = (a +:+ String x b, String "." e).
Proof.
  intros Hx1 Hx2 Hb He1 He2. unfold splitext.
  change "."%char with extsep in *. change "/"%char with sep in *.
  set (stem := a +:+ String x b).
  assert (Hdot : rfind extsep (stem +:+ String extsep e) = Z.of_nat (String.length stem)).
  { unfold rfind. rewrite rfind_from_app. cbn [rfind_from].
    rewrite bool_decide_eq_true_2 by done. rewrite rfind_from_absent by done. lia. }
  assert (Hsep : rfind sep (stem +:+ String extsep e) = rfind sep a).
  { unfold rfind. rewrite rfind_from_app. cbn [rfind_from].
    rewrite bool_decide_eq_false_2 by done. rewrite rfind_from_absent by done.
    unfold stem. rewrite rfind_from_app. cbn [rfind_from].
    rewrite bool_decide_eq_false_2 by done. by rewrite rfind_from_absent. }
  assert (Hlt : (rfind sep a < Z.of_nat (String.length a))%Z).
  { unfold rfind. pose proof (rfind_from_lt sep a 0 (-1)). lia. }
  assert (Hlen : String.length a <= String.length stem).
  { unfold stem. rewrite length_append. lia. }
  rewrite Hdot, Hsep, Nat2Z.id, str_take_app, str_drop_app.
  rewrite (proj2 (Z.ltb_lt _ _)) by lia.
  unfold stem at 1. rewrite str_drop_app_le by lia.
  rewrite str_exists_app. cbn [str_exists].
  rewrite (bool_decide_eq_false_2 (x = extsep)) by done. cbn [negb orb].
  by rewrite orb_true_r.
Qed.

Lemma posix_join_relative (a b : string) :
  startswith_sep b = false -> endswith_sep a = true -> posix_join a [b] = a +:+ b.
Proof.
  intros Hb Ha. unfold posix_join. cbn [foldl]. unfold join_step.
  rewrite Hb, Ha. by rewrite orb_true_r.
Qed.

End Strings.

(** What [os.path.join] and [os.path.basename] give on plain components. *)
Section Paths.
Import os_path.

Lemma endswith_sep_append (a b : string) :
  b <> "" -> endswith_sep (a +:+ b) = endswith_sep b.
Proof.
  intros Hb. induction a as [|c a IH]; [done|].
  rewrite append_cons. cbn [endswith_sep]. rewrite IH.
  destruct (a +:+ b) eqn:Hab; [|done].
  destruct a; [|done]. by rewrite append_nil in Hab.
Qed.

Lemma append_not_empty (a b : string) : b <> "" -> a +:+ b <> "".
Proof. intros Hb. destruct a; [by rewrite append_nil | by rewrite append_cons]. Qed.

Lemma join_step_plain (path b : string) :
  path <> "" -> endswith_sep path = false -> startswith_sep b = false ->
  join_step path b = path +:+ "/" +:+ b.
Proof.
  intros Hp He Hb. unfold join_step. rewrite Hb, He.
  by rewrite bool_decide_eq_false_2.
Qed.

Lemma join_three_plain (b j n : string) :
  plain b -> plain j -> startswith_sep n = false ->
  posix_join "s3://" [b; j; n] = "s3://" +:+ b +:+ "/" +:+ j +:+ "/" +:+ n.
Proof.
  intros (Hb1 & Hb2 & Hb3) (Hj1 & Hj2 & Hj3) Hn.
  unfold posix_join. cbn [foldl].
  assert (H1 : join_step "s3://" b = "s3://" +:+ b).
  { unfold join_step. by rewrite Hb2. }
  rewrite H1.
  assert (H2 : join_step ("s3://" +:+ b) j = ("s3://" +:+ b) +:+ "/" +:+ j).
  { apply join_step_plain; [done | by rewrite endswith_sep_append | done]. }
  rewrite H2.
  assert (H3 : join_step (("s3://" +:+ b) +:+ "/" +:+ j) n
               = (("s3://" +:+ b) +:+ "/" +:+ j) +:+ "/" +:+ n).
  { apply join_step_plain; [done| |done].
    rewrite endswith_sep_append; [|by apply append_not_empty].
    by rewrite endswith_sep_append. }
  rewrite H3. by rewrite !append_assoc.
Qed.

Lemma posix_join_absolute_last (a : string) (ps : list string) (x : string) :
  posix_join a (ps ++ [String "/" x]) = String "/" x.
Proof. unfold posix_join. by rewrite foldl_app. Qed.

(** What [rfind] finds: nothing, or the place after which the character
    does not occur again. *)
Lemma rfind_from_spec (c : ascii) (s : string) :
  forall i acc,
    (rfind_from c s i acc = acc /\ has_char c s = false) \/
    (exists s1 s2,
       s = s1 +:+ String c s2 /\ has_char c s2 = false /\
       rfind_from c s i acc = (i + Z.of_nat (String.length s1))%Z).
Proof.
  unfold has_char. induction s as [|a s IH]; intros i acc; cbn [rfind_from str_exists].
  - by left.
  - destruct (IH (i + 1)%Z (if bool_decide (a = c) then i else acc))
      as [[Hr Hno]|(s1 & s2 & -> & Hno & Hr)].
    + rewrite Hr, Hno. destruct (bool_decide (a = c)) eqn:Hac.
      * right. exists "", s. apply bool_decide_eq_true in Hac as ->.
        split; [done|]. split; [done|]. cbn. lia.
      * by left.
    + right. exists (String a s1), s2. split; [done|]. split; [done|].
      rewrite Hr. cbn [String.length]. lia.
Qed.

Lemma basename_spec (p : string) :
  (has_char sep p = false /\ basename p = p /\ rfind sep p = (-1)%Z) \/
  (exists d f,
     p = d +:+ String sep f /\ has_char sep f = false /\ basename p = f /\
     rfind sep p = Z.of_nat (String.length d)).
Proof.
  unfold basename, rfind.
  destruct (rfind_from_spec sep p 0 (-1)) as [[Hr Hno]|(d & f & -> & Hno & Hr)].
  - left. rewrite Hr. by destruct p.
  - right. exists d, f. rewrite Hr. split; [done|]. split; [done|]. split; [|lia].
    replace (Z.to_nat (0 + Z.of_nat (String.length d) + 1))
      with (String.length (d +:+ String sep "")).
    2: { rewrite length_append. cbn. lia. }
    replace (d +:+ String sep f) with ((d +:+ String sep "") +:+ f).
    2: { by rewrite append_assoc. }
    apply str_drop_app.
Qed.

Lemma basename_no_sep (p : string) : has_char sep (basename p) = false.
Proof.
  destruct (basename_spec p) as [(Hno & -> & _)|(d & f & _ & Hno & -> & _)]; done.
Qed.

Lemma splitext_no_dot (p : string) :
  has_char extsep (basename p) = false -> splitext p = (p, "").
Proof.
  intros Hno. unfold splitext.
  assert (Hle : (rfind extsep p <= rfind sep p)%Z).
  { destruct (basename_spec p) as [(_ & Hb & Hr)|(d & f & -> & _ & Hb & Hr)].
    - rewrite Hb in Hno. rewrite Hr. unfold rfind. rewrite rfind_from_absent by done. lia.
    - rewrite Hb in Hno. rewrite Hr. unfold rfind. rewrite rfind_from_app.
      cbn [rfind_from]. rewrite bool_decide_eq_false_2 by done.
      rewrite rfind_from_absent by done.
      pose proof (rfind_from_lt extsep d 0 (-1)). lia. }
  by rewrite (proj2 (Z.ltb_ge _ _)).
Qed.

End Paths.

(** ** Script mode: the script's name *)

Lemma basename_final_segment (p : string) :
  has_char "/" (os_path.basename p) = false /\
  (p = os_path.basename p \/ exists d, p = d +:+ "/" +:+ os_path.basename p).
Proof.
  change "/"%char with os_path.sep.
  destruct (basename_spec p) as [(Hno & Hb & _)|(d & f & Hp & Hno & Hb & _)]; rewrite Hb.
  - split; [done | by left].
  - split; [done|]. right. by exists d.
Qed.

(** C6. With [source] being of one kind only (a remote URI is not a local
    directory, a file is not a directory): a local directory without
    [script_name] is a [ValueError]; a remote URI or a local directory with
    [script_name] resolves to [script_name]; a remote URI without
    [script_name], or an existing local file, resolves to the final path
    segment of [source], that is, to the [segment] without ["/"] such that
    [source] is [segment] or ends in ["/" ++ segment]; a local path that is
    neither an existing file nor a directory is a [ValueError]. *)
Theorem C6_script_name_resolution (W : World) (source : string) (script_name : option string) :
  (is_s3 W source = true -> isdir W source = false) ->
  (isfile W source = true -> isdir W source = false) ->
  (isdir W source = true -> script_name = None ->
   _get_customer_script_name W source script_name = Raise ValueError) /\
  (is_s3 W source = true \/ isdir W source = true ->
   forall n, script_name = Some n ->
   _get_customer_script_name W source script_name = Ok n) /\
  ((is_s3 W source = true /\ script_name = None) \/
   (is_s3 W source = false /\ isfile W source = true) ->
   exists segment,
     _get_customer_script_name W source script_name = Ok segment /\
     has_char "/" segment = false /\
     (source = segment \/ exists d, source = d +:+ "/" +:+ segment)) /\
  (is_s3 W source = false -> isfile W source = false -> isdir W source = false ->
   _get_customer_script_name W source script_name = Raise ValueError).
Proof.
  intros Hremote Hfile.
  assert (Hseg : exists segment,
             Ok (os_path.basename source) = Ok segment /\
             has_char "/" segment = false /\
             (source = segment \/ exists d, source = d +:+ "/" +:+ segment)).
  { exists (os_path.basename source). split; [done|]. apply basename_final_segment. }
  unfold _get_customer_script_name.
  destruct (is_s3 W source), (isdir W source), (isfile W source), script_name;
    cbn [orb]; repeat split; try exact (fun _ => Hseg); intuition congruence.
Qed.

Lemma C6_script_name_resolution_witness :
  (is_s3 sample_world "s3://bucket/code/run.py" = true ->
   isdir sample_world "s3://bucket/code/run.py" = false) /\
  (isfile sample_world "s3://bucket/code/run.py" = true ->
   isdir sample_world "s3://bucket/code/run.py" = false) /\
  _get_customer_script_name sample_world "s3://bucket/code/run.py" None = Ok "run.py".
Proof.
  assert (H1 : is_s3 sample_world "s3://bucket/code/run.py" = true ->
               isdir sample_world "s3://bucket/code/run.py" = false)
    by (intros _; reflexivity).
  assert (H2 : isfile sample_world "s3://bucket/code/run.py" = true ->
               isdir sample_world "s3://bucket/code/run.py" = false)
    by (intros _; reflexivity).
  split; [exact H1|]. split; [exact H2|].
  destruct (C6_script_name_resolution sample_world "s3://bucket/code/run.py" None H1 H2)
    as (_ & _ & H & _).
  destruct H as (segment & Hrun & _); [left; split; reflexivity|].
  pose proof Hrun as Hc. vm_compute in Hc. injection Hc as <-. exact Hrun.
Defined.

(** ** Script mode: the entry point *)

Lemma get_execution_program_ext (tag name ext : string) :
  snd (os_path.splitext name) = ext ->
  _get_execution_program tag name =
    if bool_decide (ext = ".py") then
      if bool_decide (tag = "py3") then Ok "python3"
      else if bool_decide (tag = "py2") then Ok "python2"
      else Ok "python"
    else if bool_decide (ext = ".sh") then Ok "bash"
    else Raise ValueError.
Proof. unfold _get_execution_program. by intros ->. Qed.

Lemma set_entrypoint_eq (name : string) (st : State) :
  _set_entrypoint name st =
  match _get_execution_program (py_version (self st)) name with
  | Ok prog =>
      (Ok tt, set_self (with_entrypoint (Some [prog; customer_script_location name]) (self st)) st)
  | Raise e => (Raise e, st)
  end.
Proof.
  unfold _set_entrypoint. mred.
  by destruct (_get_execution_program (py_version (self st)) name).
Qed.

(** Where the script is looked for: under ["/code/source/"], unless its
    name starts with ["/"]. *)
Lemma customer_script_location_relative (name : string) :
  os_path.startswith_sep name = false ->
  customer_script_location name = "/code/source/" +:+ name.
Proof.
  intros Hn. unfold customer_script_location, os_path.posix_join. cbn [foldl].
  unfold os_path.join_step at 1. by rewrite Hn.
Qed.

Lemma customer_script_location_absolute (name : string) :
  os_path.startswith_sep name = true -> customer_script_location name = name.
Proof.
  intros Hn. unfold customer_script_location, os_path.posix_join. cbn [foldl].
  unfold os_path.join_step at 1. by rewrite Hn.
Qed.

(** C7, as the code has it.  A name has extension [.py] ([.sh]) when it
    ends in it and the final path segment has, before that suffix, a
    character [x] that is not a dot.  For such a name the interpreter is
    ["python3"] under tag ["py3"], ["python2"] under ["py2"], ["python"]
    under any other tag, and ["bash"] for [.sh]; a name with any other
    extension is a [ValueError]; and when an interpreter is found the entry
    point becomes the two-element command made of the interpreter and
    ["/code/source/" ++ name], for a name that does not start with ["/"];
    a name that starts with ["/"] is itself the second element. *)
Theorem C7_entrypoint_derivation (a : string) (x : ascii) (b : string) (st : State) :
  x <> "."%char -> x <> "/"%char -> has_char "/" b = false ->
  _get_execution_program "py3" ((a +:+ String x b) +:+ ".py") = Ok "python3" /\
  _get_execution_program "py2" ((a +:+ String x b) +:+ ".py") = Ok "python2" /\
  (forall tag, tag <> "py3" -> tag <> "py2" ->
   _get_execution_program tag ((a +:+ String x b) +:+ ".py") = Ok "python") /\
  (forall tag, _get_execution_program tag ((a +:+ String x b) +:+ ".sh") = Ok "bash") /\
  (forall tag name,
     snd (os_path.splitext name) <> ".py" -> snd (os_path.splitext name) <> ".sh" ->
     _get_execution_program tag name = Raise ValueError) /\
  (forall name interpreter,
     os_path.startswith_sep name = false ->
     _get_execution_program (py_version (self st)) name = Ok interpreter ->
     exists st',
       _set_entrypoint name st = (Ok tt, st') /\
       entrypoint (self st') = Some [interpreter; "/code/source/" +:+ name]) /\
  (forall name interpreter,
     os_path.startswith_sep name = true ->
     _get_execution_program (py_version (self st)) name = Ok interpreter ->
     exists st',
       _set_entrypoint name st = (Ok tt, st') /\
       entrypoint (self st') = Some [interpreter; name]) /\
  (forall name e,
     _get_execution_program (py_version (self st)) name = Raise e ->
     _set_entrypoint name st = (Raise e, st)).
Proof.
  intros Hx1 Hx2 Hb.
  assert (Hpy : snd (os_path.splitext ((a +:+ String x b) +:+ ".py")) = ".py").
  { by rewrite (splitext_suffix a x b "py"). }
  assert (Hsh : snd (os_path.splitext ((a +:+ String x b) +:+ ".sh")) = ".sh").
  { by rewrite (splitext_suffix a x b "sh"). }
  repeat split.
  - by rewrite (get_execution_program_ext _ _ _ Hpy).
  - by rewrite (get_execution_program_ext _ _ _ Hpy).
  - intros tag H3 H2. rewrite (get_execution_program_ext _ _ _ Hpy).
    rewrite (bool_decide_eq_true_2 (".py" = ".py")) by done.
    by rewrite (bool_decide_eq_false_2 (tag = "py3")), (bool_decide_eq_false_2 (tag = "py2")).
  - intros tag. by rewrite (get_execution_program_ext _ _ _ Hsh).
  - intros tag name H1 H2. unfold _get_execution_program.
    by rewrite (bool_decide_eq_false_2 (_ = ".py")), (bool_decide_eq_false_2 (_ = ".sh")).
  - intros name interpreter Hn H. rewrite set_entrypoint_eq, H. eexists. split; [done|].
    cbn [set_self self with_entrypoint entrypoint].
    by rewrite customer_script_location_relative.
  - intros name interpreter Hn H. rewrite set_entrypoint_eq, H. eexists. split; [done|].
    cbn [set_self self with_entrypoint entrypoint].
    by rewrite customer_script_location_absolute.
  - intros name e H. by rewrite set_entrypoint_eq, H.
Qed.

Lemma C7_entrypoint_derivation_witness :
  "r"%char <> "."%char /\ "r"%char <> "/"%char /\ has_char "/" "un" = false /\
  _get_execution_program "py3" "run.py" = Ok "python3" /\
  _get_execution_program "py3" "run.sh" = Ok "bash" /\
  exists st',
    _set_entrypoint "run.py" (initial_state sample_processor []) = (Ok tt, st') /\
    entrypoint (self st') = Some ["python3"; "/code/source/run.py"].
Proof.
  assert (H1 : "r"%char <> "."%char) by discriminate.
  assert (H2 : "r"%char <> "/"%char) by discriminate.
  assert (H3 : has_char "/" "un" = false) by reflexivity.
  destruct (C7_entrypoint_derivation "" "r"%char "un" (initial_state sample_processor []) H1 H2 H3)
    as (Hpy & _ & _ & Hsh & _ & Hrel & _).
  exact (conj H1 (conj H2 (conj H3 (conj Hpy (conj (Hsh "py3")
           (Hrel "run.py" "python3" eq_refl Hpy)))))).
Defined.

(** C7 as stated fails twice.  The name [".py"] ends in [.py], yet
    [os.path.splitext] gives a name that starts with its only dot no
    extension, so the script is refused.  And the name ["/x.py"] has an
    interpreter, yet [os.path.join] lets a component that starts with
    ["/"] replace what came before, so the entry point's second element is
    ["/x.py"] and not ["/code/source//x.py"]. *)
Lemma C7_as_stated_counterexample :
  ~ (forall name, ends_with ".py" name -> _get_execution_program "py3" name = Ok "python3") /\
  ~ (forall name interpreter,
       _get_execution_program "py3" name = Ok interpreter ->
       exists st',
         _set_entrypoint name (initial_state sample_processor []) = (Ok tt, st') /\
         entrypoint (self st') = Some [interpreter; "/code/source/" +:+ name]).
Proof.
  split.
  - intros H. specialize (H ".py").
    assert (He : ends_with ".py" ".py") by (by exists "").
    specialize (H He). vm_compute in H. discriminate.
  - intros H. destruct (H "/x.py" "python3") as (st' & Hrun & Hentry);
      [vm_compute; reflexivity|].
    apply (f_equal (fun p => entrypoint (self (snd p)))) in Hrun.
    cbn [snd] in Hrun. rewrite Hentry in Hrun. vm_compute in Hrun. discriminate.
Qed.

Example dotfile_has_no_extension :
  os_path.splitext ".py" = (".py", "") /\ _get_execution_program "py3" ".py" = Raise ValueError.
Proof. split; vm_compute; reflexivity. Qed.

(** The cases of script resolution on the sample world. *)
Example resolve_directory_without_name :
  _get_customer_script_name sample_world "dir" None = Raise ValueError.
Proof. vm_compute. reflexivity. Qed.

Example resolve_directory_with_name :
  _get_customer_script_name sample_world "dir" (Some "run.py") = Ok "run.py".
Proof. vm_compute. reflexivity. Qed.

Example resolve_local_file :
  _get_customer_script_name sample_world "script.sh" None = Ok "script.sh" /\
  fst (_set_entrypoint "script.sh" (initial_state sample_processor [])) = Ok tt /\
  entrypoint (self (snd (_set_entrypoint "script.sh" (initial_state sample_processor [])))) =
    Some ["bash"; "/code/source/script.sh"].
Proof. repeat split; vm_compute; reflexivity. Qed.

Example resolve_remote_uri :
  _get_customer_script_name sample_world "s3://bucket/code/run.py" None = Ok "run.py".
Proof. vm_compute. reflexivity. Qed.

Example resolve_missing_path :
  _get_customer_script_name sample_world "missing.py" None = Raise ValueError.
Proof. vm_compute. reflexivity. Qed.

(** ** Normalizing inputs *)

Lemma state_eta (st : State) :
  {| self := self st; heap := heap st; trace := trace st; clock := clock st |} = st.
Proof. by destruct st. Qed.

Lemma set_input_name_id (fi : FileInput.t) (n : string) :
  FileInput.input_name fi = Some n -> FileInput.set_input_name (Some n) fi = fi.
Proof. destruct fi; cbn; by intros ->. Qed.

Lemma input_name_at_Some (c : nat) (fi : FileInput.t) (n : string) :
  FileInput.input_name fi = Some n -> input_name_at c fi = n.
Proof. unfold input_name_at. by intros ->. Qed.

(** One turn of the loop on a [FileInput], under job name [jn]. *)
Lemma normalize_input_eq (W : World) (c : nat) (l : loc) (fi : FileInput.t) (jn : string)
  (st : State) :
  heap st !! l = Some (ObjFileInput fi) ->
  _current_job_name (self st) = Some jn ->
  normalize_input W c (VRef l) st =
  (Ok tt,
   {| self := self st;
      heap := <[l := ObjFileInput (normalized_input W jn c fi)]> (heap st);
      trace := trace st ++ input_upload_events W jn c fi;
      clock := clock st |}).
Proof.
  intros Hl Hjn.
  unfold normalize_input, normalized_input, input_upload_events, desired_input_uri.
  mred. rewrite Hl, Hjn. mred.
  cbn [FileInput.source FileInput.set_input_name FileInput.input_name].
  unfold os_path.join. cbn [os_path.all_str].
  destruct (FileInput.input_name fi) as [n|] eqn:Hn;
    destruct (is_s3 W (FileInput.source fi)) eqn:Hs3; cbn [negb]; mred.
  - rewrite (input_name_at_Some _ _ _ Hn), (set_input_name_id _ _ Hn).
    by rewrite (list_insert_id _ _ _ Hl), app_nil_r, state_eta.
  - done.
  - by rewrite app_nil_r.
  - by rewrite list_insert_insert_eq.
Qed.

Lemma is_FileInput_insert (h : list pyobj) (l : loc) (fi0 fi : FileInput.t) (v : pyval) :
  h !! l = Some (ObjFileInput fi0) ->
  is_FileInput (<[l := ObjFileInput fi]> h) v = is_FileInput h v.
Proof.
  intros Hl. destruct v as [| |l']; try done. cbn [is_FileInput].
  destruct (decide (l = l')) as [<-|Hne].
  - rewrite list_lookup_insert_eq by (by eapply lookup_lt_Some). by rewrite Hl.
  - by rewrite list_lookup_insert_ne.
Qed.

(** Whatever the job name, a turn of the loop either succeeds or raises a
    [TypeError], and it never changes which objects are [FileInput]s. *)
Lemma normalize_input_cases (W : World) (c : nat) (v : pyval) (st : State) :
  exists r st',
    normalize_input W c v st = (r, st') /\
    (r = Ok tt \/ r = Raise TypeError) /\
    (is_FileInput (heap st) v = false -> r = Raise TypeError) /\
    (forall v', is_FileInput (heap st') v' = is_FileInput (heap st) v').
Proof.
  destruct v as [| |l]; try (by exists (Raise TypeError), st; auto).
  destruct (heap st !! l) as [[fi|fo|job]|] eqn:Hl;
    try (exists (Raise TypeError), st; unfold normalize_input; mred; rewrite Hl; by auto).
  destruct (_current_job_name (self st)) as [jn|] eqn:Hjn.
  - eexists _, _. split; [by apply normalize_input_eq|].
    split; [by left|]. split; [cbn; by rewrite Hl|].
    intros v'. cbn [heap]. by eapply is_FileInput_insert.
  - unfold normalize_input. mred. rewrite Hl, Hjn. mred.
    cbn [FileInput.source FileInput.set_input_name FileInput.input_name].
    unfold os_path.join. cbn [os_path.all_str].
    destruct (FileInput.input_name fi) as [n|] eqn:Hn;
      destruct (is_s3 W (FileInput.source fi)) eqn:Hs3; cbn [negb]; mred;
      eexists _, _; (split; [reflexivity|]); cbn [heap];
      (split; [auto|]); (split; [cbn; by rewrite Hl|]);
      intros v'; try done; by eapply is_FileInput_insert.
Qed.

Lemma first_index_Some (v : pyval) (ls : list pyval) (i : nat) :
  first_index v ls = Some i <->
  ls !! i = Some v /\ forall j, j < i -> ls !! j <> Some v.
Proof.
  revert i. induction ls as [|x ls IH]; intros i; cbn [first_index].
  - split; [done | by intros [? _]].
  - destruct (decide (x = v)) as [->|Hne].
    + split.
      * intros [= <-]. split; [done | lia].
      * intros [Hi Hfirst]. destruct i as [|i]; [done|].
        by destruct (Hfirst 0 ltac:(lia)).
    + destruct (first_index v ls) as [k|] eqn:Hk; cbn.
      * split.
        -- intros [= <-]. destruct (proj1 (IH k) eq_refl) as [Hk1 Hk2].
           split; [done|]. intros [|j] Hj; cbn; [congruence | apply Hk2; lia].
        -- intros [Hi Hfirst]. destruct i as [|i]; cbn in Hi; [congruence|].
           f_equal. assert (Some k = Some i) as [= ->]; [|done].
           apply IH. split; [done|]. intros j Hj. apply (Hfirst (S j)). lia.
      * split; [done|]. intros [Hi Hfirst]. destruct i as [|i]; cbn in Hi; [congruence|].
        assert (None = Some i); [|done].
        apply IH. split; [done|]. intros j Hj. apply (Hfirst (S j)). lia.
Qed.

Lemma first_index_elem_of (v : pyval) (ls : list pyval) :
  v ∈ ls -> exists i, first_index v ls = Some i.
Proof.
  induction ls as [|x ls IH]; [by intros ?%elem_of_nil|].
  intros [->|Hin]%elem_of_cons; cbn [first_index].
  - rewrite decide_True by done. eauto.
  - destruct (decide (x = v)); [eauto|]. destruct (IH Hin) as [i ->]. cbn. eauto.
Qed.

(** Once a descriptor has a name and a remote source, the loop leaves it
    alone. *)
Lemma normalized_input_stable (W : World) (jn : string) (c : nat) (fi : FileInput.t) (n : string) :
  FileInput.input_name fi = Some n -> is_s3 W (FileInput.source fi) = true ->
  normalized_input W jn c fi = fi.
Proof.
  intros Hn Hs. unfold normalized_input. rewrite Hs.
  by rewrite (input_name_at_Some _ _ _ Hn), (set_input_name_id _ _ Hn).
Qed.

Lemma normalized_input_name (W : World) (jn : string) (c : nat) (fi : FileInput.t) :
  FileInput.input_name (normalized_input W jn c fi) = Some (input_name_at c fi).
Proof. unfold normalized_input. by destruct (is_s3 W (FileInput.source fi)). Qed.

Lemma normalized_input_remote (W : World) (jn : string) (c : nat) (fi : FileInput.t) :
  (forall p d, is_s3 W (S3Uploader_upload W p d) = true) ->
  is_s3 W (FileInput.source (normalized_input W jn c fi)) = true.
Proof.
  intros Hup. unfold normalized_input.
  destruct (is_s3 W (FileInput.source fi)) eqn:Hs; cbn; [done | apply Hup].
Qed.

Lemma normalize_inputs_loop_TypeError (W : World) (ls : list pyval) :
  forall (c : nat) (acc : list pyval) (st : State),
    (exists v, v ∈ ls /\ is_FileInput (heap st) v = false) ->
    exists st', normalize_inputs_loop W c ls acc st = (Raise TypeError, st').
Proof.
  induction ls as [|x ls IH]; intros c acc st (v & Hin & Hv);
    [by apply elem_of_nil in Hin|].
  cbn [normalize_inputs_loop].
  destruct (normalize_input_cases W c x st) as (r & st1 & Hstep & Hr & Hbad & Hty).
  destruct Hr as [-> | ->].
  - rewrite (bind_ok _ _ _ _ _ Hstep). apply IH.
    apply elem_of_cons in Hin as [-> | Hin].
    + by specialize (Hbad Hv).
    + exists v. split; [done|]. by rewrite Hty.
  - rewrite (bind_raise _ _ _ _ _ Hstep). eauto.
Qed.

(** The loop of [_normalize_inputs] on a list of [FileInput]s: it returns
    the list it was given; every call it makes is an upload of a local
    source; and each object ends up as its first turn left it. *)
Lemma normalize_inputs_loop_spec (W : World) (jn : string) (ls : list pyval) :
  forall (c : nat) (acc : list pyval) (st : State),
    _current_job_name (self st) = Some jn ->
    (forall v, v ∈ ls -> is_FileInput (heap st) v = true) ->
    exists st' evs,
      normalize_inputs_loop W c ls acc st = (Ok (acc ++ ls), st') /\
      trace st' = trace st ++ evs /\
      (forall e, e ∈ evs -> exists p d, e = EvUpload p d /\ is_s3 W p = false) /\
      (forall l fi,
         heap st !! l = Some (ObjFileInput fi) ->
         exists fi',
           heap st' !! l = Some (ObjFileInput fi') /\
           match first_index (VRef l) ls with
           | None => fi' = fi
           | Some i =>
               FileInput.input_name fi' = Some (input_name_at (c + i) fi) /\
               (is_s3 W (FileInput.source fi) = false ->
                EvUpload (FileInput.source fi)
                  (desired_input_uri W jn (input_name_at (c + i) fi)) ∈ evs) /\
               ((forall p d, is_s3 W (S3Uploader_upload W p d) = true) ->
                fi' = normalized_input W jn (c + i) fi)
           end).
Proof.
  induction ls as [|x ls IH]; intros c acc st Hjn Hall.
  - exists st, []. cbn [normalize_inputs_loop first_index].
    rewrite !app_nil_r. split; [done|]. split; [done|].
    split; [by intros e ?%elem_of_nil|]. eauto.
  - assert (Hx : is_FileInput (heap st) x = true) by (apply Hall; left).
    destruct x as [| |lx]; try done. cbn [is_FileInput] in Hx.
    destruct (heap st !! lx) as [[fx| |]|] eqn:Hlx; try done.
    cbn [normalize_inputs_loop].
    rewrite (bind_ok _ _ _ _ _ (normalize_input_eq W c lx fx jn st Hlx Hjn)).
    set (st1 := {| self := self st;
                   heap := <[lx := ObjFileInput (normalized_input W jn c fx)]> (heap st);
                   trace := trace st ++ input_upload_events W jn c fx;
                   clock := clock st |}).
    destruct (IH (S c) (acc ++ [VRef lx]) st1) as (st' & evs & Hrun & Htr & Hevs & Hobj).
    { done. }
    { intros v Hv. cbn [st1 heap]. rewrite (is_FileInput_insert _ _ fx) by done.
      apply Hall. by right. }
    exists st', (input_upload_events W jn c fx ++ evs).
    split; [by rewrite Hrun, <- app_assoc|].
    split; [by rewrite Htr; cbn [st1 trace]; rewrite <- app_assoc|].
    split.
    { intros e [He|He]%elem_of_app; [|by apply Hevs].
      unfold input_upload_events in He.
      destruct (is_s3 W (FileInput.source fx)) eqn:Hs; [by apply elem_of_nil in He|].
      apply list_elem_of_singleton in He as ->. eauto. }
    intros l fi Hl. cbn [first_index].
    destruct (decide (VRef lx = VRef l)) as [[= <-]|Hne].
    + assert (fi = fx) as -> by congruence.
      destruct (Hobj lx (normalized_input W jn c fx)) as (fi' & Hfi' & Hrest).
      { cbn [st1 heap]. apply list_lookup_insert_eq. by eapply lookup_lt_Some. }
      exists fi'. split; [done|]. rewrite Nat.add_0_r.
      assert (Hev : is_s3 W (FileInput.source fx) = false ->
                    EvUpload (FileInput.source fx)
                      (desired_input_uri W jn (input_name_at c fx))
                    ∈ input_upload_events W jn c fx ++ evs).
      { intros Hs. apply elem_of_app. left. unfold input_upload_events. rewrite Hs.
        by apply list_elem_of_singleton. }
      destruct (first_index (VRef lx) ls) as [j|].
      * destruct Hrest as (Hname & _ & Hfull).
        rewrite (input_name_at_Some _ _ _ (normalized_input_name W jn c fx)) in Hname.
        split; [done|]. split; [done|]. intros Hup. rewrite (Hfull Hup).
        eapply normalized_input_stable; [apply normalized_input_name|].
        by apply normalized_input_remote.
      * subst fi'. split; [apply normalized_input_name|]. by split.
    + assert (lx <> l) by congruence.
      destruct (Hobj l fi) as (fi' & Hfi' & Hrest).
      { cbn [st1 heap]. by rewrite list_lookup_insert_ne. }
      exists fi'. split; [done|].
      destruct (first_index (VRef l) ls) as [j|]; cbn [fmap option_fmap option_map]; [|done].
      replace (c + S j) with (S c + j) by lia.
      destruct Hrest as (Hname & Hev & Hfull). split; [done|].
      split; [|done]. intros Hs. apply elem_of_app. right. by apply Hev.
Qed.

(** On a list of [FileInput]s, names are given at first occurrences. *)
Lemma normalize_inputs_first_occurrence (W : World) (ls : list pyval) (st : State)
  (jn : string) :
  _current_job_name (self st) = Some jn ->
  (forall v, v ∈ ls -> is_FileInput (heap st) v = true) ->
  exists st',
    _normalize_inputs W (Some ls) st = (Ok ls, st') /\
    forall i l fi,
      ls !! i = Some (VRef l) ->
      (forall j, j < i -> ls !! j <> Some (VRef l)) ->
      heap st !! l = Some (ObjFileInput fi) ->
      exists fi',
        heap st' !! l = Some (ObjFileInput fi') /\
        FileInput.input_name fi' =
          Some (match FileInput.input_name fi with
                | Some n => n
                | None => "input-" +:+ str_of_nat (S i)
                end).
Proof.
  intros Hjn Hall.
  destruct (normalize_inputs_loop_spec W jn ls 1 [] st Hjn Hall)
    as (st' & evs & Hrun & _ & _ & Hobj).
  exists st'. split; [done|]. intros i l fi Hi Hfirst Hl.
  destruct (Hobj l fi Hl) as (fi' & Hfi' & Hrest).
  rewrite (proj2 (first_index_Some (VRef l) ls i)) in Hrest by done.
  exists fi'. split; [done|]. by destruct Hrest as (-> & _).
Qed.

(** When no object is listed twice, every position is a first occurrence:
    the unnamed descriptor at position [i] is named ["input-{i}"]. *)
Lemma normalize_inputs_names_distinct (W : World) (ls : list pyval) (st : State)
  (jn : string) :
  _current_job_name (self st) = Some jn ->
  (forall v, v ∈ ls -> is_FileInput (heap st) v = true) ->
  NoDup ls ->
  exists st',
    _normalize_inputs W (Some ls) st = (Ok ls, st') /\
    forall i l fi,
      ls !! i = Some (VRef l) ->
      heap st !! l = Some (ObjFileInput fi) ->
      exists fi',
        heap st' !! l = Some (ObjFileInput fi') /\
        FileInput.input_name fi' =
          Some (match FileInput.input_name fi with
                | Some n => n
                | None => "input-" +:+ str_of_nat (S i)
                end).
Proof.
  intros Hjn Hall Hnodup.
  destruct (normalize_inputs_first_occurrence W ls st jn Hjn Hall) as (st' & Hrun & Hnames).
  exists st'. split; [done|]. intros i l fi Hi Hl.
  apply (Hnames i l fi Hi); [|done].
  intros j Hj Hjl. pose proof (NoDup_lookup _ _ _ _ Hnodup Hi Hjl). lia.
Qed.

(** C3, as the code has it.  If some element is not a [FileInput],
    [_normalize_inputs] raises a [TypeError].  On a list of [FileInput]s it
    returns the list it was given, in order; a descriptor that had a name
    keeps it, and a descriptor without one is named ["input-{i}"] for the
    1-based position [i] at which the object first occurs in the list. *)
Theorem C3_normalize_inputs_names (W : World) (ls : list pyval) (st : State) :
  ((exists v, v ∈ ls /\ is_FileInput (heap st) v = false) ->
   exists st', _normalize_inputs W (Some ls) st = (Raise TypeError, st')) /\
  (forall jn,
     _current_job_name (self st) = Some jn ->
     (forall v, v ∈ ls -> is_FileInput (heap st) v = true) ->
     exists st',
       _normalize_inputs W (Some ls) st = (Ok ls, st') /\
       forall i l fi,
         ls !! i = Some (VRef l) ->
         (forall j, j < i -> ls !! j <> Some (VRef l)) ->
         heap st !! l = Some (ObjFileInput fi) ->
         exists fi',
           heap st' !! l = Some (ObjFileInput fi') /\
           FileInput.input_name fi' =
             Some (match FileInput.input_name fi with
                   | Some n => n
                   | None => "input-" +:+ str_of_nat (S i)
                   end)).
Proof.
  split.
  - intros Hbad. by apply normalize_inputs_loop_TypeError.
  - intros jn. apply normalize_inputs_first_occurrence.
Qed.

Lemma sample_inputs_typed (st : State) (ls : list pyval) :
  forallb (is_FileInput (heap st)) ls = true ->
  forall v, v ∈ ls -> is_FileInput (heap st) v = true.
Proof.
  intros Hall v Hin. rewrite forallb_forall in Hall. apply Hall.
  by apply list_elem_of_In.
Qed.

Lemma C3_normalize_inputs_names_witness :
  _current_job_name (self two_inputs_state) = Some "job" /\
  exists st' fi0 fi1,
    _normalize_inputs sample_world (Some [VRef 0; VRef 1]) two_inputs_state =
      (Ok [VRef 0; VRef 1], st') /\
    heap st' !! 0 = Some (ObjFileInput fi0) /\
    FileInput.input_name fi0 = Some "input-1" /\
    heap st' !! 1 = Some (ObjFileInput fi1) /\
    FileInput.input_name fi1 = Some "mine".
Proof.
  split; [reflexivity|].
  destruct (C3_normalize_inputs_names sample_world [VRef 0; VRef 1] two_inputs_state)
    as [_ Hok].
  destruct (Hok "job" eq_refl (sample_inputs_typed two_inputs_state [VRef 0; VRef 1] eq_refl))
    as (st' & Hrun & Hnames).
  destruct (Hnames 0 0 local_unnamed_input eq_refl ltac:(lia) eq_refl) as (fi0 & H0 & Hn0).
  destruct (Hnames 1 1 remote_named_input eq_refl) as (fi1 & H1 & Hn1).
  { intros [|j] Hj; [discriminate | lia]. }
  { reflexivity. }
  exists st', fi0, fi1. repeat split; assumption.
Defined.

(** C3 as stated fails when one object is listed twice: the unnamed
    descriptor at the second position is left with the name of the first
    position, ["input-1"], and not given ["input-2"]. *)
Lemma C3_as_stated_counterexample :
  ~ (forall st' i l fi,
       _normalize_inputs sample_world (Some [VRef 0; VRef 0]) one_input_state =
         (Ok [VRef 0; VRef 0], st') ->
       [VRef 0; VRef 0] !! i = Some (VRef l) ->
       heap one_input_state !! l = Some (ObjFileInput fi) ->
       FileInput.input_name fi = None ->
       exists fi',
         heap st' !! l = Some (ObjFileInput fi') /\
         FileInput.input_name fi' = Some ("input-" +:+ str_of_nat (S i))).
Proof.
  intros H.
  destruct (H (snd (_normalize_inputs sample_world (Some [VRef 0; VRef 0]) one_input_state))
              1 0 local_unnamed_input) as (fi' & Hfi' & Hname);
    try (vm_compute; reflexivity).
  vm_compute in Hfi'. injection Hfi' as <-. vm_compute in Hname. discriminate.
Qed.

(** What the code does there: one upload, one name. *)
Example shared_input_named_once :
  exists st',
    _normalize_inputs sample_world (Some [VRef 0; VRef 0]) one_input_state =
      (Ok [VRef 0; VRef 0], st') /\
    heap st' !! 0 =
      Some (ObjFileInput (FileInput.init "s3://bucket/job/input-1"
                            "/opt/ml/processing/input" (Some "input-1"))) /\
    trace st' = [EvUpload "data.csv" "s3://bucket/job/input-1"].
Proof. eexists. split; [vm_compute; reflexivity|]. split; reflexivity. Qed.

(** [os.path.join("s3://", bucket, job-name, name)], spelled out. *)
Lemma desired_input_uri_relative (W : World) (jn name : string) :
  plain (default_bucket W) -> plain jn -> os_path.startswith_sep name = false ->
  desired_input_uri W jn name = "s3://" +:+ default_bucket W +:+ "/" +:+ jn +:+ "/" +:+ name.
Proof. intros Hb Hj Hn. by apply join_three_plain. Qed.

Lemma desired_input_uri_absolute (W : World) (jn name : string) :
  os_path.startswith_sep name = true -> desired_input_uri W jn name = name.
Proof.
  intros Hn. unfold desired_input_uri, os_path.posix_join. cbn [foldl].
  unfold os_path.join_step at 1. by rewrite Hn.
Qed.

(** C4. Under a job name, with an uploader that answers with remote (s3)
    addresses, and a bucket and a job name that are plain path components
    (not empty, no ["/"] at either end), [_normalize_inputs] on a list of
    [FileInput]s makes only uploads of local sources, and for every
    descriptor of the list: if its source was not an s3 address, the source
    becomes what the uploader returned for it and the location
    ["s3://<bucket>/<job-name>/<input-name>"], and that upload was made,
    when the input's name does not start with ["/"]; when the name starts
    with ["/"], the location is the name alone; if its source was an s3
    address, the source is unchanged and no upload of it was made. *)
Theorem C4_normalize_inputs_sources (W : World) (ls : list pyval) (st : State) (jn : string) :
  _current_job_name (self st) = Some jn ->
  plain (default_bucket W) -> plain jn ->
  (forall p d, is_s3 W (S3Uploader_upload W p d) = true) ->
  (forall v, v ∈ ls -> is_FileInput (heap st) v = true) ->
  exists st' uploads,
    _normalize_inputs W (Some ls) st = (Ok ls, st') /\
    trace st' = trace st ++ uploads /\
    (forall e, e ∈ uploads -> exists p d, e = EvUpload p d /\ is_s3 W p = false) /\
    forall l fi,
      VRef l ∈ ls ->
      heap st !! l = Some (ObjFileInput fi) ->
      exists fi' name,
        heap st' !! l = Some (ObjFileInput fi') /\
        FileInput.input_name fi' = Some name /\
        (forall n, FileInput.input_name fi = Some n -> name = n) /\
        if is_s3 W (FileInput.source fi) then
          FileInput.source fi' = FileInput.source fi /\
          forall d, EvUpload (FileInput.source fi) d ∉ uploads
        else
          (os_path.startswith_sep name = false ->
           FileInput.source fi' =
             S3Uploader_upload W (FileInput.source fi)
               ("s3://" +:+ default_bucket W +:+ "/" +:+ jn +:+ "/" +:+ name) /\
           EvUpload (FileInput.source fi)
             ("s3://" +:+ default_bucket W +:+ "/" +:+ jn +:+ "/" +:+ name) ∈ uploads) /\
          (os_path.startswith_sep name = true ->
           FileInput.source fi' = S3Uploader_upload W (FileInput.source fi) name /\
           EvUpload (FileInput.source fi) name ∈ uploads).
Proof.
  intros Hjn Hbucket Hjob Hup Hall.
  destruct (normalize_inputs_loop_spec W jn ls 1 [] st Hjn Hall)
    as (st' & evs & Hrun & Htr & Hevs & Hobj).
  exists st', evs. split; [done|]. split; [done|]. split; [done|].
  intros l fi Hin Hl.
  destruct (Hobj l fi Hl) as (fi' & Hfi' & Hrest).
  destruct (first_index_elem_of _ _ Hin) as [i Hi]. rewrite Hi in Hrest.
  destruct Hrest as (Hname & Hev & Hfull). specialize (Hfull Hup).
  exists fi', (input_name_at (1 + i) fi). split; [done|]. split; [done|].
  split; [intros n Hn; unfold input_name_at; by rewrite Hn|].
  destruct (is_s3 W (FileInput.source fi)) eqn:Hs.
  - split; [by rewrite Hfull; unfold normalized_input; rewrite Hs|].
    intros d Hd. destruct (Hevs _ Hd) as (p & d' & [= <- <-] & Hp). congruence.
  - assert (Hsrc : FileInput.source fi' =
                   S3Uploader_upload W (FileInput.source fi)
                     (desired_input_uri W jn (input_name_at (1 + i) fi))).
    { by rewrite Hfull; unfold normalized_input; rewrite Hs. }
    specialize (Hev eq_refl).
    split; intros Hsep.
    + rewrite <- desired_input_uri_relative by done. by split.
    + rewrite desired_input_uri_absolute in Hsrc, Hev by done. by split.
Qed.

Lemma sample_uploader_remote (p d : string) :
  is_s3 sample_world (S3Uploader_upload sample_world p d) = true.
Proof.
  unfold is_s3. cbn [S3Uploader_upload urlparse_scheme sample_world].
  destruct (has_prefix "s3://" d) eqn:Hd; [by rewrite Hd | reflexivity].
Qed.

Lemma C4_normalize_inputs_sources_witness :
  _current_job_name (self two_inputs_state) = Some "job" /\
  plain (default_bucket sample_world) /\ plain "job" /\
  exists st' uploads,
    _normalize_inputs sample_world (Some [VRef 0; VRef 1]) two_inputs_state =
      (Ok [VRef 0; VRef 1], st') /\
    trace st' = uploads /\
    EvUpload "data.csv" "s3://bucket/job/input-1" ∈ uploads /\
    forall d, EvUpload "s3://bucket/prefix" d ∉ uploads.
Proof.
  assert (Hb : plain (default_bucket sample_world)) by (by repeat split).
  assert (Hj : plain "job") by (by repeat split).
  split; [reflexivity|]. split; [exact Hb|]. split; [exact Hj|].
  destruct (C4_normalize_inputs_sources sample_world [VRef 0; VRef 1] two_inputs_state "job"
              eq_refl Hb Hj sample_uploader_remote
              (sample_inputs_typed two_inputs_state [VRef 0; VRef 1] eq_refl))
    as (st' & uploads & Hrun & Htr & _ & Hobj).
  destruct (Hobj 0 local_unnamed_input) as (fi0 & n0 & Hfi0 & Hn0 & _ & Hup & _);
    [by left | reflexivity |].
  destruct (Hobj 1 remote_named_input) as (fi1 & n1 & _ & _ & _ & _ & Hno);
    [by right; left | reflexivity |].
  assert (Hname : n0 = "input-1").
  { pose proof (f_equal (fun p => heap (snd p) !! 0) Hrun) as Hh.
    cbn [snd] in Hh. rewrite Hfi0 in Hh. vm_compute in Hh.
    injection Hh as <-. cbn in Hn0. congruence. }
  subst n0.
  exists st', uploads. split; [exact Hrun|]. split; [exact Htr|].
  split; [exact (proj2 (Hup eq_refl)) | exact Hno].
Defined.

(** C4 as stated fails for an input whose name starts with ["/"]:
    [os.path.join] lets that name replace the bucket and the job name, so
    the upload of the local source is asked for the location ["/x"],
    which is not under ["s3://bucket/job/"]. *)
Lemma C4_as_stated_counterexample :
  ~ (forall st',
       _normalize_inputs sample_world (Some [VRef 0]) absolute_name_state =
         (Ok [VRef 0], st') ->
       exists d,
         EvUpload "data.csv" d ∈ trace st' /\
         has_prefix "s3://bucket/job/" d = true).
Proof.
  intros H.
  destruct (H (snd (_normalize_inputs sample_world (Some [VRef 0]) absolute_name_state)))
    as (d & Hin & Hd); [vm_compute; reflexivity|].
  vm_compute in Hin. apply list_elem_of_singleton in Hin. injection Hin as ->.
  vm_compute in Hd. discriminate.
Qed.

(** What the code does there: the upload is asked for ["/x"]. *)
Example absolute_input_name_location :
  exists st',
    _normalize_inputs sample_world (Some [VRef 0]) absolute_name_state =
      (Ok [VRef 0], st') /\
    trace st' = [EvUpload "data.csv" "/x"].
Proof. eexists. split; [vm_compute; reflexivity | reflexivity]. Qed.


(** ** Normalizing outputs *)

Lemma lookup_snoc (h : list pyobj) (o : pyobj) : (h ++ [o]) !! length h = Some o.
Proof. induction h as [|a h IH]; [done | exact IH]. Qed.

Lemma insert_snoc (h : list pyobj) (o o' : pyobj) : <[length h := o']> (h ++ [o]) = h ++ [o'].
Proof. induction h as [|a h IH]; [done|]. cbn. f_equal. exact IH. Qed.

(** A string is wrapped in a new [FileOutput], which is then named. *)
Lemma normalize_output_str (W : World) (c : nat) (x jn : string) (st : State) :
  _current_job_name (self st) = Some jn ->
  normalize_output W c (VStr x) st =
  (Ok (VRef (length (heap st))),
   {| self := self st;
      heap := heap st ++ [ObjFileOutput (wrapped_output W jn c x)];
      trace := trace st;
      clock := clock st |}).
Proof.
  intros Hjn. unfold normalize_output, os_path.join. mred. rewrite Hjn.
  cbn [os_path.all_str]. mred. rewrite lookup_snoc.
  cbn [FileOutput.init FileOutput.output_name]. mred.
  by rewrite insert_snoc.
Qed.

(** A [FileOutput] is named if it has no name. *)
Lemma normalize_output_ref (W : World) (c : nat) (l : loc) (fo : FileOutput.t) (st : State) :
  heap st !! l = Some (ObjFileOutput fo) ->
  normalize_output W c (VRef l) st =
  (Ok (VRef l),
   {| self := self st;
      heap := <[l := ObjFileOutput (named_output c fo)]> (heap st);
      trace := trace st;
      clock := clock st |}).
Proof.
  intros Hl. unfold normalize_output, named_output. mred. rewrite Hl.
  destruct (FileOutput.output_name fo) eqn:Hn; mred; [|done].
  by rewrite (list_insert_id _ _ _ Hl), state_eta.
Qed.

Lemma is_output_app (h h2 : list pyobj) (v : pyval) :
  is_output h v = true -> is_output (h ++ h2) v = true.
Proof.
  destruct v as [| |l]; try done. cbn [is_output].
  destruct (h !! l) as [o|] eqn:Hl; [|done].
  by rewrite (lookup_app_l_Some _ _ _ _ Hl).
Qed.

Lemma is_output_insert (h : list pyobj) (l : loc) (fo0 fo : FileOutput.t) (v : pyval) :
  h !! l = Some (ObjFileOutput fo0) ->
  is_output (<[l := ObjFileOutput fo]> h) v = is_output h v.
Proof.
  intros Hl. destruct v as [| |l']; try done. cbn [is_output].
  destruct (decide (l = l')) as [<-|Hne].
  - rewrite list_lookup_insert_eq by (by eapply lookup_lt_Some). by rewrite Hl.
  - by rewrite list_lookup_insert_ne.
Qed.

Lemma is_output_fresh (h : list pyobj) (ls : list pyval) :
  (forall v, v ∈ ls -> is_output h v = true) -> VRef (length h) ∉ ls.
Proof.
  intros Hall Hin. specialize (Hall _ Hin). cbn [is_output] in Hall.
  by rewrite (lookup_ge_None_2 h (length h)) in Hall.
Qed.

(** The loop of [_normalize_outputs] on strings and [FileOutput]s: it makes
    no call; it keeps a [FileOutput] where it was and puts a new, named
    wrapper where a string was; objects it was not given stay as they are. *)
Lemma normalize_outputs_loop_spec (W : World) (jn : string) (ls : list pyval) :
  forall (c : nat) (acc : list pyval) (st : State),
    _current_job_name (self st) = Some jn ->
    (forall v, v ∈ ls -> is_output (heap st) v = true) ->
    exists res st',
      normalize_outputs_loop W c ls acc st = (Ok (acc ++ res), st') /\
      length res = length ls /\
      trace st' = trace st /\
      self st' = self st /\
      length (heap st) <= length (heap st') /\
      (forall l, l < length (heap st) -> VRef l ∉ ls -> heap st' !! l = heap st !! l) /\
      (forall i l, ls !! i = Some (VRef l) -> res !! i = Some (VRef l)) /\
      (forall i x,
         ls !! i = Some (VStr x) ->
         exists l,
           res !! i = Some (VRef l) /\
           length (heap st) <= l /\
           heap st' !! l = Some (ObjFileOutput (wrapped_output W jn (c + i) x))).
Proof.
  induction ls as [|v ls IH]; intros c acc st Hjn Hall.
  - exists [], st. cbn [normalize_outputs_loop]. rewrite app_nil_r.
    repeat split; try done.
  - assert (Hv : is_output (heap st) v = true) by (apply Hall; left).
    cbn [normalize_outputs_loop].
    destruct v as [|x|lx]; [done| |].
    + rewrite (bind_ok _ _ _ _ _ (normalize_output_str W c x jn st Hjn)).
      set (o := ObjFileOutput (wrapped_output W jn c x)).
      set (st1 := {| self := self st; heap := heap st ++ [o];
                     trace := trace st; clock := clock st |}).
      assert (Hall1 : forall v, v ∈ ls -> is_output (heap st1) v = true).
      { intros v Hin. apply is_output_app, Hall. by right. }
      destruct (IH (S c) (acc ++ [VRef (length (heap st))]) st1 Hjn Hall1)
        as (res & st' & Hrun & Hlen & Htr & Hself & Hgrow & Hframe & Hrefs & Hstrs).
      cbn [st1 heap] in Hgrow, Hframe. rewrite length_app in Hgrow, Hframe.
      cbn [length] in Hgrow, Hframe.
      exists (VRef (length (heap st)) :: res), st'.
      split; [by rewrite Hrun, <- app_assoc|].
      split; [by cbn; rewrite Hlen|]. split; [done|]. split; [done|].
      split; [lia|]. split.
      { intros l Hl Hnotin. rewrite Hframe; [|lia|].
        - by apply lookup_app_l.
        - intros Hin. apply Hnotin. by right. }
      split.
      { intros [|i] l Hi; [done|]. by apply Hrefs. }
      intros [|i] y Hi.
      * injection Hi as ->. exists (length (heap st)). split; [done|]. split; [done|].
        rewrite Hframe; [|lia|].
        -- rewrite Nat.add_0_r. apply lookup_snoc.
        -- apply is_output_fresh. intros v Hin. apply Hall. by right.
      * destruct (Hstrs i y Hi) as (l & Hres & Hl & Hobj).
        cbn [st1 heap] in Hl. rewrite length_app in Hl. cbn [length] in Hl.
        exists l. split; [done|]. split; [lia|].
        by replace (c + S i) with (S c + i) by lia.
    + cbn [is_output] in Hv.
      destruct (heap st !! lx) as [[|fo|]|] eqn:Hlx; try done.
      rewrite (bind_ok _ _ _ _ _ (normalize_output_ref W c lx fo st Hlx)).
      set (st1 := {| self := self st;
                     heap := <[lx := ObjFileOutput (named_output c fo)]> (heap st);
                     trace := trace st; clock := clock st |}).
      assert (Hall1 : forall v, v ∈ ls -> is_output (heap st1) v = true).
      { intros v Hin. cbn [st1 heap]. rewrite (is_output_insert _ _ fo) by done.
        apply Hall. by right. }
      destruct (IH (S c) (acc ++ [VRef lx]) st1 Hjn Hall1)
        as (res & st' & Hrun & Hlen & Htr & Hself & Hgrow & Hframe & Hrefs & Hstrs).
      cbn [st1 heap] in Hgrow, Hframe. rewrite length_insert in Hgrow, Hframe.
      exists (VRef lx :: res), st'.
      split; [by rewrite Hrun, <- app_assoc|].
      split; [by cbn; rewrite Hlen|]. split; [done|]. split; [done|].
      split; [done|]. split.
      { intros l Hl Hnotin. rewrite Hframe; [|done|].
        - apply list_lookup_insert_ne. intros ->. apply Hnotin. by left.
        - intros Hin. apply Hnotin. by right. }
      split.
      { intros [|i] l Hi; [by injection Hi as -> | by apply Hrefs]. }
      intros [|i] y Hi; [done|].
      destruct (Hstrs i y Hi) as (l & Hres & Hl & Hobj).
      cbn [st1 heap] in Hl. rewrite length_insert in Hl.
      exists l. split; [done|]. split; [done|].
      by replace (c + S i) with (S c + i) by lia.
Qed.

(** C5. Under a job name, on a list of strings and [FileOutput]s,
    [_normalize_outputs] returns a list of the same length and makes no
    call (so no upload); a [FileOutput] stays at its position; and at the
    position [i] (1-based) of a string [x] stands a new [FileOutput] with
    source [x], destination [os.path.join("s3://", bucket, job-name,
    "output")] and name ["output-{i}"]. *)
Theorem C5_normalize_outputs_strings (W : World) (ls : list pyval) (st : State) (jn : string) :
  _current_job_name (self st) = Some jn ->
  (forall v, v ∈ ls -> is_output (heap st) v = true) ->
  exists res st',
    _normalize_outputs W (Some ls) st = (Ok res, st') /\
    length res = length ls /\
    trace st' = trace st /\
    (forall i l, ls !! i = Some (VRef l) -> res !! i = Some (VRef l)) /\
    (forall i x,
       ls !! i = Some (VStr x) ->
       exists l,
         res !! i = Some (VRef l) /\
         length (heap st) <= l /\
         heap st' !! l = Some (ObjFileOutput {|
           FileOutput.source := x;
           FileOutput.destination :=
             os_path.posix_join "s3://" [default_bucket W; jn; "output"];
           FileOutput.output_name := Some ("output-" +:+ str_of_nat (S i));
           FileOutput.kms_key_id := None;
           FileOutput.s3_upload_mode := S3UploadMode.CONTINUOUS |})).
Proof.
  intros Hjn Hall.
  destruct (normalize_outputs_loop_spec W jn ls 1 [] st Hjn Hall)
    as (res & st' & Hrun & Hlen & Htr & _ & _ & _ & Hrefs & Hstrs).
  exists res, st'. split; [done|]. split; [done|]. split; [done|]. split; [done|].
  intros i x Hi. destruct (Hstrs i x Hi) as (l & Hres & Hl & Hobj). eauto.
Qed.

Lemma sample_outputs_typed (st : State) (ls : list pyval) :
  forallb (is_output (heap st)) ls = true ->
  forall v, v ∈ ls -> is_output (heap st) v = true.
Proof.
  intros Hall v Hin. rewrite forallb_forall in Hall. apply Hall.
  by apply list_elem_of_In.
Qed.

Lemma C5_normalize_outputs_strings_witness :
  _current_job_name (self one_output_state) = Some "job" /\
  exists res st' l,
    _normalize_outputs sample_world (Some [VRef 0; VStr "/opt/ml/out"]) one_output_state =
      (Ok res, st') /\
    trace st' = [] /\
    res !! 0 = Some (VRef 0) /\
    res !! 1 = Some (VRef l) /\
    heap st' !! l = Some (ObjFileOutput {|
      FileOutput.source := "/opt/ml/out";
      FileOutput.destination := "s3://bucket/job/output";
      FileOutput.output_name := Some "output-2";
      FileOutput.kms_key_id := None;
      FileOutput.s3_upload_mode := S3UploadMode.CONTINUOUS |}).
Proof.
  split; [reflexivity|].
  destruct (C5_normalize_outputs_strings sample_world [VRef 0; VStr "/opt/ml/out"]
              one_output_state "job" eq_refl (sample_outputs_typed one_output_state [VRef 0; VStr "/opt/ml/out"] eq_refl))
    as (res & st' & Hrun & _ & Htr & Hrefs & Hstrs).
  destruct (Hstrs 1 "/opt/ml/out" eq_refl) as (l & Hres & _ & Hobj).
  exists res, st', l. split; [exact Hrun|]. split; [exact Htr|].
  split; [exact (Hrefs 0 0 eq_refl)|]. split; [exact Hres | exact Hobj].
Defined.

(** ** The job record *)

Lemma get_job_eq (j : loc) (job : ProcessingJob.t) (st : State) :
  heap st !! j = Some (ObjProcessingJob job) -> get_job j st = (Ok job, st).
Proof. intros Hj. unfold get_job. mred. by rewrite Hj. Qed.

(** C8. The record [start_new] creates carries the job name the request
    was submitted under, and on that record [wait] (with or without logs),
    [describe] and [stop] each call the session with that job name;
    [describe] changes neither the store nor the processor. *)
Theorem C8_job_operations_use_job_name (W : World) (inputs outputs : list pyval)
  (st st1 : State) (j : loc) :
  start_new W inputs outputs st = (Ok j, st1) ->
  exists job ins outs,
    heap st1 !! j = Some (ObjProcessingJob job) /\
    ProcessingJob.job_name job = _current_job_name (self st) /\
    trace st1 = trace st ++ submission_events (self st) ins outs /\
    process_request_args (self st) ins outs !! "job_name" =
      Some (opt_str (ProcessingJob.job_name job)) /\
    forall st2,
      heap st2 !! j = Some (ObjProcessingJob job) ->
      wait j true st2 =
        (Ok tt, add_event (EvLogsForProcessingJob (ProcessingJob.job_name job)) st2) /\
      wait j false st2 =
        (Ok tt, add_event (EvWaitForProcessingJob (ProcessingJob.job_name job)) st2) /\
      stop j st2 =
        (Ok tt, add_event (EvStopProcessingJob (ProcessingJob.job_name job)) st2) /\
      forall print_response,
        exists st3,
          describe W j print_response st2 =
            (Ok (describe_analytics_job W (ProcessingJob.job_name job)), st3) /\
          heap st3 = heap st2 /\
          self st3 = self st2 /\
          trace st3 =
            trace st2 ++
            EvDescribeAnalyticsJob (ProcessingJob.job_name job) ::
            (if print_response
             then [EvPrint [describe_analytics_job W (ProcessingJob.job_name job)]]
             else []).
Proof.
  rewrite start_new_eq.
  destruct (mapR (serialize W (heap st)) inputs) as [ins|] eqn:Hins; [|done].
  destruct (mapR (serialize W (heap st)) outputs) as [outs|] eqn:Houts; [|done].
  intros [= <- <-]. eexists _, ins, outs. cbn [heap trace].
  split; [apply lookup_snoc|]. split; [done|]. split; [done|].
  split; [by unfold process_request_args; simplify_map_eq|].
  intros st2 Hj. cbn [ProcessingJob.job_name].
  unfold wait, stop.
  rewrite !(bind_ok _ _ _ _ _ (get_job_eq _ _ _ Hj)).
  split; [done|]. split; [done|]. split; [done|].
  intros print_response. unfold describe.
  rewrite (bind_ok _ _ _ _ _ (get_job_eq _ _ _ Hj)).
  destruct print_response; mred; eexists; (split; [reflexivity|]); cbn [heap self trace];
    by rewrite <- ?app_assoc.
Qed.

Lemma C8_job_operations_use_job_name_witness :
  exists st1,
    start_new sample_world [VRef 0] [VRef 1] submission_state = (Ok 2, st1) /\
    wait 2 true st1 = (Ok tt, add_event (EvLogsForProcessingJob (Some "job")) st1) /\
    stop 2 st1 = (Ok tt, add_event (EvStopProcessingJob (Some "job")) st1).
Proof.
  destruct (start_new sample_world [VRef 0] [VRef 1] submission_state) as [res st1] eqn:Hrun.
  assert (Hres : res = Ok 2).
  { apply (f_equal fst) in Hrun. vm_compute in Hrun. congruence. }
  subst res. exists st1. split; [reflexivity|].
  destruct (C8_job_operations_use_job_name sample_world [VRef 0] [VRef 1] submission_state
              st1 2 Hrun) as (job & ins & outs & Hjob & Hname & _ & _ & Hops).
  destruct (Hops st1 Hjob) as (Hwait & _ & Hstop & _).
  rewrite Hname in Hwait, Hstop. split; [exact Hwait | exact Hstop].
Defined.

(** ** Script mode: the run *)

Lemma generate_current_job_name_eq (W : World) (job_name : option string) (st : State) :
  _generate_current_job_name W job_name st =
  (Ok (job_name_for W (self st) (clock st) job_name),
   match job_name with
   | Some _ => st
   | None => advance_clock st
   end).
Proof. by destruct job_name. Qed.

(** Whatever the source, a script-mode run with [inputs=None] raises and
    submits nothing. *)
Lemma script_run_without_inputs_never_submits (W : World) (source : string)
  (script_name : option string) (outputs : option (list pyval)) (wait_ logs : bool)
  (job_name : option string) (st : State) :
  exists e st' evs,
    ScriptModeProcessor_run W source script_name None outputs wait_ logs job_name st =
      (Raise e, st') /\
    trace st' = trace st ++ evs /\
    forall ev, ev ∈ evs -> is_submission ev = false.
Proof.
  unfold ScriptModeProcessor_run.
  rewrite (bind_ok _ _ _ _ _ (generate_current_job_name_eq W job_name st)).
  unfold _upload_source, _convert_source_and_add_to_inputs, os_path.join. mred.
  destruct (_get_customer_script_name W source script_name) as [n|e].
  - destruct job_name; mred; cbn [with_current_job_name _current_job_name os_path.all_str];
      mred; eexists _, _, [_]; (split; [reflexivity|]); (split; [reflexivity|]);
      by intros ev ->%list_elem_of_singleton.
  - exists e. eexists _, []. split; [reflexivity|].
    split; [by destruct job_name; cbn; rewrite app_nil_r|]. by intros ev ?%elem_of_nil.
Qed.

(** C10, as the code has it.  When the script's name resolves,
    [ScriptModeProcessor.run] with [inputs=None] uploads the source and then
    fails with an [AttributeError] on the append: the upload is the only
    call it has made, so nothing is normalized and nothing is submitted. *)
Theorem C10_script_run_without_inputs (W : World) (source : string)
  (script_name : option string) (outputs : option (list pyval)) (wait_ logs : bool)
  (job_name : option string) (st : State) (customer_script_name : string) :
  _get_customer_script_name W source script_name = Ok customer_script_name ->
  exists st',
    ScriptModeProcessor_run W source script_name None outputs wait_ logs job_name st =
      (Raise AttributeError, st') /\
    trace st' =
      trace st ++
      [EvUpload source
         (os_path.posix_join "s3://"
            [default_bucket W; job_name_for W (self st) (clock st) job_name;
             CODE_CONTAINER_INPUT_NAME])].
Proof.
  intros Hname. unfold ScriptModeProcessor_run.
  rewrite (bind_ok _ _ _ _ _ (generate_current_job_name_eq W job_name st)).
  unfold _upload_source, _convert_source_and_add_to_inputs, os_path.join.
  mred. rewrite Hname.
  destruct job_name; mred; cbn [with_current_job_name _current_job_name os_path.all_str];
    mred; eexists; split; reflexivity.
Qed.

Lemma C10_script_run_without_inputs_witness :
  _get_customer_script_name sample_world "script.sh" None = Ok "script.sh" /\
  exists st',
    ScriptModeProcessor_run sample_world "script.sh" None None None true true (Some "job")
      (initial_state sample_processor []) = (Raise AttributeError, st') /\
    trace st' = [EvUpload "script.sh" "s3://bucket/job/source"].
Proof.
  split; [reflexivity|].
  exact (C10_script_run_without_inputs sample_world "script.sh" None None true true
           (Some "job") (initial_state sample_processor []) "script.sh" eq_refl).
Defined.

(** C10 as stated fails: when the source does not exist the run with
    [inputs=None] stops earlier, with a [ValueError], and has uploaded
    nothing. *)
Lemma C10_as_stated_counterexample :
  ~ (exists st' d,
       ScriptModeProcessor_run sample_world "missing.py" None None None true true None
         (initial_state sample_processor []) = (Raise AttributeError, st') /\
       EvUpload "missing.py" d ∈ trace st').
Proof.
  intros (st' & d & Hrun & _). vm_compute in Hrun. discriminate.
Qed.

Example missing_source_stops_before_upload :
  exists st',
    ScriptModeProcessor_run sample_world "missing.py" None None None true true None
      (initial_state sample_processor []) = (Raise ValueError, st') /\
    trace st' = [].
Proof. eexists. split; [vm_compute; reflexivity | reflexivity]. Qed.

(** ** The job name of a run *)

Lemma quiet_ret {A : Type} (a : A) : quiet (ret a).
Proof.
  intros st r st' [= <- <-]. split; [done|]. split; [done|].
  exists []. split; [by rewrite app_nil_r | by intros e ?%elem_of_nil].
Qed.

Lemma quiet_raise {A : Type} (e : exn) : quiet (raise (A := A) e).
Proof.
  intros st r st' [= <- <-]. split; [done|]. split; [done|].
  exists []. split; [by rewrite app_nil_r | by intros e' ?%elem_of_nil].
Qed.

Lemma quiet_lift {A : Type} (r : result A) : quiet (lift r).
Proof.
  intros st r' st' [= <- <-]. split; [done|]. split; [done|].
  exists []. split; [by rewrite app_nil_r | by intros e' ?%elem_of_nil].
Qed.

Lemma quiet_heap (f : list pyobj -> list pyobj) :
  quiet (modify (fun st => set_heap (f (heap st)) st)).
Proof.
  intros st r st' [= <- <-]. split; [done|]. split; [done|].
  exists []. split; [by cbn; rewrite app_nil_r | by intros e' ?%elem_of_nil].
Qed.

Lemma quiet_alloc (o : pyobj) : quiet (alloc o).
Proof.
  intros st r st' [= <- <-]. split; [done|]. split; [done|].
  exists []. split; [by cbn; rewrite app_nil_r | by intros e' ?%elem_of_nil].
Qed.

Lemma quiet_emit (e : event) : is_submission e = false -> quiet (emit e).
Proof.
  intros He st r st' [= <- <-]. split; [done|]. split; [done|].
  exists [e]. split; [done | by intros e' ->%list_elem_of_singleton].
Qed.

Lemma quiet_bind {A B : Type} (m : M A) (k : A -> M B) :
  quiet m -> (forall a, quiet (k a)) -> quiet (bind m k).
Proof.
  intros Hm Hk st r st'. unfold bind.
  destruct (m st) as [[a|e] st1] eqn:Hrun.
  - intros Hrun2.
    destruct (Hm _ _ _ Hrun) as (Hs1 & Hc1 & evs1 & Ht1 & He1).
    destruct (Hk a _ _ _ Hrun2) as (Hs2 & Hc2 & evs2 & Ht2 & He2).
    split; [congruence|]. split; [congruence|].
    exists (evs1 ++ evs2). split; [by rewrite Ht2, Ht1, app_assoc|].
    intros e [?|?]%elem_of_app; auto.
  - intros [= <- <-]. exact (Hm _ _ _ Hrun).
Qed.

Lemma quiet_get {A : Type} (k : State -> M A) : (forall s, quiet (k s)) -> quiet (bind get k).
Proof. intros Hk st r st'. unfold bind, get. apply Hk. Qed.

Ltac quiet_step :=
  lazymatch goal with
  | |- quiet (ret _) => apply quiet_ret
  | |- quiet (raise _) => apply quiet_raise
  | |- quiet (lift _) => apply quiet_lift
  | |- quiet (alloc _) => apply quiet_alloc
  | |- quiet (modify _) => apply quiet_heap
  | |- quiet (emit _) => apply quiet_emit; reflexivity
  | |- quiet (bind get _) => apply quiet_get; intros ?
  | |- quiet (bind _ _) => apply quiet_bind; [|intros ?]
  | |- quiet (match ?x with _ => _ end) => destruct x; cbv beta iota
  end.

Lemma quiet_normalize_input (W : World) (c : nat) (v : pyval) : quiet (normalize_input W c v).
Proof. unfold normalize_input, store. repeat quiet_step. Qed.

Lemma quiet_normalize_inputs (W : World) (inputs : option (list pyval)) :
  quiet (_normalize_inputs W inputs).
Proof.
  destruct inputs as [ls|]; [|apply quiet_ret]. cbn [_normalize_inputs].
  generalize 1 (@nil pyval). induction ls as [|v ls IH]; intros c acc; cbn [normalize_inputs_loop].
  - apply quiet_ret.
  - apply quiet_bind; [apply quiet_normalize_input | intros _; apply IH].
Qed.

Lemma quiet_normalize_output (W : World) (c : nat) (v : pyval) : quiet (normalize_output W c v).
Proof. unfold normalize_output, store. repeat quiet_step. Qed.

Lemma quiet_normalize_outputs (W : World) (outputs : option (list pyval)) :
  quiet (_normalize_outputs W outputs).
Proof.
  destruct outputs as [ls|]; [|apply quiet_ret]. cbn [_normalize_outputs].
  generalize 1 (@nil pyval). induction ls as [|v ls IH]; intros c acc; cbn [normalize_outputs_loop].
  - apply quiet_ret.
  - apply quiet_bind; [apply quiet_normalize_output | intros o; apply IH].
Qed.

Lemma quiet_wait (j : loc) (logs : bool) : quiet (wait j logs).
Proof. unfold wait, get_job. repeat quiet_step. Qed.

(** A [Processor.run] that returns has submitted exactly once, under the
    name [_generate_current_job_name] gave it at the start of the run. *)
Lemma Processor_run_submission (W : World) (inputs outputs : option (list pyval))
  (wait_ logs : bool) (job_name : option string) (st st' : State) :
  Processor_run W inputs outputs wait_ logs job_name st = (Ok tt, st') ->
  exists before p ins outs after,
    trace st' = trace st ++ before ++ submission_events p ins outs ++ after /\
    _current_job_name p = Some (job_name_for W (self st) (clock st) job_name) /\
    (forall e, e ∈ before -> is_submission e = false) /\
    (forall e, e ∈ after -> is_submission e = false).
Proof.
  unfold Processor_run.
  rewrite (bind_ok _ _ _ _ _ (generate_current_job_name_eq W job_name st)).
  set (n := job_name_for W (self st) (clock st) job_name).
  set (st0 := match job_name with Some _ => st | None => advance_clock st end).
  assert (Htr0 : trace st0 = trace st) by (by destruct job_name).
  unfold bind at 1. unfold modify at 1.
  set (st1 := set_self (with_current_job_name (Some n) (self st0)) st0).
  unfold bind at 1.
  destruct (_normalize_inputs W inputs st1) as [[nin|e] st2] eqn:Hin; [|done].
  destruct (quiet_normalize_inputs W inputs _ _ _ Hin) as (Hs2 & _ & evs2 & Ht2 & He2).
  unfold bind at 1.
  destruct (_normalize_outputs W outputs st2) as [[nout|e] st3] eqn:Hout; [|done].
  destruct (quiet_normalize_outputs W outputs _ _ _ Hout) as (Hs3 & _ & evs3 & Ht3 & He3).
  unfold bind at 1. rewrite start_new_eq.
  destruct (mapR (serialize W (heap st3)) nin) as [ins|]; [|done].
  destruct (mapR (serialize W (heap st3)) nout) as [outs|]; [|done].
  unfold bind at 1. unfold modify at 1.
  match goal with |- context [set_self ?p ?s] => set (st5 := set_self p s) end.
  assert (Ht5 : trace st5 = ((trace st ++ evs2) ++ evs3) ++ submission_events (self st3) ins outs).
  { cbn [st5 set_self trace]. by rewrite Ht3, Ht2, <- Htr0. }
  assert (Hname : _current_job_name (self st3) = Some n).
  { by rewrite Hs3, Hs2. }
  intros Hrun.
  assert (exists after, trace st' = trace st5 ++ after /\
                        forall e, e ∈ after -> is_submission e = false)
    as (after & Ht' & He').
  { destruct wait_.
    - destruct (quiet_wait _ _ _ _ _ Hrun) as (_ & _ & evs & ? & ?). eauto.
    - injection Hrun as <-. exists []. split; [by rewrite app_nil_r | by intros e ?%elem_of_nil]. }
  exists (evs2 ++ evs3), (self st3), ins, outs, after.
  split; [by rewrite Ht', Ht5, <- !app_assoc|].
  split; [done|]. split; [|done].
  intros e [?|?]%elem_of_app; auto.
Qed.

(** A script-mode run that returns has uploaded the source under the name
    generated first, and has submitted under the name generated by the
    [Processor.run] it ends with.  With [job_name] given the two are that
    name; without it, the second is stamped one clock reading later. *)
Lemma script_run_job_names (W : World) (source : string) (script_name : option string)
  (inputs outputs : option (list pyval)) (wait_ logs : bool) (job_name : option string)
  (st st' : State) :
  ScriptModeProcessor_run W source script_name inputs outputs wait_ logs job_name st =
    (Ok tt, st') ->
  exists before p ins outs after,
    trace st' =
      trace st ++
      EvUpload source
        (os_path.posix_join "s3://"
           [default_bucket W; job_name_for W (self st) (clock st) job_name;
            CODE_CONTAINER_INPUT_NAME]) ::
      before ++ submission_events p ins outs ++ after /\
    _current_job_name p =
      Some (job_name_for W (self st)
              (match job_name with Some _ => clock st | None => S (clock st) end) job_name) /\
    (forall e, e ∈ before -> is_submission e = false) /\
    (forall e, e ∈ after -> is_submission e = false).
Proof.
  unfold ScriptModeProcessor_run.
  rewrite (bind_ok _ _ _ _ _ (generate_current_job_name_eq W job_name st)).
  set (n := job_name_for W (self st) (clock st) job_name).
  set (st0 := match job_name with Some _ => st | None => advance_clock st end).
  unfold bind at 1. unfold modify at 1.
  unfold bind at 1. unfold lift at 1.
  destruct (_get_customer_script_name W source script_name) as [csn|]; [|done].
  destruct inputs as [input_list|].
  2: { unfold _upload_source, _convert_source_and_add_to_inputs, os_path.join. mred.
       cbn [with_current_job_name _current_job_name os_path.all_str]. by mred. }
  unfold _upload_source, _convert_source_and_add_to_inputs, os_path.join. mred.
  cbn [with_current_job_name _current_job_name os_path.all_str]. mred.
  rewrite set_entrypoint_eq. cbn [self].
  destruct (_get_execution_program _ csn) as [prog|]; [|done].
  intros Hrun.
  destruct (Processor_run_submission _ _ _ _ _ _ _ _ Hrun)
    as (before & p & ins & outs & after & Htr & Hname & Hb & Ha).
  exists before, p, ins, outs, after.
  split.
  { rewrite Htr. cbn [set_self trace]. rewrite <- app_assoc.
    by destruct job_name. }
  split; [|done].
  rewrite Hname. cbn [set_self self clock]. by destruct job_name.
Qed.

(** C9 at the failing input.  A script-mode run without [job_name]: the
    source goes to the namespace of the name generated first
    (["image-0"]), and the job is submitted under the name generated next
    (["image-1"]). *)
Theorem C9_source_upload_namespace :
  exists st' kwargs,
    ScriptModeProcessor_run sample_world "script.sh" None (Some []) None false false None
      (initial_state sample_processor []) = (Ok tt, st') /\
    trace st' !! 0 = Some (EvUpload "script.sh" "s3://bucket/image-0/source") /\
    last (trace st') = Some (EvProcess kwargs) /\
    kwargs !! "job_name" = Some (JStr "image-1").
Proof.
  eexists _, _. split; [vm_compute; reflexivity|].
  split; [vm_compute; reflexivity|].
  split; [vm_compute; reflexivity|].
  vm_compute; reflexivity.
Qed.

(** * Further results *)

(** ** Submission: when it happens and what it leaves *)

Lemma mapR_Ok {A B : Type} (f : A -> result B) (l : list A) :
  (forall x, x ∈ l -> exists y, f x = Ok y) ->
  exists ys, mapR f l = Ok ys /\ length ys = length l.
Proof.
  induction l as [|a l IH]; intros Hall; [by exists []|].
  destruct (Hall a) as [y Hy]; [by left|].
  destruct IH as (ys & Hys & Hlen); [intros x Hx; apply Hall; by right|].
  exists (y :: ys). cbn. rewrite Hy, Hys. split; [done | by rewrite Hlen].
Qed.

Lemma mapR_Raise {A B : Type} (f : A -> result B) (l : list A) (e : exn) :
  (forall x, x ∈ l -> (exists y, f x = Ok y) \/ f x = Raise e) ->
  (exists x, x ∈ l /\ f x = Raise e) ->
  mapR f l = Raise e.
Proof.
  induction l as [|a l IH]; intros Hall (x & Hx & Hbad); [by apply elem_of_nil in Hx|].
  cbn. destruct (Hall a) as [[y Hy]| ->]; [by left| |done].
  rewrite Hy. rewrite IH; [done| |].
  - intros z Hz. apply Hall. by right.
  - apply elem_of_cons in Hx as [->|Hx]; [congruence | eauto].
Qed.

Lemma serialize_input (W : World) (h : list pyobj) (v : pyval) :
  is_FileInput h v = true ->
  if is_valid_input h v then exists d, serialize W h v = Ok (JDict d)
  else serialize W h v = Raise ValueError.
Proof.
  destruct v as [| |l]; try done. cbn [is_FileInput is_valid_input serialize].
  destruct (h !! l) as [[fi| |]|]; try done. intros _.
  unfold input_valid, FileInput.to_request_dict.
  destruct (_ && _); cbn [negb]; eauto.
Qed.

Lemma serialize_output (W : World) (h : list pyobj) (v : pyval) :
  is_FileOutput h v = true -> exists d, serialize W h v = Ok (JDict d).
Proof.
  destruct v as [| |l]; try done. cbn [is_FileOutput serialize].
  destruct (h !! l) as [[|fo|]|]; try done. eauto.
Qed.

(** X1. [start_new] checks its inputs before it prints or submits: when
    the inputs are all [FileInput]s and one of them asks for gzip outside
    Pipe mode, it raises the [ValueError] in the state it was called in,
    with nothing printed, nothing submitted and no record made, whatever
    the outputs are. *)
Theorem start_new_rejects_before_printing (W : World) (inputs outputs : list pyval)
  (st : State) :
  (forall v, v ∈ inputs -> is_FileInput (heap st) v = true) ->
  (exists v, v ∈ inputs /\ is_valid_input (heap st) v = false) ->
  start_new W inputs outputs st = (Raise ValueError, st).
Proof.
  rewrite start_new_eq. intros Hall (v & Hv & Hbad).
  rewrite (mapR_Raise (serialize W (heap st)) inputs ValueError); [done| |].
  - intros x Hx. pose proof (serialize_input W (heap st) x (Hall x Hx)) as Hs.
    destruct (is_valid_input (heap st) x); [left | by right].
    destruct Hs as [d Hd]. eauto.
  - exists v. split; [done|].
    pose proof (serialize_input W (heap st) v (Hall v Hv)) as Hs. by rewrite Hbad in Hs.
Qed.

Lemma start_new_rejects_before_printing_witness :
  (forall v, v ∈ [VRef 0] -> is_FileInput (heap gzip_file_state) v = true) /\
  (exists v, v ∈ [VRef 0] /\ is_valid_input (heap gzip_file_state) v = false) /\
  start_new sample_world [VRef 0] [VNone] gzip_file_state = (Raise ValueError, gzip_file_state).
Proof.
  assert (H1 : forall v, v ∈ [VRef 0] -> is_FileInput (heap gzip_file_state) v = true).
  { by intros v ->%list_elem_of_singleton. }
  assert (H2 : exists v, v ∈ [VRef 0] /\ is_valid_input (heap gzip_file_state) v = false).
  { exists (VRef 0). split; [by left | reflexivity]. }
  split; [exact H1|]. split; [exact H2|].
  exact (start_new_rejects_before_printing sample_world [VRef 0] [VNone] gzip_file_state H1 H2).
Defined.

(** X2. On inputs that are [FileInput]s passing the check and outputs that
    are [FileOutput]s, [start_new] returns: it serializes every descriptor,
    prints three lines, submits once, and the record it creates is a new
    object holding the job name and the very lists it was given. *)
Theorem start_new_returns (W : World) (inputs outputs : list pyval) (st : State) :
  (forall v, v ∈ inputs -> is_valid_input (heap st) v = true) ->
  (forall v, v ∈ outputs -> is_FileOutput (heap st) v = true) ->
  exists ins outs st',
    start_new W inputs outputs st = (Ok (length (heap st)), st') /\
    length ins = length inputs /\
    length outs = length outputs /\
    trace st' = trace st ++ submission_events (self st) ins outs /\
    self st' = self st /\
    heap st' =
      heap st ++ [ObjProcessingJob {|
        ProcessingJob.job_name := _current_job_name (self st);
        ProcessingJob.inputs := inputs;
        ProcessingJob.outputs := outputs |}].
Proof.
  intros Hin Hout. rewrite start_new_eq.
  destruct (mapR_Ok (serialize W (heap st)) inputs) as (ins & -> & Hlen1).
  { intros v Hv. specialize (Hin v Hv).
    assert (Hfi : is_FileInput (heap st) v = true).
    { destruct v as [| |l]; try done. cbn in *. by destruct (heap st !! l) as [[]|]. }
    pose proof (serialize_input W (heap st) v Hfi) as Hs. rewrite Hin in Hs.
    destruct Hs as [d Hd]. eauto. }
  destruct (mapR_Ok (serialize W (heap st)) outputs) as (outs & -> & Hlen2).
  { intros v Hv. destruct (serialize_output W (heap st) v (Hout v Hv)) as [d Hd]. eauto. }
  eexists ins, outs, _. split; [reflexivity|]. by repeat split.
Qed.

Lemma start_new_returns_witness :
  (forall v, v ∈ [VRef 0] -> is_valid_input (heap submission_state) v = true) /\
  (forall v, v ∈ [VRef 1] -> is_FileOutput (heap submission_state) v = true) /\
  exists st', start_new sample_world [VRef 0] [VRef 1] submission_state = (Ok 2, st').
Proof.
  assert (H1 : forall v, v ∈ [VRef 0] -> is_valid_input (heap submission_state) v = true).
  { by intros v ->%list_elem_of_singleton. }
  assert (H2 : forall v, v ∈ [VRef 1] -> is_FileOutput (heap submission_state) v = true).
  { by intros v ->%list_elem_of_singleton. }
  split; [exact H1|]. split; [exact H2|].
  destruct (start_new_returns sample_world [VRef 0] [VRef 1] submission_state H1 H2)
    as (ins & outs & st' & Hrun & _). exists st'. exact Hrun.
Defined.

(** ** What normalization keeps *)

Lemma input_le_refl (W : World) (fi : FileInput.t) : input_le W fi fi.
Proof. by repeat split. Qed.

Lemma output_le_refl (fo : FileOutput.t) : output_le fo fo.
Proof. by repeat split. Qed.

Lemma obj_le_refl (W : World) (o : pyobj) : obj_le W o o.
Proof. destruct o; cbn; [apply input_le_refl | apply output_le_refl | done]. Qed.

Lemma input_le_trans (W : World) (a b c : FileInput.t) :
  input_le W a b -> input_le W b c -> input_le W a c.
Proof.
  intros (H1 & H2 & H3 & H4 & H5 & H6 & H7 & H8) (K1 & K2 & K3 & K4 & K5 & K6 & K7 & K8).
  repeat split; try congruence.
  - intros n Hn. by apply K7, H7.
  - intros Hs. rewrite K8; [by apply H8 | by rewrite H8].
Qed.

Lemma output_le_trans (a b c : FileOutput.t) : output_le a b -> output_le b c -> output_le a c.
Proof.
  intros (H1 & H2 & H3 & H4 & H5) (K1 & K2 & K3 & K4 & K5).
  repeat split; try congruence. intros n Hn. by apply K5, H5.
Qed.

Lemma obj_le_trans (W : World) (a b c : pyobj) : obj_le W a b -> obj_le W b c -> obj_le W a c.
Proof.
  destruct a, b, c; cbn; try done.
  - apply input_le_trans.
  - apply output_le_trans.
  - congruence.
Qed.

Lemma heap_le_refl (W : World) (h : list pyobj) : heap_le W h h.
Proof. intros l o Hl. exists o. split; [done | apply obj_le_refl]. Qed.

Lemma heap_le_trans (W : World) (h1 h2 h3 : list pyobj) :
  heap_le W h1 h2 -> heap_le W h2 h3 -> heap_le W h1 h3.
Proof.
  intros H12 H23 l o Hl. destruct (H12 l o Hl) as (o2 & Hl2 & Hle2).
  destruct (H23 l o2 Hl2) as (o3 & Hl3 & Hle3). exists o3. split; [done|].
  by eapply obj_le_trans.
Qed.

Lemma heap_le_insert (W : World) (h : list pyobj) (l : loc) (o o' : pyobj) :
  h !! l = Some o -> obj_le W o o' -> heap_le W h (<[l := o']> h).
Proof.
  intros Hl Hle l' o1 Hl'. destruct (decide (l = l')) as [<-|Hne].
  - exists o'. rewrite list_lookup_insert_eq by (by eapply lookup_lt_Some).
    split; [done|]. congruence.
  - exists o1. rewrite list_lookup_insert_ne by done. split; [done | apply obj_le_refl].
Qed.

Lemma heap_le_app (W : World) (h h2 : list pyobj) : heap_le W h (h ++ h2).
Proof.
  intros l o Hl. exists o. split; [by apply lookup_app_l_Some | apply obj_le_refl].
Qed.

Lemma heap_le_length (W : World) (h h' : list pyobj) : heap_le W h h' -> length h <= length h'.
Proof.
  intros Hle. destruct (decide (length h <= length h')) as [|Hgt]; [done|].
  destruct (lookup_lt_is_Some_2 h (length h')) as [o Ho]; [lia|].
  destruct (Hle _ _ Ho) as (o' & Ho' & _). apply lookup_lt_Some in Ho'. lia.
Qed.

(** One turn of the loop either leaves the store alone or replaces one
    [FileInput] by a version of itself. *)
Lemma normalize_input_shape (W : World) (c : nat) (v : pyval) (st st' : State)
  (r : result unit) :
  normalize_input W c v st = (r, st') ->
  heap st' = heap st \/
  exists l fi fi',
    heap st !! l = Some (ObjFileInput fi) /\
    heap st' = <[l := ObjFileInput fi']> (heap st) /\
    input_le W fi fi'.
Proof.
  unfold normalize_input, os_path.join. mred.
  destruct v as [| |l]; try (intros [= _ <-]; by left).
  destruct (heap st !! l) as [[fi| |]|] eqn:Hl; try (intros [= _ <-]; by left).
  cbn [FileInput.source FileInput.set_input_name FileInput.input_name].
  destruct (FileInput.input_name fi) as [n|] eqn:Hn;
    destruct (is_s3 W (FileInput.source fi)) eqn:Hs;
    destruct (_current_job_name (self st)) as [jn|];
    cbn [negb os_path.all_str]; mred; intros [= _ <-]; cbn [heap];
    rewrite ?list_insert_insert_eq;
    try (by left);
    right; eexists l, fi, _; (split; [exact Hl|]); (split; [reflexivity|]);
    unfold input_le, input_name_at; cbn; rewrite ?Hn, ?Hs; by repeat split.
Qed.

Lemma keeps_normalize_input (W : World) (c : nat) (v : pyval) : keeps W (normalize_input W c v).
Proof.
  intros st r st' Hstep.
  destruct (normalize_input_shape W c v st st' r Hstep)
    as [->|(l & fi & fi' & Hl & -> & Hle)]; [apply heap_le_refl|].
  by eapply heap_le_insert.
Qed.

Lemma normalize_input_length (W : World) (c : nat) (v : pyval) (st st' : State)
  (r : result unit) :
  normalize_input W c v st = (r, st') -> length (heap st') = length (heap st).
Proof.
  intros Hstep.
  destruct (normalize_input_shape W c v st st' r Hstep)
    as [->|(l & fi & fi' & Hl & -> & Hle)]; [done | apply length_insert].
Qed.

Lemma normalize_input_FileOutput (W : World) (c : nat) (v : pyval) (st st' : State)
  (r : result unit) (l : loc) (fo : FileOutput.t) :
  normalize_input W c v st = (r, st') ->
  heap st !! l = Some (ObjFileOutput fo) -> heap st' !! l = Some (ObjFileOutput fo).
Proof.
  intros Hstep Hl.
  destruct (normalize_input_shape W c v st st' r Hstep)
    as [->|(l0 & fi & fi' & Hl0 & -> & Hle)]; [done|].
  rewrite list_lookup_insert_ne; [done | congruence].
Qed.

(** What holds of the store after every turn holds after the loop. *)
Lemma normalize_inputs_loop_ind (W : World) (P : State -> State -> Prop) :
  (forall st, P st st) ->
  (forall st1 st2 st3, P st1 st2 -> P st2 st3 -> P st1 st3) ->
  (forall c v st r st', normalize_input W c v st = (r, st') -> P st st') ->
  forall ls c acc st r st',
    normalize_inputs_loop W c ls acc st = (r, st') -> P st st'.
Proof.
  intros Hrefl Htrans Hstep.
  induction ls as [|v ls IH]; intros c acc st r st'; cbn [normalize_inputs_loop].
  - intros [= _ <-]. apply Hrefl.
  - unfold bind. destruct (normalize_input W c v st) as [[[]|e] st1] eqn:Hv.
    + intros Hrest. eapply Htrans; [by eapply Hstep | by eapply IH].
    + intros [= _ <-]. by eapply Hstep.
Qed.

Lemma normalize_inputs_loop_returns_list (W : World) (ls : list pyval) :
  forall c acc st res st',
    normalize_inputs_loop W c ls acc st = (Ok res, st') -> res = acc ++ ls.
Proof.
  induction ls as [|v ls IH]; intros c acc st res st'; cbn [normalize_inputs_loop].
  - intros [= <- _]. by rewrite app_nil_r.
  - unfold bind. destruct (normalize_input W c v st) as [[[]|e] st1]; [|done].
    intros Hrest. rewrite (IH _ _ _ _ _ Hrest). by rewrite <- app_assoc.
Qed.

(** X3. Whether it returns or raises, [_normalize_inputs] creates no
    object and removes none, and every object keeps its class; of a
    [FileInput] it keeps the destination, the data type, the three modes
    and the compression type, a name that was set, and a source that was
    already remote; [FileOutput]s and job records are left as they are.
    When it returns, it returns the list it was given. *)
Theorem normalize_inputs_keeps (W : World) (inputs : option (list pyval)) (st st' : State)
  (r : result (list pyval)) :
  _normalize_inputs W inputs st = (r, st') ->
  length (heap st') = length (heap st) /\
  heap_le W (heap st) (heap st') /\
  (forall l fo, heap st !! l = Some (ObjFileOutput fo) ->
                heap st' !! l = Some (ObjFileOutput fo)) /\
  (forall res, r = Ok res -> res = default [] inputs).
Proof.
  intros Hrun. destruct inputs as [ls|].
  2: { injection Hrun as <- <-. repeat split; try done.
       - apply heap_le_refl.
       - by intros res [= <-]. }
  cbn [_normalize_inputs default] in *. split; [|split; [|split]].
  - revert Hrun.
    apply (normalize_inputs_loop_ind W (fun a b => length (heap b) = length (heap a)));
      [done | congruence | intros; by eapply normalize_input_length].
  - revert Hrun.
    apply (normalize_inputs_loop_ind W (fun a b => heap_le W (heap a) (heap b)));
      [intros; apply heap_le_refl | intros ???; apply heap_le_trans
      | intros; by eapply keeps_normalize_input].
  - intros l fo. revert Hrun.
    apply (normalize_inputs_loop_ind W
             (fun a b => heap a !! l = Some (ObjFileOutput fo) ->
                         heap b !! l = Some (ObjFileOutput fo)));
      [done | by auto | intros; by eapply normalize_input_FileOutput].
  - intros res ->. by apply normalize_inputs_loop_returns_list in Hrun.
Qed.

Lemma normalize_inputs_keeps_witness :
  exists st',
    _normalize_inputs sample_world (Some [VRef 0; VRef 1]) two_inputs_state =
      (Ok [VRef 0; VRef 1], st') /\
    length (heap st') = 2.
Proof.
  destruct (_normalize_inputs sample_world (Some [VRef 0; VRef 1]) two_inputs_state)
    as [r st'] eqn:Hrun.
  assert (Hr : r = Ok [VRef 0; VRef 1]).
  { apply (f_equal fst) in Hrun. vm_compute in Hrun. congruence. }
  subst r. exists st'. split; [reflexivity|].
  exact (proj1 (normalize_inputs_keeps sample_world _ _ _ _ Hrun)).
Defined.

(** ** Normalizing outputs: every case *)

(** One turn of the loop of [_normalize_outputs], case by case. *)
Lemma normalize_output_cases (W : World) (c : nat) (v : pyval) (st : State) :
  normalize_output W c v st =
  match v with
  | VStr x =>
      match _current_job_name (self st) with
      | Some jn =>
          (Ok (VRef (length (heap st))),
           {| self := self st;
              heap := heap st ++ [ObjFileOutput (wrapped_output W jn c x)];
              trace := trace st;
              clock := clock st |})
      | None => (Raise TypeError, st)
      end
  | VRef l =>
      match heap st !! l with
      | Some (ObjFileOutput fo) =>
          (Ok (VRef l),
           {| self := self st;
              heap := <[l := ObjFileOutput (named_output c fo)]> (heap st);
              trace := trace st;
              clock := clock st |})
      | _ => (Raise AttributeError, st)
      end
  | VNone => (Raise AttributeError, st)
  end.
Proof.
  destruct v as [|x|l].
  - done.
  - destruct (_current_job_name (self st)) as [jn|] eqn:Hjn.
    + by apply normalize_output_str.
    + unfold normalize_output, os_path.join. mred. by rewrite Hjn.
  - destruct (heap st !! l) as [[fi|fo|job]|] eqn:Hl.
    + unfold normalize_output. mred. by rewrite Hl.
    + by apply normalize_output_ref.
    + unfold normalize_output. mred. by rewrite Hl.
    + unfold normalize_output. mred. by rewrite Hl.
Qed.

Lemma named_output_le (c : nat) (fo : FileOutput.t) : output_le fo (named_output c fo).
Proof.
  unfold named_output. destruct (FileOutput.output_name fo) eqn:Hn.
  - apply output_le_refl.
  - unfold output_le. cbn. rewrite Hn. by repeat split.
Qed.

Lemma normalize_outputs_loop_ind (W : World) (P : State -> State -> Prop) :
  (forall st, P st st) ->
  (forall st1 st2 st3, P st1 st2 -> P st2 st3 -> P st1 st3) ->
  (forall c v st r st', normalize_output W c v st = (r, st') -> P st st') ->
  forall ls c acc st r st',
    normalize_outputs_loop W c ls acc st = (r, st') -> P st st'.
Proof.
  intros Hrefl Htrans Hstep.
  induction ls as [|v ls IH]; intros c acc st r st'; cbn [normalize_outputs_loop].
  - intros [= _ <-]. apply Hrefl.
  - unfold bind. destruct (normalize_output W c v st) as [[o|e] st1] eqn:Hv.
    + intros Hrest. eapply Htrans; [by eapply Hstep | by eapply IH].
    + intros [= _ <-]. by eapply Hstep.
Qed.

Lemma normalize_output_step (W : World) (c : nat) (v : pyval) (st st' : State)
  (r : result pyval) :
  normalize_output W c v st = (r, st') ->
  trace st' = trace st /\ self st' = self st /\ clock st' = clock st /\
  heap_le W (heap st) (heap st') /\
  (forall l fi, heap st !! l = Some (ObjFileInput fi) ->
                heap st' !! l = Some (ObjFileInput fi)).
Proof.
  rewrite normalize_output_cases.
  destruct v as [|x|l].
  - intros [= _ <-]. repeat split; try done. apply heap_le_refl.
  - destruct (_current_job_name (self st)); intros [= _ <-]; cbn.
    + repeat split; try done; [apply heap_le_app|].
      intros l fi Hl. by apply lookup_app_l_Some.
    + repeat split; try done. apply heap_le_refl.
  - destruct (heap st !! l) as [[fi|fo|job]|] eqn:Hl; intros [= _ <-]; cbn;
      repeat split; try done; try apply heap_le_refl.
    + eapply heap_le_insert; [done|]. apply named_output_le.
    + intros l' fi Hl'. rewrite list_lookup_insert_ne; [done | congruence].
Qed.

(** X4. Whether it returns or raises, [_normalize_outputs] uploads
    nothing, submits nothing and prints nothing: the trace is as before
    (asking the session for its default bucket, which it does for every
    string, is not an entry of the trace).  It leaves the processor alone,
    removes no object and changes no [FileInput]; of a [FileOutput] it can
    only fill in a missing name. *)
Theorem normalize_outputs_frame (W : World) (outputs : option (list pyval))
  (st st' : State) (r : result (list pyval)) :
  _normalize_outputs W outputs st = (r, st') ->
  trace st' = trace st /\ self st' = self st /\ clock st' = clock st /\
  heap_le W (heap st) (heap st') /\
  (forall l fi, heap st !! l = Some (ObjFileInput fi) ->
                heap st' !! l = Some (ObjFileInput fi)).
Proof.
  destruct outputs as [ls|]; cbn [_normalize_outputs].
  2: { intros [= _ <-]. repeat split; try done. apply heap_le_refl. }
  apply (normalize_outputs_loop_ind W
           (fun a b =>
              trace b = trace a /\ self b = self a /\ clock b = clock a /\
              heap_le W (heap a) (heap b) /\
              (forall l fi, heap a !! l = Some (ObjFileInput fi) ->
                            heap b !! l = Some (ObjFileInput fi)))).
  - intros s. repeat split; try done. apply heap_le_refl.
  - intros s1 s2 s3 (H1 & H2 & H3 & H4 & H5) (K1 & K2 & K3 & K4 & K5).
    repeat split; try congruence; [by eapply heap_le_trans | by auto].
  - intros c v s r0 s'. apply normalize_output_step.
Qed.

Lemma normalize_outputs_frame_witness :
  exists st',
    _normalize_outputs sample_world (Some [VStr "/opt/ml/out"; VNone]) one_output_state =
      (Raise AttributeError, st') /\
    trace st' = [].
Proof.
  destruct (_normalize_outputs sample_world (Some [VStr "/opt/ml/out"; VNone]) one_output_state)
    as [r st'] eqn:Hrun.
  assert (Hr : r = Raise AttributeError).
  { apply (f_equal fst) in Hrun. vm_compute in Hrun. congruence. }
  subst r. exists st'. split; [reflexivity|].
  exact (proj1 (normalize_outputs_frame sample_world _ _ _ _ Hrun)).
Defined.

Lemma is_bad_output_step (W : World) (c : nat) (v v' : pyval) (st st' : State)
  (r : result pyval) :
  normalize_output W c v st = (r, st') ->
  is_bad_output (heap st) v' = true -> is_bad_output (heap st') v' = true.
Proof.
  intros Hstep. destruct v' as [| |l]; try done. cbn [is_bad_output].
  destruct (heap st !! l) as [o|] eqn:Hl; [|done].
  destruct (normalize_output_step W c v st st' r Hstep) as (_ & _ & _ & Hle & _).
  destruct (Hle l o Hl) as (o' & -> & Hobj).
  by destruct o, o'.
Qed.

Lemma normalize_outputs_trace (W : World) (outputs : option (list pyval)) (st st' : State)
  (r : result (list pyval)) :
  _normalize_outputs W outputs st = (r, st') -> trace st' = trace st.
Proof.
  destruct outputs as [ls|]; cbn [_normalize_outputs]; [|by intros [= _ <-]].
  apply (normalize_outputs_loop_ind W (fun a b => trace b = trace a));
    [done | intros; congruence |].
  intros c v s r0 s' Hstep. by destruct (normalize_output_step W c v s s' r0 Hstep) as (-> & _).
Qed.

(** X5. Under a job name, a list of outputs with an element that is [None]
    or an object other than a [FileOutput] makes [_normalize_outputs] raise
    an [AttributeError] (where [_normalize_inputs] raises a [TypeError]);
    nothing has been uploaded, submitted or printed by then. *)
Theorem normalize_outputs_bad_element (W : World) (ls : list pyval) (st : State) (jn : string) :
  _current_job_name (self st) = Some jn ->
  (exists v, v ∈ ls /\ is_bad_output (heap st) v = true) ->
  exists st',
    _normalize_outputs W (Some ls) st = (Raise AttributeError, st') /\
    trace st' = trace st.
Proof.
  intros Hjn Hbad.
  assert (exists st', _normalize_outputs W (Some ls) st = (Raise AttributeError, st'))
    as [st' Hrun].
  { cbn [_normalize_outputs]. revert Hjn Hbad. generalize 1 (@nil pyval). revert st.
    induction ls as [|x ls IH]; intros st c acc Hjn (v & Hin & Hv);
      [by apply elem_of_nil in Hin|].
    cbn [normalize_outputs_loop]. unfold bind.
    destruct (normalize_output W c x st) as [[o|e] st1] eqn:Hstep.
    - destruct (normalize_output_step W c x st st1 _ Hstep) as (_ & Hself & _).
      apply IH; [by rewrite Hself|].
      apply elem_of_cons in Hin as [->|Hin].
      + exfalso. rewrite normalize_output_cases in Hstep.
        destruct x as [| |l]; try done. cbn in Hv.
        by destruct (heap st !! l) as [[]|].
      + exists v. split; [done|]. by eapply is_bad_output_step.
    - rewrite normalize_output_cases in Hstep. destruct x as [|y|l].
      + injection Hstep as <- <-. eauto.
      + by rewrite Hjn in Hstep.
      + destruct (heap st !! l) as [[]|]; try done; injection Hstep as <- <-; eauto. }
  exists st'. split; [done|].
  exact (normalize_outputs_trace W _ _ _ _ Hrun).
Qed.

Lemma normalize_outputs_bad_element_witness :
  _current_job_name (self one_input_state) = Some "job" /\
  (exists v, v ∈ [VStr "/opt/ml/out"; VRef 0] /\ is_bad_output (heap one_input_state) v = true) /\
  exists st',
    _normalize_outputs sample_world (Some [VStr "/opt/ml/out"; VRef 0]) one_input_state =
      (Raise AttributeError, st') /\
    trace st' = trace one_input_state.
Proof.
  assert (H2 : exists v, v ∈ [VStr "/opt/ml/out"; VRef 0] /\
                         is_bad_output (heap one_input_state) v = true).
  { exists (VRef 0). split; [by right; left | reflexivity]. }
  split; [reflexivity|]. split; [exact H2|].
  exact (normalize_outputs_bad_element sample_world _ one_input_state "job" eq_refl H2).
Defined.

(** ** Normalizing outputs: names and new objects *)

Lemma named_output_named (c c' : nat) (fo : FileOutput.t) :
  named_output c' (named_output c fo) = named_output c fo.
Proof.
  unfold named_output. destruct (FileOutput.output_name fo) eqn:Hn; cbn; [by rewrite Hn | done].
Qed.

Lemma normalize_outputs_loop_names (W : World) (jn : string) (ls : list pyval) :
  forall (c : nat) (acc : list pyval) (st : State),
    _current_job_name (self st) = Some jn ->
    (forall v, v ∈ ls -> is_output (heap st) v = true) ->
    exists res st',
      normalize_outputs_loop W c ls acc st = (Ok (acc ++ res), st') /\
      length (heap st') = length (heap st) + count_strings ls /\
      forall l fo,
        heap st !! l = Some (ObjFileOutput fo) ->
        heap st' !! l =
          Some (ObjFileOutput
                  (match first_index (VRef l) ls with
                   | Some i => named_output (c + i) fo
                   | None => fo
                   end)).
Proof.
  induction ls as [|v ls IH]; intros c acc st Hjn Hall.
  - exists [], st. cbn [normalize_outputs_loop count_strings first_index].
    rewrite app_nil_r, Nat.add_0_r. by repeat split.
  - assert (Hv : is_output (heap st) v = true) by (apply Hall; left).
    cbn [normalize_outputs_loop]. unfold bind. rewrite normalize_output_cases.
    destruct v as [|x|lx]; [done| |].
    + rewrite Hjn.
      match goal with |- context [normalize_outputs_loop _ _ _ _ ?s] => set (st1 := s) end.
      destruct (IH (S c) (acc ++ [VRef (length (heap st))]) st1) as (res & st' & Hrun & Hlen & Hobj).
      { done. }
      { intros v Hin. apply is_output_app, Hall. by right. }
      exists (VRef (length (heap st)) :: res), st'.
      split; [by rewrite Hrun, <- app_assoc|].
      split. { rewrite Hlen. cbn [st1 heap count_strings]. rewrite length_app. cbn. lia. }
      intros l fo Hl. rewrite (Hobj l fo) by (by apply lookup_app_l_Some).
      cbn [first_index]. rewrite decide_False by done.
      destruct (first_index (VRef l) ls) as [i|]; cbn; [|done].
      by replace (c + S i) with (S c + i) by lia.
    + cbn [is_output] in Hv.
      destruct (heap st !! lx) as [[|fx|]|] eqn:Hlx; try done.
      match goal with |- context [normalize_outputs_loop _ _ _ _ ?s] => set (st1 := s) end.
      destruct (IH (S c) (acc ++ [VRef lx]) st1) as (res & st' & Hrun & Hlen & Hobj).
      { done. }
      { intros v Hin. cbn [st1 heap]. rewrite (is_output_insert _ _ fx) by done.
        apply Hall. by right. }
      exists (VRef lx :: res), st'.
      split; [by rewrite Hrun, <- app_assoc|].
      split. { rewrite Hlen. cbn [st1 heap count_strings]. by rewrite length_insert. }
      intros l fo Hl. cbn [first_index].
      destruct (decide (VRef lx = VRef l)) as [[= <-]|Hne].
      * assert (fo = fx) as -> by congruence.
        rewrite (Hobj lx (named_output c fx)).
        2: { cbn [st1 heap]. apply list_lookup_insert_eq. by eapply lookup_lt_Some. }
        rewrite Nat.add_0_r.
        destruct (first_index (VRef lx) ls); [by rewrite named_output_named | done].
      * assert (lx <> l) by congruence.
        rewrite (Hobj l fo) by (cbn [st1 heap]; by rewrite list_lookup_insert_ne).
        destruct (first_index (VRef l) ls) as [i|]; cbn; [|done].
        by replace (c + S i) with (S c + i) by lia.
Qed.

(** X6. Under a job name, on a list of strings and [FileOutput]s,
    [_normalize_outputs] creates exactly one object per string, and a
    [FileOutput] of the list that had no name is named ["output-{i}"] for
    the 1-based position [i] of its first occurrence, strings counted; a
    [FileOutput] that had a name keeps it, and nothing else of it changes. *)
Theorem normalize_outputs_names (W : World) (ls : list pyval) (st : State) (jn : string) :
  _current_job_name (self st) = Some jn ->
  (forall v, v ∈ ls -> is_output (heap st) v = true) ->
  exists res st',
    _normalize_outputs W (Some ls) st = (Ok res, st') /\
    length (heap st') = length (heap st) + count_strings ls /\
    forall i l fo,
      ls !! i = Some (VRef l) ->
      (forall j, j < i -> ls !! j <> Some (VRef l)) ->
      heap st !! l = Some (ObjFileOutput fo) ->
      heap st' !! l =
        Some (ObjFileOutput {|
          FileOutput.source := FileOutput.source fo;
          FileOutput.destination := FileOutput.destination fo;
          FileOutput.output_name :=
            Some (match FileOutput.output_name fo with
                  | Some n => n
                  | None => "output-" +:+ str_of_nat (S i)
                  end);
          FileOutput.kms_key_id := FileOutput.kms_key_id fo;
          FileOutput.s3_upload_mode := FileOutput.s3_upload_mode fo |}).
Proof.
  intros Hjn Hall.
  destruct (normalize_outputs_loop_names W jn ls 1 [] st Hjn Hall) as (res & st' & Hrun & Hlen & Hobj).
  exists res, st'. split; [done|]. split; [done|].
  intros i l fo Hi Hfirst Hl. rewrite (Hobj l fo Hl).
  rewrite (proj2 (first_index_Some (VRef l) ls i)) by done.
  unfold named_output. destruct fo as [s d [n|] k m]; by cbn.
Qed.

Lemma normalize_outputs_names_witness :
  _current_job_name (self one_output_state) = Some "job" /\
  exists res st',
    _normalize_outputs sample_world (Some [VStr "/opt/ml/out"; VRef 0; VRef 0]) one_output_state =
      (Ok res, st') /\
    length (heap st') = 2 /\
    heap st' !! 0 =
      Some (ObjFileOutput {|
        FileOutput.source := "/opt/ml/processing/output";
        FileOutput.destination := "s3://bucket/results";
        FileOutput.output_name := Some "output-2";
        FileOutput.kms_key_id := None;
        FileOutput.s3_upload_mode := S3UploadMode.CONTINUOUS |}).
Proof.
  split; [reflexivity|].
  destruct (normalize_outputs_names sample_world [VStr "/opt/ml/out"; VRef 0; VRef 0]
              one_output_state "job" eq_refl
              (sample_outputs_typed one_output_state [VStr "/opt/ml/out"; VRef 0; VRef 0] eq_refl))
    as (res & st' & Hrun & Hlen & Hobj).
  exists res, st'. split; [exact Hrun|]. split; [exact Hlen|].
  apply (Hobj 1 0 plain_output eq_refl); [|reflexivity].
  intros [|j] Hj; [discriminate | lia].
Defined.

(** ** Normalizing inputs twice *)

Lemma normalize_input_settled (W : World) (c : nat) (v : pyval) (st : State) :
  is_settled_input W (heap st) v = true -> normalize_input W c v st = (Ok tt, st).
Proof.
  destruct v as [| |l]; try done. cbn [is_settled_input].
  destruct (heap st !! l) as [[fi| |]|] eqn:Hl; try done.
  destruct (FileInput.input_name fi) as [n|] eqn:Hn; [|done]. intros Hs.
  unfold normalize_input. mred. rewrite Hl.
  cbn [FileInput.source FileInput.set_input_name]. rewrite Hn, Hs. by mred.
Qed.

Lemma normalize_inputs_loop_settled (W : World) (ls : list pyval) (st : State) :
  (forall v, v ∈ ls -> is_settled_input W (heap st) v = true) ->
  forall c acc, normalize_inputs_loop W c ls acc st = (Ok (acc ++ ls), st).
Proof.
  intros Hall. induction ls as [|v ls IH]; intros c acc; cbn [normalize_inputs_loop].
  - by rewrite app_nil_r.
  - rewrite (bind_ok _ _ _ _ _ (normalize_input_settled W c v st (Hall v ltac:(by left)))).
    rewrite IH; [by rewrite <- app_assoc|]. intros x Hx. apply Hall. by right.
Qed.

(** X7. Descriptors that have a name and a remote source pass through
    [_normalize_inputs] untouched: the list comes back, nothing is
    uploaded, the store is as it was; no job name is needed for that. *)
Theorem normalize_inputs_settled (W : World) (ls : list pyval) (st : State) :
  (forall v, v ∈ ls -> is_settled_input W (heap st) v = true) ->
  _normalize_inputs W (Some ls) st = (Ok ls, st).
Proof. intros Hall. apply (normalize_inputs_loop_settled W ls st Hall 1 []). Qed.

Lemma normalize_inputs_settled_witness :
  (forall v, v ∈ [VRef 1; VRef 1] -> is_settled_input sample_world (heap two_inputs_state) v = true) /\
  _normalize_inputs sample_world (Some [VRef 1; VRef 1]) two_inputs_state =
    (Ok [VRef 1; VRef 1], two_inputs_state).
Proof.
  assert (H : forall v, v ∈ [VRef 1; VRef 1] ->
                        is_settled_input sample_world (heap two_inputs_state) v = true).
  { intros v Hv. apply elem_of_cons in Hv as [->|Hv]; [reflexivity|].
    apply list_elem_of_singleton in Hv as ->. reflexivity. }
  split; [exact H|]. exact (normalize_inputs_settled sample_world _ two_inputs_state H).
Defined.

(** X8. [_normalize_inputs] is idempotent: under a job name, with an
    uploader that answers with remote addresses, running it again on the
    list it returned changes nothing and uploads nothing. *)
Theorem normalize_inputs_idempotent (W : World) (ls : list pyval) (st : State) (jn : string) :
  _current_job_name (self st) = Some jn ->
  (forall p d, is_s3 W (S3Uploader_upload W p d) = true) ->
  (forall v, v ∈ ls -> is_FileInput (heap st) v = true) ->
  exists st1,
    _normalize_inputs W (Some ls) st = (Ok ls, st1) /\
    _normalize_inputs W (Some ls) st1 = (Ok ls, st1).
Proof.
  intros Hjn Hup Hall.
  destruct (normalize_inputs_loop_spec W jn ls 1 [] st Hjn Hall)
    as (st1 & evs & Hrun & _ & _ & Hobj).
  exists st1. split; [done|].
  apply (normalize_inputs_loop_settled W ls st1). intros v Hv.
  pose proof (Hall v Hv) as Hfi. destruct v as [| |l]; try done.
  cbn [is_FileInput] in Hfi. destruct (heap st !! l) as [[fi| |]|] eqn:Hl; try done.
  destruct (Hobj l fi Hl) as (fi' & Hfi' & Hrest).
  destruct (first_index_elem_of _ _ Hv) as [i Hi]. rewrite Hi in Hrest.
  destruct Hrest as (Hname & _ & Hfull). cbn [is_settled_input]. rewrite Hfi', Hname.
  rewrite (Hfull Hup). by apply normalized_input_remote.
Qed.

Lemma normalize_inputs_idempotent_witness :
  _current_job_name (self two_inputs_state) = Some "job" /\
  exists st1,
    _normalize_inputs sample_world (Some [VRef 0; VRef 1]) two_inputs_state =
      (Ok [VRef 0; VRef 1], st1) /\
    _normalize_inputs sample_world (Some [VRef 0; VRef 1]) st1 = (Ok [VRef 0; VRef 1], st1).
Proof.
  split; [reflexivity|].
  exact (normalize_inputs_idempotent sample_world [VRef 0; VRef 1] two_inputs_state "job"
           eq_refl sample_uploader_remote
           (sample_inputs_typed two_inputs_state [VRef 0; VRef 1] eq_refl)).
Defined.

(** ** A run, from naming to waiting *)

(** [Processor.run] in one equation. *)
Lemma Processor_run_eq (W : World) (inputs outputs : option (list pyval))
  (wait_ logs : bool) (job_name : option string) (st : State) :
  Processor_run W inputs outputs wait_ logs job_name st =
  match _normalize_inputs W inputs (run_start W job_name st) with
  | (Raise e, st2) => (Raise e, st2)
  | (Ok nin, st2) =>
      match _normalize_outputs W outputs st2 with
      | (Raise e, st3) => (Raise e, st3)
      | (Ok nout, st3) =>
          match mapR (serialize W (heap st3)) nin with
          | Raise e => (Raise e, st3)
          | Ok ins =>
              match mapR (serialize W (heap st3)) nout with
              | Raise e => (Raise e, st3)
              | Ok outs => (Ok tt, run_end st3 nin nout ins outs wait_ logs)
              end
          end
      end
  end.
Proof.
  unfold Processor_run.
  rewrite (bind_ok _ _ _ _ _ (generate_current_job_name_eq W job_name st)).
  unfold bind at 1. unfold modify at 1. fold (run_start W job_name st).
  unfold bind at 1.
  destruct (_normalize_inputs W inputs (run_start W job_name st)) as [[nin|e] st2]; [|done].
  unfold bind at 1.
  destruct (_normalize_outputs W outputs st2) as [[nout|e] st3]; [|done].
  unfold bind at 1. rewrite start_new_eq.
  destruct (mapR (serialize W (heap st3)) nin) as [ins|]; [|done].
  destruct (mapR (serialize W (heap st3)) nout) as [outs|]; [|done].
  unfold bind at 1. unfold modify at 1. unfold run_end, wait_events.
  destruct wait_; [|by rewrite app_nil_r].
  unfold wait.
  erewrite bind_ok; [|apply get_job_eq; cbn [set_self heap]; apply lookup_snoc].
  by destruct logs.
Qed.

Lemma run_start_self (W : World) (job_name : option string) (st : State) :
  self (run_start W job_name st) =
    with_current_job_name (Some (job_name_for W (self st) (clock st) job_name)) (self st) /\
  heap (run_start W job_name st) = heap st /\
  trace (run_start W job_name st) = trace st.
Proof. unfold run_start. by destruct job_name. Qed.

Lemma normalize_outputs_length (W : World) (outputs : option (list pyval)) (st st' : State)
  (r : result (list pyval)) :
  _normalize_outputs W outputs st = (r, st') -> length (heap st) <= length (heap st').
Proof.
  destruct outputs as [ls|]; cbn [_normalize_outputs]; [|by intros [= _ <-]].
  apply (normalize_outputs_loop_ind W (fun a b => length (heap a) <= length (heap b)));
    [done | intros; lia |].
  intros c v s r0 s' Hstep.
  destruct (normalize_output_step W c v s s' r0 Hstep) as (_ & _ & _ & Hle & _).
  by eapply heap_le_length.
Qed.

Lemma normalize_inputs_length (W : World) (inputs : option (list pyval)) (st st' : State)
  (r : result (list pyval)) :
  _normalize_inputs W inputs st = (r, st') -> length (heap st') = length (heap st).
Proof.
  destruct inputs as [ls|]; cbn [_normalize_inputs]; [|by intros [= _ <-]].
  apply (normalize_inputs_loop_ind W (fun a b => length (heap b) = length (heap a)));
    [done | congruence | intros; by eapply normalize_input_length].
Qed.

Lemma normalize_inputs_result (W : World) (inputs : option (list pyval)) (st st' : State)
  (res : list pyval) :
  _normalize_inputs W inputs st = (Ok res, st') -> res = default [] inputs.
Proof.
  destruct inputs as [ls|]; cbn [_normalize_inputs default]; [|by intros [= <- _]].
  apply normalize_inputs_loop_returns_list.
Qed.

(** X9. A [Processor.run] that returns has recorded its job: the record is
    a new object that carries the job name of the run and the list of
    inputs the caller gave; it is the processor's latest job and the last
    entry of its history, which is otherwise as before; and the last call
    of the run is the wait for that job name (with or without logs) when
    the run waits, and the submission under that name when it does not. *)
Theorem Processor_run_records_job (W : World) (inputs outputs : option (list pyval))
  (wait_ logs : bool) (job_name : option string) (st st' : State) :
  Processor_run W inputs outputs wait_ logs job_name st = (Ok tt, st') ->
  exists j nout kwargs,
    latest_job (self st') = Some j /\
    jobs (self st') = jobs (self st) ++ [j] /\
    length (heap st) <= j /\
    heap st' !! j =
      Some (ObjProcessingJob {|
        ProcessingJob.job_name := Some (job_name_for W (self st) (clock st) job_name);
        ProcessingJob.inputs := default [] inputs;
        ProcessingJob.outputs := nout |}) /\
    _current_job_name (self st') = Some (job_name_for W (self st) (clock st) job_name) /\
    kwargs !! "job_name" = Some (JStr (job_name_for W (self st) (clock st) job_name)) /\
    last (trace st') =
      Some (if wait_ then
              if logs
              then EvLogsForProcessingJob (Some (job_name_for W (self st) (clock st) job_name))
              else EvWaitForProcessingJob (Some (job_name_for W (self st) (clock st) job_name))
            else EvProcess kwargs).
Proof.
  rewrite Processor_run_eq.
  destruct (run_start_self W job_name st) as (Hself1 & Hheap1 & _).
  destruct (_normalize_inputs W inputs (run_start W job_name st)) as [[nin|e] st2] eqn:Hin;
    [|done].
  destruct (_normalize_outputs W outputs st2) as [[nout|e] st3] eqn:Hout; [|done].
  destruct (mapR (serialize W (heap st3)) nin) as [ins|]; [|done].
  destruct (mapR (serialize W (heap st3)) nout) as [outs|]; [|done].
  intros [= <-].
  destruct (quiet_normalize_inputs W inputs _ _ _ Hin) as (Hs2 & _).
  destruct (quiet_normalize_outputs W outputs _ _ _ Hout) as (Hs3 & _).
  assert (Hself : self st3 =
            with_current_job_name (Some (job_name_for W (self st) (clock st) job_name)) (self st))
    by congruence.
  pose proof (normalize_inputs_length W _ _ _ _ Hin) as Hlen2.
  pose proof (normalize_outputs_length W _ _ _ _ Hout) as Hlen3.
  apply normalize_inputs_result in Hin as ->.
  exists (length (heap st3)), nout, (process_request_args (self st3) ins outs).
  unfold run_end. cbn [self heap trace]. rewrite Hself.
  split; [done|]. split; [done|]. split; [rewrite <- Hheap1; lia|].
  split; [apply lookup_snoc|]. split; [done|].
  split; [by unfold process_request_args; simplify_map_eq|].
  unfold wait_events, submission_events. destruct wait_.
  - by rewrite last_snoc.
  - rewrite app_nil_r. by rewrite last_app_cons.
Qed.

Lemma Processor_run_records_job_witness :
  exists st',
    Processor_run sample_world (Some [VRef 0]) (Some [VStr "/opt/ml/out"]) true false None
      (initial_state sample_processor [ObjFileInput local_unnamed_input]) = (Ok tt, st') /\
    latest_job (self st') = Some 2 /\
    jobs (self st') = [2] /\
    last (trace st') = Some (EvWaitForProcessingJob (Some "image-0")).
Proof.
  destruct (Processor_run sample_world (Some [VRef 0]) (Some [VStr "/opt/ml/out"]) true false None
              (initial_state sample_processor [ObjFileInput local_unnamed_input]))
    as [r st'] eqn:Hrun.
  assert (Hr : r = Ok tt).
  { apply (f_equal fst) in Hrun. vm_compute in Hrun. congruence. }
  subst r. exists st'. split; [reflexivity|].
  destruct (Processor_run_records_job sample_world _ _ _ _ _ _ _ Hrun)
    as (j & nout & kw & Hlatest & Hjobs & _ & Hj & _ & _ & Hlast).
  assert (Hjv : j = 2).
  { apply (f_equal (fun p => latest_job (self (snd p)))) in Hrun.
    cbn beta in Hrun. cbn [snd] in Hrun. rewrite Hlatest in Hrun.
    vm_compute in Hrun. congruence. }
  subst j. split; [exact Hlatest|]. split; [exact Hjobs | exact Hlast].
Defined.

(** X10. A [Processor.run] that fails before the submission, in a
    normalization or in the serialization of a descriptor, raises that
    error having submitted nothing and recorded nothing: the processor's
    history and latest job are as before, and no entry the trace has
    gained is a submission. *)
Theorem Processor_run_rejects_before_submitting (W : World)
  (inputs outputs : option (list pyval)) (wait_ logs : bool) (job_name : option string)
  (st st' : State) (e : exn) :
  preparation_fails W inputs outputs (run_start W job_name st) e st' ->
  Processor_run W inputs outputs wait_ logs job_name st = (Raise e, st') /\
  jobs (self st') = jobs (self st) /\
  latest_job (self st') = latest_job (self st) /\
  exists evs,
    trace st' = trace st ++ evs /\
    forall ev, ev ∈ evs -> is_submission ev = false.
Proof.
  intros Hprep. rewrite Processor_run_eq.
  destruct (run_start_self W job_name st) as (Hself1 & _ & Htr1).
  destruct Hprep as [Hin|(nin & s1 & Hin & Hprep)].
  { rewrite Hin. split; [done|].
    destruct (quiet_normalize_inputs W inputs _ _ _ Hin) as (Hs2 & _ & evs2 & Ht2 & He2).
    rewrite Hs2, Hself1. split; [done|]. split; [done|].
    exists evs2. split; [by rewrite Ht2, Htr1 | done]. }
  rewrite Hin.
  destruct (quiet_normalize_inputs W inputs _ _ _ Hin) as (Hs2 & _ & evs2 & Ht2 & He2).
  assert (Hrest : forall r, _normalize_outputs W outputs s1 = (r, st') ->
            jobs (self st') = jobs (self st) /\
            latest_job (self st') = latest_job (self st) /\
            exists evs, trace st' = trace st ++ evs /\
                        forall ev, ev ∈ evs -> is_submission ev = false).
  { intros r Hout.
    destruct (quiet_normalize_outputs W outputs _ _ _ Hout) as (Hs3 & _ & evs3 & Ht3 & He3).
    rewrite Hs3, Hs2, Hself1. split; [done|]. split; [done|].
    exists (evs2 ++ evs3). split; [by rewrite Ht3, Ht2, Htr1, app_assoc|].
    intros ev [?|?]%elem_of_app; auto. }
  destruct Hprep as [Hout|(nout & Hout & Hser)].
  { rewrite Hout. split; [done | by eapply Hrest]. }
  rewrite Hout. split; [|by eapply Hrest].
  rewrite !mapM_to_request_dict in Hser.
  destruct Hser as [[= ->]|(ins & [= ->] & [= ->])]; done.
Qed.

Lemma Processor_run_rejects_before_submitting_witness :
  exists st',
    preparation_fails sample_world (Some [VRef 0]) None
      (run_start sample_world None
         (initial_state sample_processor [ObjFileInput gzip_file_input]))
      ValueError st' /\
    Processor_run sample_world (Some [VRef 0]) None true true None
      (initial_state sample_processor [ObjFileInput gzip_file_input]) = (Raise ValueError, st') /\
    jobs (self st') = [] /\
    latest_job (self st') = None.
Proof.
  assert (Hprep : exists st',
            preparation_fails sample_world (Some [VRef 0]) None
              (run_start sample_world None
                 (initial_state sample_processor [ObjFileInput gzip_file_input]))
              ValueError st').
  { eexists. right. eexists _, _. split; [vm_compute; reflexivity|].
    right. eexists. split; [vm_compute; reflexivity|].
    left. vm_compute. reflexivity. }
  destruct Hprep as [st' Hprep]. exists st'. split; [exact Hprep|].
  destruct (Processor_run_rejects_before_submitting sample_world _ _ true true _ _ _ _ Hprep)
    as (Hrun & H1 & H2 & _).
  split; [exact Hrun|]. split; [exact H1 | exact H2].
Defined.

(** ** Paths: where things are put *)

(** X11. For a bucket and a job name that are plain path components (not
    empty, no ["/"] at either end) and a last component that does not
    start with ["/"], the address the module builds with
    [os.path.join("s3://", bucket, job-name, x)] is
    ["s3://<bucket>/<job-name>/<x>"]: so are the desired location of an
    input named [x], the destination of a wrapped output ([x = "output"])
    and the location of the uploaded source ([x = "source"]). *)
Theorem remote_location_of_plain_names (W : World) (jn : string) :
  plain (default_bucket W) -> plain jn ->
  (forall name, os_path.startswith_sep name = false ->
     desired_input_uri W jn name = "s3://" +:+ default_bucket W +:+ "/" +:+ jn +:+ "/" +:+ name) /\
  (forall c x,
     FileOutput.destination (wrapped_output W jn c x) =
       "s3://" +:+ default_bucket W +:+ "/" +:+ jn +:+ "/output") /\
  os_path.posix_join "s3://" [default_bucket W; jn; CODE_CONTAINER_INPUT_NAME] =
    "s3://" +:+ default_bucket W +:+ "/" +:+ jn +:+ "/source".
Proof.
  intros Hb Hj. split; [|split].
  - intros name Hn. by apply join_three_plain.
  - intros c x. cbn [wrapped_output FileOutput.destination]. by rewrite join_three_plain.
  - unfold CODE_CONTAINER_INPUT_NAME. by rewrite join_three_plain.
Qed.

Lemma remote_location_of_plain_names_witness :
  plain (default_bucket sample_world) /\ plain "job" /\
  desired_input_uri sample_world "job" "input-1" = "s3://bucket/job/input-1".
Proof.
  assert (H1 : plain (default_bucket sample_world)) by (by repeat split).
  assert (H2 : plain "job") by (by repeat split).
  split; [exact H1|]. split; [exact H2|].
  exact (proj1 (remote_location_of_plain_names sample_world "job" H1 H2) "input-1" eq_refl).
Defined.

(** X12. A last component that starts with ["/"] replaces everything
    before it: an input named ["/x"] is to be uploaded to ["/x"], outside
    the bucket and the job's namespace, and a script name ["/x"] gives the
    script location ["/x"], outside ["/code/source"]. *)
Theorem absolute_name_discards_prefix (W : World) (jn x : string) :
  desired_input_uri W jn (String "/" x) = String "/" x /\
  customer_script_location (String "/" x) = String "/" x.
Proof.
  split.
  - unfold desired_input_uri.
    apply (posix_join_absolute_last "s3://" [default_bucket W; jn] x).
  - unfold customer_script_location.
    apply (posix_join_absolute_last CODE_CONTAINER_BASE_PATH [CODE_CONTAINER_INPUT_NAME] x).
Qed.

(** X13. A script name that [_get_customer_script_name] derives from the
    source (no [script_name] given) contains no ["/"], and the script is
    then looked for at ["/code/source/<name>"]. *)
Theorem derived_script_name_location (W : World) (source name : string) :
  _get_customer_script_name W source None = Ok name ->
  name = os_path.basename source /\
  has_char "/" name = false /\
  customer_script_location name = "/code/source/" +:+ name.
Proof.
  unfold _get_customer_script_name.
  destruct (isdir W source); [done|].
  destruct (is_s3 W source || isfile W source); [|done].
  intros [= <-]. split; [done|].
  pose proof (basename_no_sep source) as Hno. split; [exact Hno|].
  unfold customer_script_location, os_path.posix_join. cbn [foldl].
  assert (Hstart : os_path.startswith_sep (os_path.basename source) = false).
  { destruct (os_path.basename source) as [|c s]; [done|].
    unfold has_char in Hno. cbn in Hno. apply orb_false_iff in Hno as [Hc _]. exact Hc. }
  change (os_path.join_step CODE_CONTAINER_BASE_PATH CODE_CONTAINER_INPUT_NAME)
    with "/code/source".
  unfold os_path.join_step. by rewrite Hstart.
Qed.

Lemma derived_script_name_location_witness :
  _get_customer_script_name sample_world "s3://bucket/code/run.py" None = Ok "run.py" /\
  customer_script_location "run.py" = "/code/source/run.py".
Proof.
  assert (H : _get_customer_script_name sample_world "s3://bucket/code/run.py" None = Ok "run.py")
    by (vm_compute; reflexivity).
  split; [exact H|].
  exact (proj2 (proj2 (derived_script_name_location sample_world _ _ H))).
Defined.

(** X14. A script whose final path segment has no dot has no extension,
    whatever dots its directories have: script mode refuses it with a
    [ValueError] and leaves the processor's entry point as it was. *)
Theorem script_without_extension_refused (tag name : string) (st : State) :
  has_char "." (os_path.basename name) = false ->
  _get_execution_program tag name = Raise ValueError /\
  _set_entrypoint name st = (Raise ValueError, st).
Proof.
  intros Hno.
  assert (H : forall t, _get_execution_program t name = Raise ValueError).
  { intros t. unfold _get_execution_program. by rewrite (splitext_no_dot name Hno). }
  split; [apply H|]. by rewrite set_entrypoint_eq, H.
Qed.

Lemma script_without_extension_refused_witness :
  has_char "." (os_path.basename "tools.d/run") = false /\
  _get_execution_program "py3" "tools.d/run" = Raise ValueError.
Proof.
  assert (H : has_char "." (os_path.basename "tools.d/run") = false) by (vm_compute; reflexivity).
  split; [exact H|].
  exact (proj1 (script_without_extension_refused "py3" "tools.d/run"
                  (initial_state sample_processor []) H)).
Defined.

(** ** Script mode, from the source to the submission *)

(** [ScriptModeProcessor.run] in one equation. *)
Lemma ScriptModeProcessor_run_eq (W : World) (source : string) (script_name : option string)
  (inputs outputs : option (list pyval)) (wait_ logs : bool) (job_name : option string)
  (st : State) :
  ScriptModeProcessor_run W source script_name inputs outputs wait_ logs job_name st =
  match _get_customer_script_name W source script_name with
  | Raise e => (Raise e, run_start W job_name st)
  | Ok csn =>
      match inputs with
      | None => (Raise AttributeError, script_uploaded W source job_name st)
      | Some input_list =>
          match _get_execution_program (py_version (self st)) csn with
          | Raise e => (Raise e, script_uploaded W source job_name st)
          | Ok prog =>
              Processor_run W (Some (input_list ++ [VRef (length (heap st))]))
                outputs wait_ logs job_name
                (set_self
                   (with_entrypoint (Some [prog; customer_script_location csn])
                      (self (script_uploaded W source job_name st)))
                   (script_uploaded W source job_name st))
          end
      end
  end.
Proof.
  unfold ScriptModeProcessor_run.
  rewrite (bind_ok _ _ _ _ _ (generate_current_job_name_eq W job_name st)).
  unfold bind at 1. unfold modify at 1. fold (run_start W job_name st).
  unfold bind at 1. unfold lift at 1.
  destruct (_get_customer_script_name W source script_name) as [csn|]; [|done].
  destruct (run_start_self W job_name st) as (Hself & Hheap & Htr).
  assert (Hup : _upload_source W source (run_start W job_name st) =
                (Ok (S3Uploader_upload W source
                       (os_path.posix_join "s3://"
                          [default_bucket W; job_name_for W (self st) (clock st) job_name;
                           CODE_CONTAINER_INPUT_NAME])),
                 add_event
                   (EvUpload source
                      (os_path.posix_join "s3://"
                         [default_bucket W; job_name_for W (self st) (clock st) job_name;
                          CODE_CONTAINER_INPUT_NAME]))
                   (run_start W job_name st))).
  { unfold _upload_source, os_path.join. mred. rewrite Hself.
    cbn [with_current_job_name _current_job_name os_path.all_str]. by mred. }
  rewrite (bind_ok _ _ _ _ _ Hup).
  set (up := add_event _ (run_start W job_name st)).
  assert (Hup' : script_uploaded W source job_name st =
                 set_heap (heap up ++
                   [ObjFileInput (source_file_input W source
                      (job_name_for W (self st) (clock st) job_name))]) up) by reflexivity.
  destruct inputs as [input_list|].
  2: { unfold _convert_source_and_add_to_inputs, bind, alloc, raise. by rewrite Hup'. }
  assert (Hconv : _convert_source_and_add_to_inputs (Some input_list)
                    (S3Uploader_upload W source
                       (os_path.posix_join "s3://"
                          [default_bucket W; job_name_for W (self st) (clock st) job_name;
                           CODE_CONTAINER_INPUT_NAME])) up =
                  (Ok (input_list ++ [VRef (length (heap st))]),
                   script_uploaded W source job_name st)).
  { unfold _convert_source_and_add_to_inputs, bind, alloc, ret. rewrite Hup'.
    subst up. cbn [add_event heap]. by rewrite Hheap. }
  rewrite (bind_ok _ _ _ _ _ Hconv).
  unfold bind at 1.
  rewrite set_entrypoint_eq.
  replace (py_version (self (script_uploaded W source job_name st))) with (py_version (self st)).
  2: { cbn [script_uploaded self]. by rewrite Hself. }
  by destruct (_get_execution_program (py_version (self st)) csn).
Qed.

(** X15. Script mode checks the script's extension only after the upload:
    when the name resolves but its extension is not supported, the run
    raises the [ValueError] with the source already uploaded to
    [os.path.join("s3://", bucket, job-name, "source")]; that upload is the
    one entry the trace has gained, so nothing is submitted, and the
    processor's entry point is as before. *)
Theorem script_run_bad_extension_after_upload (W : World) (source : string)
  (script_name : option string) (input_list : list pyval) (outputs : option (list pyval))
  (wait_ logs : bool) (job_name : option string) (st : State) (csn : string) (e : exn) :
  _get_customer_script_name W source script_name = Ok csn ->
  _get_execution_program (py_version (self st)) csn = Raise e ->
  exists st',
    ScriptModeProcessor_run W source script_name (Some input_list) outputs wait_ logs
      job_name st = (Raise e, st') /\
    trace st' =
      trace st ++
      [EvUpload source
         (os_path.posix_join "s3://"
            [default_bucket W; job_name_for W (self st) (clock st) job_name;
             CODE_CONTAINER_INPUT_NAME])] /\
    entrypoint (self st') = entrypoint (self st).
Proof.
  intros Hname Hprog. rewrite ScriptModeProcessor_run_eq, Hname, Hprog.
  eexists. split; [reflexivity|].
  destruct (run_start_self W job_name st) as (Hself & _ & Htr).
  cbn [script_uploaded self trace]. rewrite Hself, Htr. by split.
Qed.

Lemma script_run_bad_extension_after_upload_witness :
  _get_customer_script_name sample_world "s3://bucket/code/notes.txt" None = Ok "notes.txt" /\
  _get_execution_program (py_version (self (initial_state sample_processor []))) "notes.txt"
    = Raise ValueError /\
  exists st',
    ScriptModeProcessor_run sample_world "s3://bucket/code/notes.txt" None (Some []) None
      true true (Some "job") (initial_state sample_processor []) = (Raise ValueError, st') /\
    trace st' = [EvUpload "s3://bucket/code/notes.txt" "s3://bucket/job/source"].
Proof.
  assert (H1 : _get_customer_script_name sample_world "s3://bucket/code/notes.txt" None
               = Ok "notes.txt") by (vm_compute; reflexivity).
  assert (H2 : _get_execution_program (py_version (self (initial_state sample_processor [])))
                 "notes.txt" = Raise ValueError) by (vm_compute; reflexivity).
  split; [exact H1|]. split; [exact H2|].
  destruct (script_run_bad_extension_after_upload sample_world "s3://bucket/code/notes.txt"
              None [] None true true (Some "job") (initial_state sample_processor [])
              "notes.txt" ValueError H1 H2) as (st' & Hrun & Htr & _).
  exists st'. split; [exact Hrun | exact Htr].
Defined.

Lemma mapR_length {A B : Type} (f : A -> result B) (l : list A) (ys : list B) :
  mapR f l = Ok ys -> length ys = length l.
Proof.
  revert ys. induction l as [|a l IH]; intros ys; cbn.
  - by intros [= <-].
  - destruct (f a); [|done]. destruct (mapR f l) as [ys'|]; [|done].
    intros [= <-]. cbn. by rewrite (IH ys').
Qed.

Lemma normalize_inputs_heap_le (W : World) (inputs : option (list pyval)) (st st' : State)
  (r : result (list pyval)) :
  _normalize_inputs W inputs st = (r, st') -> heap_le W (heap st) (heap st').
Proof.
  destruct inputs as [ls|]; cbn [_normalize_inputs].
  2: { intros [= _ <-]. apply heap_le_refl. }
  apply (normalize_inputs_loop_ind W (fun a b => heap_le W (heap a) (heap b)));
    [intros; apply heap_le_refl | intros ???; apply heap_le_trans
    | intros; by eapply keeps_normalize_input].
Qed.

Lemma normalize_outputs_FileInput (W : World) (outputs : option (list pyval)) (st st' : State)
  (r : result (list pyval)) (l : loc) (fi : FileInput.t) :
  _normalize_outputs W outputs st = (r, st') ->
  heap st !! l = Some (ObjFileInput fi) -> heap st' !! l = Some (ObjFileInput fi).
Proof.
  destruct outputs as [ls|]; cbn [_normalize_outputs]; [|by intros [= _ <-]].
  apply (normalize_outputs_loop_ind W
           (fun a b => heap a !! l = Some (ObjFileInput fi) ->
                       heap b !! l = Some (ObjFileInput fi)));
    [done | by auto |].
  intros c v s r0 s' Hstep.
  destruct (normalize_output_step W c v s s' r0 Hstep) as (_ & _ & _ & _ & H). apply H.
Qed.

(** X16. A script-mode run that returns has submitted a request whose
    application specification carries the entry point
    [[interpreter, os.path.join("/code/", "source", script-name)]] and
    whose inputs are the caller's inputs followed, last, by the channel of
    the uploaded source, named ["source"] and mounted at
    ["/code/source"]; the entry point stays set on the processor. *)
Theorem script_run_submits_entrypoint_and_source (W : World) (source : string)
  (script_name : option string) (input_list : list pyval) (outputs : option (list pyval))
  (wait_ logs : bool) (job_name : option string) (st st' : State) :
  ScriptModeProcessor_run W source script_name (Some input_list) outputs wait_ logs
    job_name st = (Ok tt, st') ->
  exists csn interpreter kwargs app ins d s3_input,
    _get_customer_script_name W source script_name = Ok csn /\
    _get_execution_program (py_version (self st)) csn = Ok interpreter /\
    EvProcess kwargs ∈ trace st' /\
    kwargs !! "app_specification" = Some (JDict app) /\
    app !! "ContainerEntrypoint" =
      Some (JList [JStr interpreter; JStr (customer_script_location csn)]) /\
    entrypoint (self st') = Some [interpreter; customer_script_location csn] /\
    kwargs !! "inputs" = Some (JList ins) /\
    length ins = S (length input_list) /\
    last ins = Some (JDict d) /\
    d !! "InputName" = Some (JStr "source") /\
    d !! "S3Input" = Some (JDict s3_input) /\
    s3_input !! "LocalPath" = Some (JStr "/code/source").
Proof.
  rewrite ScriptModeProcessor_run_eq.
  destruct (_get_customer_script_name W source script_name) as [csn|]; [|done].
  destruct (_get_execution_program (py_version (self st)) csn) as [prog|] eqn:Hprog; [|done].
  set (jn := job_name_for W (self st) (clock st) job_name).
  set (stB := set_self _ (script_uploaded W source job_name st)).
  rewrite Processor_run_eq.
  destruct (run_start_self W job_name stB) as (Hself1 & Hheap1 & _).
  destruct (_normalize_inputs W _ (run_start W job_name stB)) as [[nin|] st2] eqn:Hin; [|done].
  destruct (_normalize_outputs W outputs st2) as [[nout|] st3] eqn:Hout; [|done].
  destruct (mapR (serialize W (heap st3)) nin) as [ins|] eqn:Hins; [|done].
  destruct (mapR (serialize W (heap st3)) nout) as [outs|]; [|done].
  intros [= <-].
  destruct (quiet_normalize_inputs W _ _ _ _ Hin) as (Hs2 & _).
  destruct (quiet_normalize_outputs W outputs _ _ _ Hout) as (Hs3 & _).
  assert (Hentry : entrypoint (self st3) = Some [prog; customer_script_location csn]).
  { by rewrite Hs3, Hs2, Hself1. }
  (* the source descriptor, from its creation to the submission *)
  assert (Hsrc0 : heap (run_start W job_name stB) !! length (heap st) =
                  Some (ObjFileInput (source_file_input W source jn))).
  { rewrite Hheap1. cbn [stB set_self heap script_uploaded].
    destruct (run_start_self W job_name st) as (_ & -> & _). apply lookup_snoc. }
  destruct (normalize_inputs_heap_le W _ _ _ _ Hin _ _ Hsrc0) as (o & Ho & Hle).
  destruct o as [fi'| |]; try done. cbn [obj_le] in Hle.
  destruct Hle as (Hdst & _ & _ & _ & _ & _ & Hname & _).
  pose proof (normalize_outputs_FileInput W _ _ _ _ _ _ Hout Ho) as Hsrc3.
  apply normalize_inputs_result in Hin. cbn in Hin. subst nin.
  pose proof (mapR_length _ _ _ Hins) as Hlen. rewrite length_app in Hlen. cbn [length] in Hlen.
  destruct (mapR_lookup _ _ _ (length input_list) (VRef (length (heap st))) Hins)
    as (y & Hy & Hser).
  { by rewrite list_lookup_middle. }
  unfold serialize in Hser. rewrite Hsrc3 in Hser.
  destruct (FileInput.to_request_dict W fi') as [d|] eqn:Hd; [|done].
  injection Hser as <-.
  unfold FileInput.to_request_dict in Hd. destruct (_ && _); [done|]. injection Hd as <-.
  eexists csn, prog, (process_request_args (self st3) ins outs), (app_specification (self st3)),
    ins, _, (FileInput.s3_input W fi').
  split; [done|]. split; [exact Hprog|].
  split.
  { unfold run_end. cbn [trace]. unfold submission_events.
    apply elem_of_app. left. apply elem_of_app. right.
    do 3 apply list_elem_of_further. apply list_elem_of_here. }
  split; [by unfold process_request_args; simplify_map_eq|].
  split.
  { unfold app_specification. rewrite Hentry. by rewrite lookup_insert_eq. }
  split; [by unfold run_end; cbn [self with_latest_job entrypoint]|].
  split; [by unfold process_request_args; simplify_map_eq|].
  split; [lia|].
  split.
  { rewrite last_lookup. replace (pred (length ins)) with (length input_list) by lia. exact Hy. }
  split.
  { rewrite lookup_insert_ne by done. rewrite lookup_insert_eq.
    by rewrite (Hname "source" eq_refl). }
  split; [by rewrite lookup_insert_eq|].
  unfold FileInput.s3_input, FileInput.s3_input_base. rewrite Hdst.
  destruct (FileInput.s3_compression_type fi'); by simplify_map_eq.
Qed.

Lemma script_run_submits_entrypoint_and_source_witness :
  exists st',
    ScriptModeProcessor_run sample_world "script.sh" None (Some []) None false false
      (Some "job") (initial_state sample_processor []) = (Ok tt, st') /\
    entrypoint (self st') = Some ["bash"; "/code/source/script.sh"].
Proof.
  destruct (ScriptModeProcessor_run sample_world "script.sh" None (Some []) None false false
              (Some "job") (initial_state sample_processor [])) as [r st'] eqn:Hrun.
  assert (Hr : r = Ok tt).
  { apply (f_equal fst) in Hrun. vm_compute in Hrun. congruence. }
  subst r. exists st'. split; [reflexivity|].
  destruct (script_run_submits_entrypoint_and_source sample_world _ _ _ _ _ _ _ _ _ Hrun)
    as (csn & prog & kw & app & ins & d & s3 & Hcsn & Hprog & _ & _ & _ & Hentry & _).
  assert (csn = "script.sh") as -> by (vm_compute in Hcsn; congruence).
  assert (prog = "bash") as -> by (vm_compute in Hprog; congruence).
  exact Hentry.
Defined.

Lemma serialize_named_input (W : World) (h : list pyobj) (l : loc) (fi : FileInput.t)
  (n : string) (y : jval) :
  h !! l = Some (ObjFileInput fi) -> FileInput.input_name fi = Some n ->
  serialize W h (VRef l) = Ok y ->
  exists d, y = JDict d /\ d !! "InputName" = Some (JStr n).
Proof.
  intros Hl Hn. unfold serialize. rewrite Hl.
  destruct (FileInput.to_request_dict W fi) as [d|] eqn:Hd; [|done].
  intros [= <-]. exists d. split; [done|].
  unfold FileInput.to_request_dict in Hd. destruct (_ && _); [done|]. injection Hd as <-.
  rewrite lookup_insert_ne by done. rewrite lookup_insert_eq. by rewrite Hn.
Qed.

(** X17. Script mode does not reserve the name of its source channel: when
    one of the caller's inputs is a [FileInput] named ["source"], a run
    that returns has submitted two input channels of that name, the
    caller's at its position and the uploaded source's at the end. *)
Theorem script_run_source_name_not_reserved (W : World) (source : string)
  (script_name : option string) (input_list : list pyval) (outputs : option (list pyval))
  (wait_ logs : bool) (job_name : option string) (st st' : State)
  (i : nat) (l : loc) (fi : FileInput.t) :
  ScriptModeProcessor_run W source script_name (Some input_list) outputs wait_ logs
    job_name st = (Ok tt, st') ->
  input_list !! i = Some (VRef l) ->
  heap st !! l = Some (ObjFileInput fi) ->
  FileInput.input_name fi = Some "source" ->
  exists kwargs ins d d',
    EvProcess kwargs ∈ trace st' /\
    kwargs !! "inputs" = Some (JList ins) /\
    i < length input_list /\
    ins !! i = Some (JDict d) /\
    ins !! length input_list = Some (JDict d') /\
    d !! "InputName" = Some (JStr "source") /\
    d' !! "InputName" = Some (JStr "source").
Proof.
  intros Hrun Hi Hl Hn. revert Hrun. rewrite ScriptModeProcessor_run_eq.
  destruct (_get_customer_script_name W source script_name) as [csn|]; [|done].
  destruct (_get_execution_program (py_version (self st)) csn) as [prog|]; [|done].
  set (jn := job_name_for W (self st) (clock st) job_name).
  set (stB := set_self _ (script_uploaded W source job_name st)).
  rewrite Processor_run_eq.
  destruct (run_start_self W job_name stB) as (_ & Hheap1 & _).
  destruct (_normalize_inputs W _ (run_start W job_name stB)) as [[nin|] st2] eqn:Hin; [|done].
  destruct (_normalize_outputs W outputs st2) as [[nout|] st3] eqn:Hout; [|done].
  destruct (mapR (serialize W (heap st3)) nin) as [ins|] eqn:Hins; [|done].
  destruct (mapR (serialize W (heap st3)) nout) as [outs|]; [|done].
  intros [= <-].
  assert (Hheap0 : heap (run_start W job_name stB) =
                   heap st ++ [ObjFileInput (source_file_input W source jn)]).
  { rewrite Hheap1. cbn [stB set_self heap script_uploaded].
    by destruct (run_start_self W job_name st) as (_ & -> & _). }
  assert (Hnamed : forall k fk,
             heap (run_start W job_name stB) !! k = Some (ObjFileInput fk) ->
             FileInput.input_name fk = Some "source" ->
             exists fk', heap st3 !! k = Some (ObjFileInput fk') /\
                         FileInput.input_name fk' = Some "source").
  { intros k fk Hk Hnk.
    destruct (normalize_inputs_heap_le W _ _ _ _ Hin _ _ Hk) as (o & Ho & Hle).
    destruct o as [fk'| |]; try done. cbn [obj_le] in Hle.
    destruct Hle as (_ & _ & _ & _ & _ & _ & Hname & _).
    exists fk'. split; [by eapply normalize_outputs_FileInput | by apply Hname]. }
  destruct (Hnamed l fi) as (fi' & Hl3 & Hn3);
    [rewrite Hheap0; by apply lookup_app_l_Some | done |].
  destruct (Hnamed (length (heap st)) (source_file_input W source jn)) as (fs & Hs3 & Hns);
    [rewrite Hheap0; apply lookup_snoc | done |].
  apply normalize_inputs_result in Hin. cbn in Hin. subst nin.
  destruct (mapR_lookup _ _ _ i (VRef l) Hins) as (y & Hy & Hser);
    [by apply lookup_app_l_Some|].
  destruct (mapR_lookup _ _ _ (length input_list) (VRef (length (heap st))) Hins)
    as (y' & Hy' & Hser'); [by rewrite list_lookup_middle|].
  destruct (serialize_named_input W _ _ _ _ _ Hl3 Hn3 Hser) as (d & -> & Hd).
  destruct (serialize_named_input W _ _ _ _ _ Hs3 Hns Hser') as (d' & -> & Hd').
  exists (process_request_args (self st3) ins outs), ins, d, d'.
  split.
  { unfold run_end. cbn [trace]. unfold submission_events.
    apply elem_of_app. left. apply elem_of_app. right.
    do 3 apply list_elem_of_further. apply list_elem_of_here. }
  split; [by unfold process_request_args; simplify_map_eq|].
  split; [by eapply lookup_lt_Some|].
  done.
Qed.

Lemma script_run_source_name_not_reserved_witness :
  exists st' kwargs ins d d',
    ScriptModeProcessor_run sample_world "script.sh" None (Some [VRef 0]) None false false
      (Some "job") (initial_state sample_processor [ObjFileInput source_named_input])
      = (Ok tt, st') /\
    EvProcess kwargs ∈ trace st' /\
    kwargs !! "inputs" = Some (JList ins) /\
    ins !! 0 = Some (JDict d) /\ ins !! 1 = Some (JDict d') /\
    d !! "InputName" = Some (JStr "source") /\
    d' !! "InputName" = Some (JStr "source").
Proof.
  destruct (ScriptModeProcessor_run sample_world "script.sh" None (Some [VRef 0]) None
              false false (Some "job")
              (initial_state sample_processor [ObjFileInput source_named_input]))
    as [r st'] eqn:Hrun.
  assert (Hr : r = Ok tt).
  { apply (f_equal fst) in Hrun. vm_compute in Hrun. congruence. }
  subst r.
  destruct (script_run_source_name_not_reserved sample_world _ _ _ _ _ _ _ _ _ 0 0
              source_named_input Hrun eq_refl eq_refl eq_refl)
    as (kw & ins & d & d' & H1 & H2 & _ & H3 & H4 & H5 & H6).
  by exists st', kw, ins, d, d'.
Defined.
